(** * Confluence Data Center MCP server: restriction engine and directory sync

    A shallow embedding of [mcp-confluence-datacenter.py].  The tools are
    asynchronous request/response functions over an HTTP client; they are
    embedded as functions in a small monad that threads the list of requests
    issued so far and propagates Python exceptions.  The backend is an
    arbitrary function from the history of requests and the current request
    to a reply, so that every statement below quantifies over every possible
    behaviour of the server.

    Conventions of the embedding:
    - a Python [str] is a [string]; its characters are the code points
      U+0000..U+00FF;
    - a value obtained from [response.json()] is a [json]; numbers are
      integers, and a [JDict] lists the entries of the parsed object (keys
      distinct), looked up from the front;
    - Python's [None] is [JNull] wherever a function returns
      [Optional[...]] computed from a response;
    - only exceptions deriving from [Exception] are modelled; the messages of
      the exceptions the interpreter raises are those of CPython 3.11. *)

From Stdlib Require Import String Ascii List ZArith Bool Lia.
From Stdlib Require Import DecimalString.
Import ListNotations.
Local Open Scope string_scope.
Local Open Scope Z_scope.
Set Warnings "-register-all".

(** ** Strings as Python uses them *)

Module PyString.

(** [needle in hay] for two strings. *)
Fixpoint contains (needle hay : string) : bool :=
  if String.prefix needle hay then true
  else match hay with
       | EmptyString => false
       | String _ rest => contains needle rest
       end.

(** [sep.join(parts)]. *)
Fixpoint join (sep : string) (parts : list string) : string :=
  match parts with
  | [] => ""
  | [p] => p
  | p :: rest => p ++ sep ++ join sep rest
  end.

(** [s[:n]]. *)
Definition take (n : nat) (s : string) : string := String.substring 0 n s.

Definition lower_char (c : ascii) : ascii :=
  let n := nat_of_ascii c in
  if ((65 <=? n) && (n <=? 90))%nat then ascii_of_nat (n + 32)
  else if ((192 <=? n) && (n <=? 222) && negb (n =? 215))%nat
       then ascii_of_nat (n + 32)
       else c.

(** [s.lower()]. *)
Fixpoint lower (s : string) : string :=
  match s with
  | EmptyString => EmptyString
  | String c rest => String (lower_char c) (lower rest)
  end.

(** [str(n)] for an integer. *)
Definition of_Z (n : Z) : string := NilZero.string_of_int (Z.to_int n).

(** The characters for which [str.isspace()] holds, which are the ones the
    regular-expression class [\s] matches. *)
Definition isspace (c : ascii) : bool :=
  let n := nat_of_ascii c in
  (((9 <=? n) && (n <=? 13)) || ((28 <=? n) && (n <=? 32))
   || (n =? 133) || (n =? 160))%nat.

(** [s] without the literal [lit] in front, when it starts with it. *)
Fixpoint strip_prefix (lit s : string) : option string :=
  match lit, s with
  | EmptyString, _ => Some s
  | String a lit', String b s' =>
      if Ascii.eqb a b then strip_prefix lit' s' else None
  | String _ _, EmptyString => None
  end.

(** The longest prefix of [s] whose characters satisfy [p], and the rest. *)
Fixpoint span (p : ascii -> bool) (s : string) : string * string :=
  match s with
  | EmptyString => (EmptyString, EmptyString)
  | String c rest =>
      if p c then let (run, tl) := span p rest in (String c run, tl)
      else (EmptyString, s)
  end.

Definition nonempty (s : string) : bool :=
  match s with EmptyString => false | _ => true end.

(** The double-quote character. *)
Definition dquote : ascii := ascii_of_nat 34.

End PyString.

(** ** Values decoded from JSON *)

Inductive json : Type :=
| JNull
| JBool (b : bool)
| JInt (n : Z)
| JStr (s : string)
| JList (items : list json)
| JDict (entries : list (string * json)).

Module Py.

(** Truth value of a Python object, as tested by [if x:] and [not x]. *)
Definition truthy (v : json) : bool :=
  match v with
  | JNull => false
  | JBool b => b
  | JInt n => negb (n =? 0)
  | JStr s => PyString.nonempty s
  | JList l => match l with [] => false | _ => true end
  | JDict d => match d with [] => false | _ => true end
  end.

(** [type(v).__name__]. *)
Definition type_name (v : json) : string :=
  match v with
  | JNull => "NoneType"
  | JBool _ => "bool"
  | JInt _ => "int"
  | JStr _ => "str"
  | JList _ => "list"
  | JDict _ => "dict"
  end.

Definition hex_digit (n : nat) : ascii :=
  if (n <? 10)%nat then ascii_of_nat (48 + n) else ascii_of_nat (87 + n).

Definition printable (n : nat) : bool :=
  (((32 <=? n) && (n <=? 126)) || ((161 <=? n) && negb (n =? 173)))%nat.

Definition repr_char (quote : ascii) (c : ascii) : string :=
  let n := nat_of_ascii c in
  if Ascii.eqb c quote then String "\" (String c "")
  else if Ascii.eqb c "\" then "\\"
  else if (n =? 9)%nat then "\t"
  else if (n =? 10)%nat then "\n"
  else if (n =? 13)%nat then "\r"
  else if printable n then String c ""
  else String "\" (String "x" (String (hex_digit (n / 16))
                                 (String (hex_digit (n mod 16)) ""))).

Fixpoint repr_chars (quote : ascii) (s : string) : string :=
  match s with
  | EmptyString => EmptyString
  | String c rest => repr_char quote c ++ repr_chars quote rest
  end.

(** [repr(s)] for a string: single quotes, unless the string has a single
    quote and no double quote. *)
Definition repr_str (s : string) : string :=
  let quote :=
    if PyString.contains "'" s
       && negb (PyString.contains (String PyString.dquote "") s)
    then PyString.dquote else "'"%char in
  String quote (repr_chars quote s ++ String quote "").

(** [repr(v)]. *)
Fixpoint repr (v : json) : string :=
  match v with
  | JNull => "None"
  | JBool true => "True"
  | JBool false => "False"
  | JInt n => PyString.of_Z n
  | JStr s => repr_str s
  | JList l => "[" ++ PyString.join ", " (map repr l) ++ "]"
  | JDict d =>
      "{" ++ PyString.join ", "
               (map (fun kv => match kv with
                               | (k, x) => repr_str k ++ ": " ++ repr x
                               end) d) ++ "}"
  end.

(** [str(v)], which is what an f-string interpolates. *)
Definition str (v : json) : string :=
  match v with
  | JStr s => s
  | _ => repr v
  end.

Fixpoint lookup (k : string) (d : list (string * json)) : option json :=
  match d with
  | [] => None
  | (k', x) :: rest => if String.eqb k k' then Some x else lookup k rest
  end.

End Py.

(** ** Exceptions and results *)

(** The classes [_handle_api_error] and the handlers distinguish.  A
    constructor stands for the class and its subclasses; [OtherException]
    carries [type(e).__name__]; every exception carries [str(e)]. *)
Inductive exn : Type :=
| HTTPStatusError (status : Z) (text : string) (msg : string)
| TimeoutException (msg : string)
| ValueError (msg : string)
| OtherException (name : string) (msg : string).

Definition exn_str (e : exn) : string :=
  match e with
  | HTTPStatusError _ _ m => m
  | TimeoutException m => m
  | ValueError m => m
  | OtherException _ m => m
  end.

Inductive result (A : Type) : Type :=
| Ok (a : A)
| Raise (e : exn).
Arguments Ok {A} a.
Arguments Raise {A} e.

Definition AttributeError (v : json) (attr : string) : exn :=
  OtherException "AttributeError"
    ("'" ++ Py.type_name v ++ "' object has no attribute '" ++ attr ++ "'").

Definition TypeError (msg : string) : exn := OtherException "TypeError" msg.

Definition KeyError (key : json) : exn :=
  OtherException "KeyError" (Py.repr key).

Definition IndexError (msg : string) : exn := OtherException "IndexError" msg.

Module PyOps.

(** [v.get(key, default)]: only a dict has the method. *)
Definition get (v : json) (key : string) (default : json) : result json :=
  match v with
  | JDict d => Ok (match Py.lookup key d with Some x => x | None => default end)
  | _ => Raise (AttributeError v "get")
  end.

(** [v[key]] for a string [key]. *)
Definition getitem (v : json) (key : string) : result json :=
  match v with
  | JDict d =>
      match Py.lookup key d with
      | Some x => Ok x
      | None => Raise (KeyError (JStr key))
      end
  | JList _ => Raise (TypeError "list indices must be integers or slices, not str")
  | JStr _ => Raise (TypeError "string indices must be integers, not 'str'")
  | _ => Raise (TypeError ("'" ++ Py.type_name v ++ "' object is not subscriptable"))
  end.

(** [v[0]]. *)
Definition first (v : json) : result json :=
  match v with
  | JList (x :: _) => Ok x
  | JList [] => Raise (IndexError "list index out of range")
  | JStr (String c _) => Ok (JStr (String c ""))
  | JStr EmptyString => Raise (IndexError "string index out of range")
  | JDict _ => Raise (KeyError (JInt 0))
  | _ => Raise (TypeError ("'" ++ Py.type_name v ++ "' object is not subscriptable"))
  end.

Definition is_str (key : string) (v : json) : bool :=
  match v with JStr s => String.eqb key s | _ => false end.

(** [key in v] for a string [key]. *)
Definition contains (key : string) (v : json) : result bool :=
  match v with
  | JStr s => Ok (PyString.contains key s)
  | JList l => Ok (existsb (is_str key) l)
  | JDict d => Ok (match Py.lookup key d with Some _ => true | None => false end)
  | _ => Raise (TypeError ("argument of type '" ++ Py.type_name v
                             ++ "' is not iterable"))
  end.

Fixpoint chars (s : string) : list json :=
  match s with
  | EmptyString => []
  | String c rest => JStr (String c "") :: chars rest
  end.

(** The items a [for] loop over [v] visits. *)
Definition iter (v : json) : result (list json) :=
  match v with
  | JList l => Ok l
  | JDict d => Ok (map (fun kv => JStr (fst kv)) d)
  | JStr s => Ok (chars s)
  | _ => Raise (TypeError ("'" ++ Py.type_name v ++ "' object is not iterable"))
  end.

(** [v[:n]]. *)
Definition slice_to (n : nat) (v : json) : result json :=
  match v with
  | JStr s => Ok (JStr (PyString.take n s))
  | JList l => Ok (JList (firstn n l))
  | JDict _ => Raise (TypeError "unhashable type: 'slice'")
  | _ => Raise (TypeError ("'" ++ Py.type_name v ++ "' object is not subscriptable"))
  end.

(** [len(v)]. *)
Definition length (v : json) : result Z :=
  match v with
  | JStr s => Ok (Z.of_nat (String.length s))
  | JList l => Ok (Z.of_nat (List.length l))
  | JDict d => Ok (Z.of_nat (List.length d))
  | _ => Raise (TypeError ("object of type '" ++ Py.type_name v
                             ++ "' has no len()"))
  end.

(** [v + suffix] for a string [suffix]. *)
Definition concat (v : json) (suffix : string) : result json :=
  match v with
  | JStr s => Ok (JStr (s ++ suffix))
  | JList _ =>
      Raise (TypeError ("can only concatenate list (not "
                          ++ String PyString.dquote ("str"
                          ++ String PyString.dquote ") to list")))
  | _ => Raise (TypeError ("unsupported operand type(s) for +: '"
                             ++ Py.type_name v ++ "' and 'str'"))
  end.

End PyOps.

(** ** The HTTP client and the backend *)

Inductive Method : Type := GET | POST | DELETE.

(** What a call passes as [json=], [data=] or [content=]. *)
Inductive Body : Type :=
| NoBody
| JsonBody (payload : json)
| FormBody (fields : list (string * string))
| ContentBody (content : string).

(** A request as the tools issue it: the path given to the client, the
    [params=] and [headers=] of the call, and its body. *)
Record Request : Type := mkRequest {
  method : Method;
  url : string;
  params : list (string * string);
  body : Body;
  headers : list (string * string)
}.

(** What the tools read of a response: [status_code], [text], the value or
    the exception of [json()], and the message of the [HTTPStatusError] that
    [raise_for_status()] builds for it. *)
Record Response : Type := mkResponse {
  status_code : Z;
  text : string;
  body_json : result json;
  status_error : string
}.

Inductive Reply : Type :=
| Raised (e : exn)
| Responded (r : Response).

(** The module-level configuration (read once from the environment;
    [CONFLUENCE_URL] is the value after [rstrip]) and the server, which
    answers a request knowing every request issued before it. *)
Record World : Type := mkWorld {
  CONFLUENCE_URL : string;
  CONFLUENCE_LOGIN : string;
  CONFLUENCE_API_TOKEN : string;
  CONFLUENCE_LOGIN_PASSWORD : string;
  CONFLUENCE_DIRECTORY_ID : string;
  session_error : option exn;
  backend : list Request -> Request -> Reply
}.

(** A computation reads the world, extends the list of requests issued and
    returns a value or raises. *)
Definition IO (A : Type) : Type := World -> list Request -> result A * list Request.

Definition ret {A} (a : A) : IO A := fun _ tr => (Ok a, tr).

Definition bind {A B} (m : IO A) (k : A -> IO B) : IO B :=
  fun w tr =>
    match m w tr with
    | (Ok a, tr') => k a w tr'
    | (Raise e, tr') => (Raise e, tr')
    end.

Definition raise {A} (e : exn) : IO A := fun _ tr => (Raise e, tr).

Definition lift {A} (r : result A) : IO A := fun _ tr => (r, tr).

Definition ask : IO World := fun w tr => (Ok w, tr).

(** [try: m  except Exception as e: h e]. *)
Definition try_except {A} (m : IO A) (h : exn -> IO A) : IO A :=
  fun w tr =>
    match m w tr with
    | (Ok a, tr') => (Ok a, tr')
    | (Raise e, tr') => h e w tr'
    end.

(** [await client.request(...)]: the request joins the history, and the
    server's reply is either a response or a raised transport error. *)
Definition send (r : Request) : IO Response :=
  fun w tr =>
    match backend w tr r with
    | Raised e => (Raise e, (tr ++ [r])%list)
    | Responded resp => (Ok resp, (tr ++ [r])%list)
    end.

Declare Scope io_scope.
Delimit Scope io_scope with io.
Notation "x <- m ;; k" := (bind m (fun x => k))
  (at level 61, m at next level, right associativity) : io_scope.
Notation "m ;;; k" := (bind m (fun _ => k))
  (at level 61, right associativity) : io_scope.
Local Open Scope io_scope.

Definition client_get (path : string) (query : list (string * string)) : IO Response :=
  send (mkRequest GET path query NoBody []).

Definition client_post (path : string) (b : Body) (hs : list (string * string))
  : IO Response :=
  send (mkRequest POST path [] b hs).

(** [response.raise_for_status()]: raises unless the status is 2xx. *)
Definition raise_for_status (r : Response) : IO unit :=
  if (200 <=? status_code r) && (status_code r <=? 299) then ret tt
  else raise (HTTPStatusError (status_code r) (text r) (status_error r)).

(** [response.json()]. *)
Definition response_json (r : Response) : IO json := lift (body_json r).

(** [get_http_client]: the client is built once and kept; building it fails
    while the URL or the token is missing, which the configuration decides
    once and for all. *)
Definition get_http_client : IO unit :=
  w <- ask ;;
  if PyString.nonempty (CONFLUENCE_URL w) && PyString.nonempty (CONFLUENCE_API_TOKEN w)
  then ret tt
  else raise (ValueError
    "Missing required environment variables: CONFLUENCE_URL, CONFLUENCE_API_TOKEN").

Definition _handle_api_error (e : exn) : string :=
  match e with
  | HTTPStatusError status body_text _ =>
      if status =? 400 then "Error: Bad request - " ++ body_text
      else if status =? 401
           then "Error: Authentication failed. Check your API token and email."
      else if status =? 403
           then "Error: Permission denied. You don't have access to perform this operation."
      else if status =? 404
           then "Error: Resource not found. Check the space key or page ID."
      else if status =? 429
           then "Error: Rate limit exceeded. Please wait before making more requests."
      else "Error: API request failed with status " ++ PyString.of_Z status
             ++ ": " ++ body_text
  | TimeoutException _ => "Error: Request timed out. Please try again."
  | ValueError m => "Error: " ++ m
  | OtherException name m =>
      "Error: Unexpected error occurred: " ++ name ++ " - " ++ m
  end.

Inductive OperationType : Type := READ | UPDATE.

Definition value (op : OperationType) : string :=
  match op with READ => "read" | UPDATE => "update" end.

(** ** Identity resolver *)

Definition _find_page_by_title (space_key title : string) : IO json :=
  try_except
    (response <- client_get "/rest/api/content"
                   [("spaceKey", space_key); ("title", title);
                    ("type", "page"); ("limit", PyString.of_Z 1)] ;;
     raise_for_status response ;;;
     data <- response_json response ;;
     results <- lift (PyOps.get data "results" (JList [])) ;;
     if Py.truthy results then
       first <- lift (PyOps.first results) ;;
       lift (PyOps.getitem first "id")
     else ret JNull)
    (fun _ => ret JNull).

Definition _find_group_by_name (group_name : string) : IO json :=
  ret (JStr group_name).

Definition _find_user_by_identifier (identifier : string) : IO json :=
  try_except
    (response <- client_get "/rest/api/user" [("username", identifier)] ;;
     if status_code response =? 200 then
       data <- response_json response ;;
       lift (PyOps.get data "accountId" JNull)
     else
       response <- client_get "/rest/api/search/user" [("query", identifier)] ;;
       if status_code response =? 200 then
         data <- response_json response ;;
         results <- lift (PyOps.get data "results" (JList [])) ;;
         if Py.truthy results then
           first <- lift (PyOps.first results) ;;
           lift (PyOps.get first "accountId" JNull)
         else ret JNull
       else ret JNull)
    (fun _ => ret JNull).

(** ** Tool plumbing *)

(** A tool either returns early with its outcome or goes on with a value. *)
Inductive Flow (A : Type) : Type :=
| Return (outcome : json)
| Continue (a : A).
Arguments Return {A} outcome.
Arguments Continue {A} a.

(** The dict [{"success": False, "error": msg}] the tools hand to
    [json.dumps]. *)
Definition failure (msg : string) : json :=
  JDict [("success", JBool false); ("error", JStr msg)].

(** An [Optional[str]] field of a request object, as a Python value. *)
Definition opt_str (o : option string) : json :=
  match o with Some s => JStr s | None => JNull end.

Definition opt_truthy (o : option string) : bool := Py.truthy (opt_str o).

(** [xs or []] for an [Optional[List[str]]] field. *)
Definition or_empty (o : option (list string)) : list string :=
  match o with Some l => l | None => [] end.

Definition list_truthy {A} (l : list A) : bool :=
  match l with [] => false | _ => true end.

Definition len {A} (l : list A) : Z := Z.of_nat (length l).

(** [try: ... page_title = page_data.get("title", "") except Exception:
    page_title = ""], the block the tools run when only a page id is given. *)
Definition fetch_page_title (page_id : json) : IO json :=
  try_except
    (response <- client_get ("/rest/api/content/" ++ Py.str page_id) [] ;;
     raise_for_status response ;;;
     page_data <- response_json response ;;
     lift (PyOps.get page_data "title" (JStr "")))
    (fun _ => ret (JStr "")).

(** The page-reference block that [add_restrictions], [remove_restrictions]
    and [get_child_pages] each begin with: validate the parameters, then
    resolve the title to an id, or the id to a title.  Yields
    [(page_id, page_title)]. *)
Definition resolve_page (page_id page_title space_key : option string)
  : IO (Flow (json * json)) :=
  if opt_truthy page_id && opt_truthy page_title then
    ret (Return (failure
      "Cannot specify both page_id and page_title. Please use only one."))
  else if negb (opt_truthy page_id) && negb (opt_truthy page_title) then
    ret (Return (failure "Must specify either page_id or page_title."))
  else if opt_truthy page_title then
    if negb (opt_truthy space_key) then
      ret (Return (failure "space_key is required when using page_title"))
    else
      found <- _find_page_by_title (Py.str (opt_str space_key))
                                   (Py.str (opt_str page_title)) ;;
      if negb (Py.truthy found) then
        ret (Return (failure
          ("Page with title '" ++ Py.str (opt_str page_title)
             ++ "' not found in space '" ++ Py.str (opt_str space_key) ++ "'")))
      else ret (Continue (found, opt_str page_title))
  else
    title <- fetch_page_title (opt_str page_id) ;;
    ret (Continue (opt_str page_id, title)).

(** The outermost [try: ... except Exception as e] of a tool. *)
Definition tool (body : IO json) (w : World) : json * list Request :=
  match body w [] with
  | (Ok outcome, tr) => (outcome, tr)
  | (Raise e, tr) => (failure (_handle_api_error e), tr)
  end.

(** ** Restriction engine: add *)

Module AddRestrictionInput.
Record t : Type := mk {
  page_id : option string;
  page_title : option string;
  space_key : option string;
  operation : OperationType;
  user_account_ids : option (list string);
  user_identifiers : option (list string);
  group_ids : option (list string);
  group_names : option (list string)
}.
End AddRestrictionInput.

(** [for identifier in params.user_identifiers: ...] *)
Fixpoint resolve_user_identifiers (identifiers : list string)
    (user_account_ids : list json) : IO (Flow (list json)) :=
  match identifiers with
  | [] => ret (Continue user_account_ids)
  | identifier :: rest =>
      account_id <- _find_user_by_identifier identifier ;;
      if Py.truthy account_id then
        resolve_user_identifiers rest (user_account_ids ++ [account_id])%list
      else ret (Return (failure ("User '" ++ identifier ++ "' not found")))
  end.

(** [for group_name in params.group_names: ...] *)
Fixpoint resolve_group_names (names : list string) (group_ids : list json)
  : IO (Flow (list json)) :=
  match names with
  | [] => ret (Continue group_ids)
  | group_name :: rest =>
      group_id <- _find_group_by_name group_name ;;
      if Py.truthy group_id then
        resolve_group_names rest (group_ids ++ [group_id])%list
      else ret (Return (failure ("Group '" ++ group_name ++ "' not found")))
  end.

(** ["Private" in page_title or "Shared" in page_title] *)
Definition is_private_or_shared (page_title : json) : result bool :=
  match PyOps.contains "Private" page_title with
  | Ok true => Ok true
  | Ok false => PyOps.contains "Shared" page_title
  | Raise e => Raise e
  end.

(** What one pass of the loop over users appends to [form_data]. *)
Definition user_permissions (op : OperationType) (sensitive : bool)
    (account_id : json) : list string :=
  match op with
  | READ => ["viewPermissionsUserList=" ++ Py.str account_id]
  | UPDATE =>
      if sensitive then
        ["viewPermissionsUserList=" ++ Py.str account_id;
         "editPermissionsUserList=" ++ Py.str account_id]
      else ["editPermissionsUserList=" ++ Py.str account_id]
  end.

(** What one pass of the loop over groups appends to [form_data]. *)
Definition group_permissions (op : OperationType) (sensitive : bool)
    (group_id : json) : list string :=
  match op with
  | READ => ["viewPermissionsGroupList=" ++ Py.str group_id]
  | UPDATE =>
      if sensitive then
        ["viewPermissionsGroupList=" ++ Py.str group_id;
         "editPermissionsGroupList=" ++ Py.str group_id]
      else ["editPermissionsGroupList=" ++ Py.str group_id]
  end.

(** [form_data] as the two loops and the final append leave it. *)
Definition build_form_data (op : OperationType) (sensitive : bool)
    (user_account_ids group_ids : list json) (page_id : json) : list string :=
  let form_data := [] in
  let form_data :=
    fold_left (fun fd account_id => fd ++ user_permissions op sensitive account_id)%list
              user_account_ids form_data in
  let form_data :=
    fold_left (fun fd group_id => fd ++ group_permissions op sensitive group_id)%list
              group_ids form_data in
  (form_data ++ [("contentId=" ++ Py.str page_id)%string])%list.

Definition permissions_request (form_body : string) : Request :=
  mkRequest POST "/pages/setcontentpermissions.action" [] (ContentBody form_body)
    [("Content-Type", "application/x-www-form-urlencoded; charset=UTF-8");
     ("X-Atlassian-Token", "no-check")].

(** The inner [try] around the legacy endpoint; yields
    [(users_added, groups_added, errors)]. *)
Definition submit_permissions (form_body : string)
    (user_account_ids group_ids : list json) : IO (Z * Z * list string) :=
  try_except
    (response <- send (permissions_request form_body) ;;
     raise_for_status response ;;;
     if PyString.contains "true" (PyString.lower (text response)) then
       ret (len user_account_ids, len group_ids, [])
     else
       ret (0, 0, ["API returned unexpected response: "
                     ++ PyString.take 200 (text response)]))
    (fun e => ret (0, 0, [_handle_api_error e])).

Definition add_result (page_id : json) (op : OperationType)
    (users_added groups_added : Z) (errors : list string) : json :=
  let added := (0 <? users_added) || (0 <? groups_added) in
  JDict ([("success", JBool added);
          ("page_id", page_id);
          ("operation", JStr (value op));
          ("users_added", JInt users_added);
          ("groups_added", JInt groups_added)]
         ++ (if list_truthy errors then [("warnings", JList (map JStr errors))]
             else [])
         ++ [("message",
              JStr (if added then
                      ("Added " ++ value op ++ " restrictions: "
                         ++ PyString.of_Z users_added ++ " users, "
                         ++ PyString.of_Z groups_added ++ " groups")%string
                    else "No restrictions were added"))])%list.

Definition add_restrictions_body (p : AddRestrictionInput.t) : IO json :=
  let op := AddRestrictionInput.operation p in
  get_http_client ;;;
  page <- resolve_page (AddRestrictionInput.page_id p)
                       (AddRestrictionInput.page_title p)
                       (AddRestrictionInput.space_key p) ;;
  match page with
  | Return outcome => ret outcome
  | Continue (page_id, page_title) =>
      users <- resolve_user_identifiers
                 (or_empty (AddRestrictionInput.user_identifiers p))
                 (map JStr (or_empty (AddRestrictionInput.user_account_ids p))) ;;
      match users with
      | Return outcome => ret outcome
      | Continue user_account_ids =>
          groups <- resolve_group_names
                      (or_empty (AddRestrictionInput.group_names p))
                      (map JStr (or_empty (AddRestrictionInput.group_ids p))) ;;
          match groups with
          | Return outcome => ret outcome
          | Continue group_ids =>
              if negb (list_truthy user_account_ids)
                 && negb (list_truthy group_ids) then
                ret (failure "At least one user or group must be specified")
              else
                sensitive <- lift (is_private_or_shared page_title) ;;
                let form_data :=
                  build_form_data op sensitive user_account_ids group_ids page_id in
                let form_body := PyString.join "&" form_data in
                added <- submit_permissions form_body user_account_ids group_ids ;;
                match added with
                | (users_added, groups_added, errors) =>
                    ret (add_result page_id op users_added groups_added errors)
                end
          end
      end
  end.

Definition add_restrictions (w : World) (p : AddRestrictionInput.t)
  : json * list Request :=
  tool (add_restrictions_body p) w.


(** ** Restriction engine: remove *)

Module RemoveRestrictionInput.
Record t : Type := mk {
  page_id : option string;
  page_title : option string;
  space_key : option string;
  operation : option OperationType;
  remove_all : bool
}.
End RemoveRestrictionInput.

(** [operations_to_remove] *)
Definition operations_to_remove (p : RemoveRestrictionInput.t) : list string :=
  match RemoveRestrictionInput.operation p with
  | None => ["read"; "update"]
  | Some op =>
      if RemoveRestrictionInput.remove_all p then ["read"; "update"]
      else [value op]
  end.

Definition delete_request (page_id : json) (operation : string) : Request :=
  mkRequest DELETE
    ("/rest/api/content/" ++ Py.str page_id ++ "/restriction/byOperation/"
       ++ operation)
    [] NoBody [].

Definition remove_failed (operation : string) (e : exn) : string :=
  "Failed to remove " ++ operation ++ " restrictions: " ++ _handle_api_error e.

(** One pass of the loop over [operations_to_remove], on the two lists it
    appends to. *)
Definition remove_operation (page_id : json) (operation : string)
    (removed_operations errors : list string) : IO (list string * list string) :=
  try_except
    (response <- send (delete_request page_id operation) ;;
     if (status_code response =? 204) || (status_code response =? 404) then
       ret ((removed_operations ++ [operation])%list, errors)
     else
       raise_for_status response ;;;
       ret ((removed_operations ++ [operation])%list, errors))
    (fun e =>
       match e with
       | HTTPStatusError status _ _ =>
           if status =? 404 then
             ret ((removed_operations ++ [operation])%list, errors)
           else
             ret (removed_operations,
                  (errors ++ [remove_failed operation e])%list)
       | _ =>
           ret (removed_operations, (errors ++ [remove_failed operation e])%list)
       end).

Fixpoint remove_operations (page_id : json) (operations : list string)
    (removed_operations errors : list string) : IO (list string * list string) :=
  match operations with
  | [] => ret (removed_operations, errors)
  | operation :: rest =>
      state <- remove_operation page_id operation removed_operations errors ;;
      remove_operations page_id rest (fst state) (snd state)
  end.

Definition remove_result (page_id page_title : json)
    (removed_operations errors : list string) : json :=
  JDict ([("success", JBool (0 <? len removed_operations));
          ("page_id", page_id);
          ("page_title", page_title);
          ("removed_operations", JList (map JStr removed_operations))]
         ++ (if list_truthy errors then [("warnings", JList (map JStr errors))]
             else [])
         ++ [("message",
              JStr (if list_truthy removed_operations then
                      ("Removed restrictions for: "
                         ++ PyString.join ", " removed_operations)%string
                    else "No restrictions were removed"))])%list.

Definition remove_restrictions_body (p : RemoveRestrictionInput.t) : IO json :=
  get_http_client ;;;
  page <- resolve_page (RemoveRestrictionInput.page_id p)
                       (RemoveRestrictionInput.page_title p)
                       (RemoveRestrictionInput.space_key p) ;;
  match page with
  | Return outcome => ret outcome
  | Continue (page_id, page_title) =>
      state <- remove_operations page_id (operations_to_remove p) [] [] ;;
      ret (remove_result page_id page_title (fst state) (snd state))
  end.

Definition remove_restrictions (w : World) (p : RemoveRestrictionInput.t)
  : json * list Request :=
  tool (remove_restrictions_body p) w.

(** ** Directory sync session driver *)

Module SyncUserDirectoryInput.
Record t : Type := mk {
  directory_id : option string;
  login : option string;
  password : option string
}.
End SyncUserDirectoryInput.

(** [field or default] for an [Optional[str]] field and a configured
    default. *)
Definition or_default (o : option string) (default : string) : string :=
  match o with
  | Some s => if PyString.nonempty s then s else default
  | None => default
  end.

(** The leftmost position of [s] at which [at_position] matches, as
    [re.search] scans; yields the captured group. *)
Fixpoint search (at_position : string -> option string) (s : string)
  : option string :=
  match at_position s with
  | Some group => Some group
  | None =>
      match s with
      | EmptyString => None
      | String _ rest => search at_position rest
      end
  end.

(** The literal [name=] followed by [atl_token] in double quotes. *)
Definition token_attribute_name : string :=
  "name=" ++ String PyString.dquote ("atl_token" ++ String PyString.dquote "").

(** The literal [value=] followed by a double quote. *)
Definition token_attribute_value : string :=
  "value=" ++ String PyString.dquote "".

Definition not_dquote (c : ascii) : bool := negb (Ascii.eqb c PyString.dquote).

(** A match of the first pattern at the start of [s]: the quoted name, one
    or more whitespace characters, [value=], a double quote, one or more
    characters other than a double quote (the group), a double quote.  Both
    repetitions are greedy, and neither can give a character back: the
    character after a run is outside the class of the run. *)
Definition match_token_attribute (s : string) : option string :=
  match PyString.strip_prefix token_attribute_name s with
  | None => None
  | Some after_name =>
      let (spaces, after_spaces) := PyString.span PyString.isspace after_name in
      if PyString.nonempty spaces then
        match PyString.strip_prefix token_attribute_value after_spaces with
        | None => None
        | Some after_value =>
            let (group, after_group) := PyString.span not_dquote after_value in
            if PyString.nonempty group then
              match after_group with
              | String _ _ => Some group
              | EmptyString => None
              end
            else None
        end
      else None
  end.

Definition token_char (c : ascii) : bool :=
  negb (Ascii.eqb c "&" || Ascii.eqb c PyString.dquote || PyString.isspace c).

(** A match of the second pattern at the start of [s]: [atl_token=] and one
    or more characters other than an ampersand, a double quote and
    whitespace (the group). *)
Definition match_token_query (s : string) : option string :=
  match PyString.strip_prefix "atl_token=" s with
  | None => None
  | Some after_key =>
      let (group, _) := PyString.span token_char after_key in
      if PyString.nonempty group then Some group else None
  end.

(** Step 3: the attribute pattern first, the query-string pattern if it does
    not match. *)
Definition extract_atl_token (response_text : string) : option string :=
  match search match_token_attribute response_text with
  | Some group => Some group
  | None => search match_token_query response_text
  end.

Definition login_request (login password : string) : Request :=
  mkRequest POST "/rest/tsv/1.0/authenticate?os_authType=none" []
    (JsonBody (JDict [("username", JStr login); ("password", JStr password);
                      ("rememberMe", JBool true); ("targetUrl", JStr "");
                      ("captchaId", JStr "")]))
    [("Content-Type", "application/json")].

Definition authenticate_request (password : string) : Request :=
  mkRequest POST "/doauthenticate.action" []
    (FormBody [("password", password); ("authenticate", "Confirm");
               ("destination", "/plugins/servlet/embedded-crowd/directories/list")])
    [("Content-Type", "application/x-www-form-urlencoded");
     ("X-Atlassian-Token", "no-check")].

Definition sync_request (directory_id atl_token : string) : Request :=
  mkRequest POST
    ("/plugins/servlet/embedded-crowd/directories/sync?directoryId="
       ++ directory_id ++ "&atl_token=" ++ atl_token)
    [] NoBody [("X-Atlassian-Token", "no-check")].

(** Entering [async with httpx.AsyncClient(...) as client]: the session
    client is separate from the shared one; its requests are recorded by
    their path. *)
Definition open_session : IO unit :=
  w <- ask ;;
  match session_error w with
  | Some e => raise e
  | None => ret tt
  end.

Definition token_not_found : string :=
  "ATL_TOKEN not found in response. Authentication may have failed or user lacks admin permissions.".

Definition sync_user_directory_body (p : SyncUserDirectoryInput.t) : IO json :=
  w <- ask ;;
  let login := or_default (SyncUserDirectoryInput.login p) (CONFLUENCE_LOGIN w) in
  let password :=
    or_default (SyncUserDirectoryInput.password p) (CONFLUENCE_LOGIN_PASSWORD w) in
  let directory_id :=
    or_default (SyncUserDirectoryInput.directory_id p) (CONFLUENCE_DIRECTORY_ID w) in
  if negb (PyString.nonempty login) || negb (PyString.nonempty password) then
    ret (failure
      "Missing credentials. Set CONFLUENCE_LOGIN and CONFLUENCE_LOGIN_PASSWORD environment variables or provide them as parameters.")
  else if negb (PyString.nonempty directory_id) then
    ret (failure
      "Missing directory_id. Set CONFLUENCE_DIRECTORY_ID environment variable or provide it as parameter.")
  else
    open_session ;;;
    (* Step 1: Login to Confluence *)
    step1 <- try_except
               (login_response <- send (login_request login password) ;;
                ret (Continue login_response))
               (fun e => ret (Return (failure ("Login failed: " ++ exn_str e)))) ;;
    match step1 with
    | Return outcome => ret outcome
    | Continue login_response =>
        (* Step 2: Authenticate to user directories *)
        step2 <- try_except
                   (auth_response <- send (authenticate_request password) ;;
                    ret (Continue auth_response))
                   (fun e => ret (Return (failure
                      ("Authentication to user directories failed: "
                         ++ exn_str e)))) ;;
        match step2 with
        | Return outcome => ret outcome
        | Continue auth_response =>
            (* Step 3: Extract ATL token from response *)
            match extract_atl_token (text auth_response) with
            | None => ret (failure token_not_found)
            | Some atl_token =>
                if negb (PyString.nonempty atl_token) then
                  ret (failure token_not_found)
                else
                  (* Step 4: Trigger directory sync *)
                  try_except
                    (sync_response <- send (sync_request directory_id atl_token) ;;
                     if (status_code sync_response =? 200)
                        || (status_code sync_response =? 302) then
                       ret (JDict
                         [("success", JBool true);
                          ("message",
                           JStr ("User directory sync triggered successfully for directory ID: "
                                   ++ directory_id));
                          ("directory_id", JStr directory_id)])
                     else
                       ret (failure
                         ("Sync request returned status "
                            ++ PyString.of_Z (status_code sync_response) ++ ": "
                            ++ PyString.take 200 (text sync_response))))
                    (fun e => ret (failure ("Failed to trigger sync: " ++ exn_str e)))
            end
        end
    end.

Definition sync_user_directory (w : World) (p : SyncUserDirectoryInput.t)
  : json * list Request :=
  match sync_user_directory_body p w [] with
  | (Ok outcome, tr) => (outcome, tr)
  | (Raise e, tr) => (failure ("Unexpected error: " ++ exn_str e), tr)
  end.

(** ** Page creation *)

Inductive EditorVersion : Type := V1 | V2.

Module CreatePageInput.
Record t : Type := mk {
  space_key : string;
  title : string;
  content : string;
  parent_id : option string;
  parent_title : option string;
  editor_version : EditorVersion
}.
End CreatePageInput.

Definition _prepare_content_html (content : string) : string :=
  if negb (existsb (fun tag => PyString.contains tag (PyString.lower content))
             ["<p>"; "<h1>"; "<h2>"; "<h3>"; "<div>"; "<table>"])
  then "<p>" ++ content ++ "</p>"
  else content.

Definition create_payload (p : CreatePageInput.t) (html_content : string)
    (parent_id : json) : json :=
  JDict ([("type", JStr "page");
          ("title", JStr (CreatePageInput.title p));
          ("space", JDict [("key", JStr (CreatePageInput.space_key p))]);
          ("body", JDict [("storage",
                           JDict [("value", JStr html_content);
                                  ("representation", JStr "storage")])])]
         ++ (if Py.truthy parent_id
             then [("ancestors", JList [JDict [("id", parent_id)]])] else [])
         ++ (match CreatePageInput.editor_version p with
             | V2 => [("metadata",
                       JDict [("properties",
                               JDict [("editor", JDict [("value", JStr "v2")])])])]
             | V1 => []
             end))%list.

Definition create_page_body (p : CreatePageInput.t) : IO json :=
  get_http_client ;;;
  if opt_truthy (CreatePageInput.parent_id p)
     && opt_truthy (CreatePageInput.parent_title p) then
    ret (failure
      "Cannot specify both parent_id and parent_title. Please use only one.")
  else
    parent <-
      (if opt_truthy (CreatePageInput.parent_title p) then
         found <- _find_page_by_title (CreatePageInput.space_key p)
                    (Py.str (opt_str (CreatePageInput.parent_title p))) ;;
         if negb (Py.truthy found) then
           ret (Return (failure
             ("Parent page with title '"
                ++ Py.str (opt_str (CreatePageInput.parent_title p))
                ++ "' not found in space '" ++ CreatePageInput.space_key p ++ "'")))
         else ret (Continue found)
       else ret (Continue (opt_str (CreatePageInput.parent_id p)))) ;;
    match parent with
    | Return outcome => ret outcome
    | Continue parent_id =>
        let html_content := _prepare_content_html (CreatePageInput.content p) in
        let payload := create_payload p html_content parent_id in
        response <- client_post "/rest/api/content" (JsonBody payload) [] ;;
        raise_for_status response ;;;
        data <- response_json response ;;
        page_id <- lift (PyOps.getitem data "id") ;;
        w <- ask ;;
        let page_url :=
          CONFLUENCE_URL w ++ "/pages/viewpage.action?pageId=" ++ Py.str page_id in
        ret (JDict [("success", JBool true);
                    ("page_id", page_id);
                    ("page_url", JStr page_url);
                    ("title", JStr (CreatePageInput.title p));
                    ("space_key", JStr (CreatePageInput.space_key p));
                    ("message",
                     JStr ("Page '" ++ CreatePageInput.title p
                             ++ "' created successfully"))])
    end.

Definition create_page (w : World) (p : CreatePageInput.t) : json * list Request :=
  tool (create_page_body p) w.

(** ** Restriction engine: get *)

Module GetRestrictionsInput.
Record t : Type := mk { page_id : string }.
End GetRestrictionsInput.

(** [for x in items: out.append(f(x))] *)
Fixpoint for_each (f : json -> IO json) (items : list json) : IO (list json) :=
  match items with
  | [] => ret []
  | x :: rest =>
      y <- f x ;;
      ys <- for_each f rest ;;
      ret (y :: ys)
  end.

Definition restricted_user (user : json) : IO json :=
  account_id <- lift (PyOps.get user "accountId" JNull) ;;
  public_name <- lift (PyOps.get user "publicName" (JStr "Unknown")) ;;
  display_name <- lift (PyOps.get user "displayName" public_name) ;;
  email <- lift (PyOps.get user "email" (JStr "N/A")) ;;
  ret (JDict [("accountId", account_id); ("displayName", display_name);
              ("email", email)]).

Definition restricted_group (group : json) : IO json :=
  id <- lift (PyOps.get group "id" JNull) ;;
  name <- lift (PyOps.get group "name" (JStr "Unknown")) ;;
  ret (JDict [("id", id); ("name", name)]).

(** The users or the groups of one operation: [kind] is "user" or "group". *)
Definition restricted (kind : string) (entry : json -> IO json) (op_data : json)
  : IO (list json) :=
  has_restrictions <- lift (PyOps.contains "restrictions" op_data) ;;
  has_kind <-
    (if has_restrictions then
       restrictions <- lift (PyOps.getitem op_data "restrictions") ;;
       lift (PyOps.contains kind restrictions)
     else ret false) ;;
  if has_kind then
    restrictions <- lift (PyOps.getitem op_data "restrictions") ;;
    of_kind <- lift (PyOps.getitem restrictions kind) ;;
    results <- lift (PyOps.get of_kind "results" (JList [])) ;;
    items <- lift (PyOps.iter results) ;;
    for_each entry items
  else ret [].

(** One pass of [for operation in ["read", "update"]], on the entries of
    [restrictions] so far. *)
Definition parse_operation (data : json) (operation : string)
    (restrictions : list (string * json)) : IO (list (string * json)) :=
  present <- lift (PyOps.contains operation data) ;;
  if present then
    op_data <- lift (PyOps.getitem data operation) ;;
    users <- restricted "user" restricted_user op_data ;;
    groups <- restricted "group" restricted_group op_data ;;
    ret (restrictions
           ++ [(operation, JDict [("users", JList users);
                                  ("groups", JList groups)])])%list
  else ret restrictions.

Definition get_restrictions_body (p : GetRestrictionsInput.t) : IO json :=
  get_http_client ;;;
  response <- client_get
                ("/rest/api/content/" ++ GetRestrictionsInput.page_id p
                   ++ "/restriction/byOperation")
                [("expand",
                  "read.restrictions.user,read.restrictions.group,update.restrictions.user,update.restrictions.group")] ;;
  raise_for_status response ;;;
  data <- response_json response ;;
  restrictions <- parse_operation data "read" [] ;;
  restrictions <- parse_operation data "update" restrictions ;;
  ret (JDict [("success", JBool true);
              ("page_id", JStr (GetRestrictionsInput.page_id p));
              ("restrictions", JDict restrictions)]).

Definition get_restrictions (w : World) (p : GetRestrictionsInput.t)
  : json * list Request :=
  tool (get_restrictions_body p) w.

(** ** Listing pages *)

Module GetSpacePagesInput.
Record t : Type := mk {
  space_key : string;
  title : option string;
  limit : Z;
  start : Z;
  expand : option string
}.
End GetSpacePagesInput.

Module GetChildPagesInput.
Record t : Type := mk {
  page_id : option string;
  page_title : option string;
  space_key : option string;
  limit : Z;
  start : Z;
  expand : option string
}.
End GetChildPagesInput.

(** ["_links" in page and "webui" in page["_links"]] *)
Definition has_webui (page : json) : IO bool :=
  has_links <- lift (PyOps.contains "_links" page) ;;
  if has_links then
    links <- lift (PyOps.getitem page "_links") ;;
    lift (PyOps.contains "webui" links)
  else ret false.

(** The entries of [page_info] that both listings build: the four basic
    fields, the URL, and the version, space and history when expanded. *)
Definition page_summary (page : json) : IO (list (string * json)) :=
  w <- ask ;;
  id <- lift (PyOps.get page "id" JNull) ;;
  title <- lift (PyOps.get page "title" JNull) ;;
  type <- lift (PyOps.get page "type" JNull) ;;
  status <- lift (PyOps.get page "status" JNull) ;;
  webui <- has_webui page ;;
  page_url <-
    (if webui then
       links <- lift (PyOps.getitem page "_links") ;;
       path <- lift (PyOps.getitem links "webui") ;;
       ret (CONFLUENCE_URL w ++ Py.str path)
     else
       id <- lift (PyOps.get page "id" JNull) ;;
       ret (CONFLUENCE_URL w ++ "/pages/viewpage.action?pageId=" ++ Py.str id)) ;;
  has_version <- lift (PyOps.contains "version" page) ;;
  version <-
    (if has_version then
       v <- lift (PyOps.getitem page "version") ;;
       number <- lift (PyOps.get v "number" JNull) ;;
       when <- lift (PyOps.get v "when" JNull) ;;
       by_user <- lift (PyOps.get v "by" (JDict [])) ;;
       name <- lift (PyOps.get by_user "displayName" (JStr "Unknown")) ;;
       ret [("version", JDict [("number", number); ("when", when); ("by", name)])]
     else ret []) ;;
  has_space <- lift (PyOps.contains "space" page) ;;
  space <-
    (if has_space then
       s <- lift (PyOps.getitem page "space") ;;
       key <- lift (PyOps.get s "key" JNull) ;;
       name <- lift (PyOps.get s "name" JNull) ;;
       ret [("space", JDict [("key", key); ("name", name)])]
     else ret []) ;;
  has_history <- lift (PyOps.contains "history" page) ;;
  history <-
    (if has_history then
       h <- lift (PyOps.getitem page "history") ;;
       created_date <- lift (PyOps.get h "createdDate" JNull) ;;
       created_by <- lift (PyOps.get h "createdBy" (JDict [])) ;;
       name <- lift (PyOps.get created_by "displayName" (JStr "Unknown")) ;;
       ret [("created_date", created_date); ("created_by", name)]
     else ret []) ;;
  ret ([("id", id); ("title", title); ("type", type); ("status", status);
        ("url", JStr page_url)] ++ version ++ space ++ history)%list.

(** The content preview [get_space_pages] adds when the storage body is
    expanded. *)
Definition content_preview (page : json) : IO (list (string * json)) :=
  has_body <- lift (PyOps.contains "body" page) ;;
  has_storage <-
    (if has_body then
       b <- lift (PyOps.getitem page "body") ;;
       lift (PyOps.contains "storage" b)
     else ret false) ;;
  if has_storage then
    b <- lift (PyOps.getitem page "body") ;;
    storage <- lift (PyOps.getitem b "storage") ;;
    content <- lift (PyOps.get storage "value" (JStr "")) ;;
    head <- lift (PyOps.slice_to 200 content) ;;
    n <- lift (PyOps.length content) ;;
    preview <- lift (PyOps.concat head (if 200 <? n then "..." else "")) ;;
    n <- lift (PyOps.length content) ;;
    ret [("content_preview", preview); ("content_length", JInt n)]
  else ret [].

Definition space_page_info (page : json) : IO json :=
  summary <- page_summary page ;;
  preview <- content_preview page ;;
  ret (JDict (summary ++ preview)%list).

Definition child_page_info (page : json) : IO json :=
  summary <- page_summary page ;;
  ret (JDict summary).

(** The pagination entries that close both listings. *)
Definition pagination (data : json) (start limit : Z) : IO (list (string * json)) :=
  links <- lift (PyOps.get data "_links" (JDict [])) ;;
  has_next <- lift (PyOps.contains "next" links) ;;
  if has_next then
    ret [("has_more", JBool true); ("next_start", JInt (start + limit))]
  else ret [("has_more", JBool false)].

Definition get_space_pages_body (p : GetSpacePagesInput.t) : IO json :=
  get_http_client ;;;
  let query_params :=
    ([("spaceKey", GetSpacePagesInput.space_key p);
      ("type", "page");
      ("limit", PyString.of_Z (GetSpacePagesInput.limit p));
      ("start", PyString.of_Z (GetSpacePagesInput.start p))]
     ++ (if opt_truthy (GetSpacePagesInput.title p)
         then [("title", Py.str (opt_str (GetSpacePagesInput.title p)))] else [])
     ++ (if opt_truthy (GetSpacePagesInput.expand p)
         then [("expand", Py.str (opt_str (GetSpacePagesInput.expand p)))] else []))%list in
  response <- client_get "/rest/api/content" query_params ;;
  raise_for_status response ;;;
  data <- response_json response ;;
  results <- lift (PyOps.get data "results" (JList [])) ;;
  items <- lift (PyOps.iter results) ;;
  pages <- for_each space_page_info items ;;
  total_count <- lift (PyOps.get data "size" (JInt 0)) ;;
  more <- pagination data (GetSpacePagesInput.start p) (GetSpacePagesInput.limit p) ;;
  ret (JDict ([("success", JBool true);
               ("space_key", JStr (GetSpacePagesInput.space_key p));
               ("total_count", total_count);
               ("returned_count", JInt (len pages));
               ("start", JInt (GetSpacePagesInput.start p));
               ("limit", JInt (GetSpacePagesInput.limit p));
               ("pages", JList pages)] ++ more)%list).

Definition get_space_pages (w : World) (p : GetSpacePagesInput.t)
  : json * list Request :=
  tool (get_space_pages_body p) w.

Definition get_child_pages_body (p : GetChildPagesInput.t) : IO json :=
  get_http_client ;;;
  page <- resolve_page (GetChildPagesInput.page_id p)
                       (GetChildPagesInput.page_title p)
                       (GetChildPagesInput.space_key p) ;;
  match page with
  | Return outcome => ret outcome
  | Continue (page_id, parent_page_title) =>
      let query_params :=
        ([("limit", PyString.of_Z (GetChildPagesInput.limit p));
          ("start", PyString.of_Z (GetChildPagesInput.start p))]
         ++ (if opt_truthy (GetChildPagesInput.expand p)
             then [("expand", Py.str (opt_str (GetChildPagesInput.expand p)))]
             else []))%list in
      response <- client_get
                    ("/rest/api/content/" ++ Py.str page_id ++ "/child/page")
                    query_params ;;
      raise_for_status response ;;;
      data <- response_json response ;;
      results <- lift (PyOps.get data "results" (JList [])) ;;
      items <- lift (PyOps.iter results) ;;
      child_pages <- for_each child_page_info items ;;
      total_count <- lift (PyOps.get data "size" (JInt 0)) ;;
      more <- pagination data (GetChildPagesInput.start p)
                (GetChildPagesInput.limit p) ;;
      ret (JDict ([("success", JBool true);
                   ("parent_page_id", page_id);
                   ("parent_page_title", parent_page_title);
                   ("total_count", total_count);
                   ("returned_count", JInt (len child_pages));
                   ("start", JInt (GetChildPagesInput.start p));
                   ("limit", JInt (GetChildPagesInput.limit p));
                   ("child_pages", JList child_pages)] ++ more)%list)
  end.

Definition get_child_pages (w : World) (p : GetChildPagesInput.t)
  : json * list Request :=
  tool (get_child_pages_body p) w.

(** * Vocabulary of the statements *)

(** ** Substring tests *)

(** [needle] occurs in [hay]. *)
Definition Substring (needle hay : string) : Prop :=
  exists before after, hay = before ++ needle ++ after.

(** ** Which requests a computation issues *)

(** [m] only adds requests that satisfy [P] to the history. *)
Definition only_issues (P : Request -> Prop) {A} (m : IO A) : Prop :=
  forall w tr, exists ext, snd (m w tr) = (tr ++ ext)%list /\ Forall P ext.

Definition is_get (r : Request) : Prop := method r = GET.

(** The two requests [_find_user_by_identifier] can issue. *)
Definition user_request (identifier : string) : Request :=
  mkRequest GET "/rest/api/user" [("username", identifier)] NoBody [].

Definition user_search_request (identifier : string) : Request :=
  mkRequest GET "/rest/api/search/user" [("query", identifier)] NoBody [].

(** The request that fetches the title of a page given by id. *)
Definition title_request (page_id : string) : Request :=
  mkRequest GET ("/rest/api/content/" ++ page_id) [] NoBody [].

(** ** Identity resolver: a page that is not found *)

(** The request [_find_page_by_title] issues. *)
Definition lookup_request (space_key title : string) : Request :=
  mkRequest GET "/rest/api/content"
    [("spaceKey", space_key); ("title", title); ("type", "page"); ("limit", "1")]
    NoBody [].

Definition not_found_message (title space_key : string) : string :=
  "Page with title '" ++ title ++ "' not found in space '" ++ space_key ++ "'".

(** The backend found no page: a 2xx response whose JSON object has no
    results, or results without an item. *)
Definition no_match (reply : Reply) : Prop :=
  exists r d,
    reply = Responded r
    /\ 200 <= status_code r <= 299
    /\ body_json r = Ok (JDict d)
    /\ Py.truthy (match Py.lookup "results" d with
                  | Some results => results
                  | None => JList []
                  end) = false.

(** The lookup broke: the transport raised, the status is not 2xx, or the
    body is not JSON. *)
Definition lookup_broke (reply : Reply) : Prop :=
  (exists e, reply = Raised e)
  \/ (exists r, reply = Responded r
                /\ (~ 200 <= status_code r <= 299
                    \/ exists e, body_json r = Raise e)).

(** The second half of C4: a transport failure during the lookup is not
    reported as the page not being found. *)
Definition transport_failure_is_distinguished : Prop :=
  forall (w : World) (p : AddRestrictionInput.t) (space_key title : string) (e : exn),
    AddRestrictionInput.page_id p = None ->
    AddRestrictionInput.page_title p = Some title ->
    AddRestrictionInput.space_key p = Some space_key ->
    backend w [] (lookup_request space_key title) = Raised e ->
    fst (add_restrictions w p) <> failure (not_found_message title space_key).

(** ** Merging principals *)

(** The identifiers in the order the loop of [add_restrictions] visits them,
    each with what its lookup returns at that point of the history. *)
Fixpoint user_lookups (w : World) (tr : list Request) (identifiers : list string)
  : list (string * result json) :=
  match identifiers with
  | [] => []
  | identifier :: rest =>
      (identifier, fst (_find_user_by_identifier identifier w tr))
      :: user_lookups w (snd (_find_user_by_identifier identifier w tr)) rest
  end.

(** ** Deleting restrictions *)

(** Whether the reply to a delete request makes the loop of
    [remove_restrictions] record the operation as removed. *)
Definition delete_succeeds (reply : Reply) : bool :=
  match reply with
  | Responded r =>
      (status_code r =? 204) || (status_code r =? 404)
      || ((200 <=? status_code r) && (status_code r <=? 299))
  | Raised (HTTPStatusError status _ _) => status =? 404
  | Raised _ => false
  end.

(** The exception the loop handles for a reply that is no success. *)
Definition delete_error (reply : Reply) : exn :=
  match reply with
  | Raised e => e
  | Responded r => HTTPStatusError (status_code r) (text r) (status_error r)
  end.

(** The operations in the order the loop visits them, each with the reply
    its delete request gets from the server at that point of the history. *)
Fixpoint deletions (w : World) (page_id : json) (tr : list Request)
    (operations : list string) : list (string * Reply) :=
  match operations with
  | [] => []
  | operation :: rest =>
      (operation, backend w tr (delete_request page_id operation))
      :: deletions w page_id (tr ++ [delete_request page_id operation])%list rest
  end.

Definition succeeded (d : string * Reply) : bool := delete_succeeds (snd d).

Definition warning (d : string * Reply) : string :=
  remove_failed (fst d) (delete_error (snd d)).

(** A field of the dict a tool returns. *)
Definition field (key : string) (outcome : json) : option json :=
  match outcome with
  | JDict d => Py.lookup key d
  | _ => None
  end.

(** ** Token patterns *)

Fixpoint all_chars (p : ascii -> bool) (s : string) : bool :=
  match s with
  | EmptyString => true
  | String c rest => p c && all_chars p rest
  end.

(** [s] has a match of the attribute pattern: the quoted name, at least one
    whitespace character, [value=] and a non-empty quoted value. *)
Definition has_token_attribute (s : string) : Prop :=
  exists before spaces group after,
    s = before ++ token_attribute_name ++ spaces ++ token_attribute_value
          ++ group ++ String PyString.dquote after
    /\ PyString.nonempty spaces = true
    /\ all_chars PyString.isspace spaces = true
    /\ PyString.nonempty group = true
    /\ all_chars not_dquote group = true.

(** [s] has a match of the query-string pattern: [atl_token=] followed by a
    character that is no ampersand, double quote or whitespace. *)
Definition has_token_query (s : string) : Prop :=
  exists before c after,
    s = before ++ "atl_token=" ++ String c after /\ token_char c = true.

(** ** Directory sync *)

Definition sync_login (w : World) (p : SyncUserDirectoryInput.t) : string :=
  or_default (SyncUserDirectoryInput.login p) (CONFLUENCE_LOGIN w).

Definition sync_password (w : World) (p : SyncUserDirectoryInput.t) : string :=
  or_default (SyncUserDirectoryInput.password p) (CONFLUENCE_LOGIN_PASSWORD w).

Definition sync_directory (w : World) (p : SyncUserDirectoryInput.t) : string :=
  or_default (SyncUserDirectoryInput.directory_id p) (CONFLUENCE_DIRECTORY_ID w).

(** The call has credentials and a directory id, and its session client
    opens: it reaches step 1. *)
Definition sync_ready (w : World) (p : SyncUserDirectoryInput.t) : Prop :=
  PyString.nonempty (sync_login w p) = true
  /\ PyString.nonempty (sync_password w p) = true
  /\ PyString.nonempty (sync_directory w p) = true
  /\ session_error w = None.

(** ** Structured outcomes *)

(** The dict carries a boolean [success], and with [success] false it
    carries an [error] or a [message] string. *)
Definition structured (outcome : json) : Prop :=
  exists b,
    field "success" outcome = Some (JBool b)
    /\ (b = false ->
        exists msg, field "error" outcome = Some (JStr msg)
                    \/ field "message" outcome = Some (JStr msg)).

(** Whatever [body] returns is structured. *)
Definition returns_structured (body : IO json) : Prop :=
  forall w tr outcome tr', body w tr = (Ok outcome, tr') -> structured outcome.

(** Whatever [m] returns early is structured. *)
Definition returns_early_structured {A} (m : IO (Flow A)) : Prop :=
  forall w tr outcome tr', m w tr = (Ok (Return outcome), tr') -> structured outcome.


(** ** Failures and their report *)

(** The request failed: the transport raised, or the status of the answer
    is not 2xx. *)
Definition failed (reply : Reply) : bool :=
  match reply with
  | Raised _ => true
  | Responded r => negb ((200 <=? status_code r) && (status_code r <=? 299))
  end.

(** Among the requests [ext], issued after the history [tr], one failed
    that is not a failure [absorbed] tolerates. *)
Definition unabsorbed_failure (absorbed : Request -> Reply -> Prop)
    (w : World) (tr ext : list Request) : Prop :=
  exists before req after,
    ext = (before ++ req :: after)%list
    /\ failed (backend w (tr ++ before)%list req) = true
    /\ ~ absorbed req (backend w (tr ++ before)%list req).
















(** ** Restriction engine: the order of the form body *)

Module FormOrder.

(** Whether an operation on a page of the given sensitivity grants view
    permission, and whether it grants edit permission. *)
Definition grants_view (op : OperationType) (sensitive : bool) : bool :=
  match op with READ => true | UPDATE => sensitive end.

Definition grants_edit (op : OperationType) : bool :=
  match op with READ => false | UPDATE => true end.

Definition entry (key : string) (v : json) : string := key ++ "=" ++ Py.str v.

Definition all_of (granted : bool) (key : string) (l : list json) : list string :=
  if granted then map (entry key) l else [].

Definition each_of (view edit : bool) (view_key edit_key : string) (v : json)
  : list string :=
  ((if view then [entry view_key v] else [])
   ++ (if edit then [entry edit_key v] else []))%list.

(** The order as the specification words it: all user view grants, then all
    user edit grants, then all group view grants, then all group edit
    grants, then the page id. *)
Definition by_permission (op : OperationType) (sensitive : bool)
    (users groups : list json) (page_id : json) : list string :=
  (all_of (grants_view op sensitive) "viewPermissionsUserList" users
   ++ all_of (grants_edit op) "editPermissionsUserList" users
   ++ all_of (grants_view op sensitive) "viewPermissionsGroupList" groups
   ++ all_of (grants_edit op) "editPermissionsGroupList" groups
   ++ [entry "contentId" page_id])%list.

(** The order by principal: each user's view grant directly followed by
    that user's edit grant, user after user, then the groups likewise,
    then the page id. *)
Definition by_principal (op : OperationType) (sensitive : bool)
    (users groups : list json) (page_id : json) : list string :=
  (flat_map (each_of (grants_view op sensitive) (grants_edit op)
               "viewPermissionsUserList" "editPermissionsUserList") users
   ++ flat_map (each_of (grants_view op sensitive) (grants_edit op)
                  "viewPermissionsGroupList" "editPermissionsGroupList") groups
   ++ [entry "contentId" page_id])%list.

End FormOrder.

(** ** A concrete server, for the examples *)

Module Scenario.

Definition no_json : result json :=
  Raise (ValueError "Expecting value: line 1 column 1 (char 0)").

Definition json_response (status : Z) (j : json) : Response :=
  mkResponse status "" (Ok j) "".

Definition text_response (status : Z) (t : string) : Response :=
  mkResponse status t no_json "".

Definition param (k : string) (r : Request) : string :=
  match find (fun kv => String.eqb k (fst kv)) (params r) with
  | Some kv => snd kv
  | None => ""
  end.

(** Space DOCS holds page 12345 "Architecture" and page 777 "Private
    Roadmap"; user alice has account id u-alice; the legacy endpoint
    answers [true]; deleting the read restriction of page 12345 answers
    204, anything else answers 404. *)
Definition docs_backend (_ : list Request) (r : Request) : Reply :=
  match method r with
  | GET =>
      if String.eqb (url r) "/rest/api/content" then
        if String.eqb (param "spaceKey" r) "DOCS"
           && String.eqb (param "title" r) "Architecture"
        then Responded (json_response 200
               (JDict [("results", JList [JDict [("id", JStr "12345")]])]))
        else Responded (json_response 200 (JDict [("results", JList [])]))
      else if String.eqb (url r) "/rest/api/content/12345" then
        Responded (json_response 200 (JDict [("title", JStr "Architecture")]))
      else if String.eqb (url r) "/rest/api/content/777" then
        Responded (json_response 200 (JDict [("title", JStr "Private Roadmap")]))
      else if String.eqb (url r) "/rest/api/user"
              && String.eqb (param "username" r) "alice" then
        Responded (json_response 200 (JDict [("accountId", JStr "u-alice")]))
      else Responded (text_response 404 "")
  | POST =>
      if String.eqb (url r) "/pages/setcontentpermissions.action"
      then Responded (text_response 200 "true")
      else Responded (text_response 404 "")
  | DELETE =>
      if String.eqb (url r) "/rest/api/content/12345/restriction/byOperation/read"
      then Responded (text_response 204 "")
      else Responded (text_response 404 "")
  end.

Definition docs : World :=
  mkWorld "https://wiki.example.org" "admin" "secret-token" "admin-password"
    "10000" None docs_backend.

(** A server that cannot be reached. *)
Definition unreachable : World :=
  mkWorld "https://wiki.example.org" "admin" "secret-token" "admin-password"
    "10000" None
    (fun _ _ => Raised (OtherException "ConnectError" "All connection attempts failed")).

(** [addRestriction(pageId="12345", operation=UPDATE, groups=["engineering"])] *)
Definition restrict_engineering : AddRestrictionInput.t :=
  AddRestrictionInput.mk (Some "12345") None None UPDATE
    None None (Some ["engineering"]) None.

(** An update restriction on "Private Roadmap" for two users. *)
Definition restrict_roadmap : AddRestrictionInput.t :=
  AddRestrictionInput.mk (Some "777") None None UPDATE
    (Some ["alice"; "bob"]) None None None.

(** The same server, but deleting the read restriction of a page is
    forbidden and deleting its update restriction answers 204. *)
Definition locked_backend (tr : list Request) (r : Request) : Reply :=
  match method r with
  | DELETE =>
      if String.eqb (url r) "/rest/api/content/12345/restriction/byOperation/read"
      then Responded (text_response 403 "Forbidden")
      else Responded (text_response 204 "")
  | _ => docs_backend tr r
  end.

Definition locked : World :=
  mkWorld "https://wiki.example.org" "admin" "secret-token" "admin-password"
    "10000" None locked_backend.

(** Remove every restriction of page 12345. *)
Definition unrestrict : RemoveRestrictionInput.t :=
  RemoveRestrictionInput.mk (Some "12345") None None None false.

(** A server that rejects the administrator: every request is answered 401
    with a body that carries no token. *)
Definition rejecting : World :=
  mkWorld "https://wiki.example.org" "admin" "secret-token" "wrong-password"
    "10000" None
    (fun _ _ => Responded (text_response 401 "Unauthorized")).

(** A server on which the administrator may sync: the re-authentication page
    carries the token abc123 in a hidden field, and the sync action
    redirects. *)
Definition directory_admin_backend (_ : list Request) (r : Request) : Reply :=
  if String.eqb (url r) "/doauthenticate.action" then
    Responded (text_response 200
      ("<form><input type='hidden' " ++ token_attribute_name ++ " "
         ++ token_attribute_value ++ "abc123" ++ String PyString.dquote "></form>"))
  else if String.prefix "/plugins/servlet/embedded-crowd/directories/sync" (url r)
  then Responded (text_response 302 "")
  else Responded (text_response 200 "{}").

Definition directory_admin : World :=
  mkWorld "https://wiki.example.org" "admin" "secret-token" "admin-password"
    "10000" None directory_admin_backend.





(** Sync the configured directory with the configured credentials. *)
Definition sync_configured : SyncUserDirectoryInput.t :=
  SyncUserDirectoryInput.mk None None None.

End Scenario.

(** * Vocabulary of the further properties *)

(** The client can be built: the URL and the token are configured. *)
Definition configured (w : World) : Prop := get_http_client w [] = (Ok tt, []).

Definition missing_configuration : string :=
  "Error: Missing required environment variables: CONFLUENCE_URL, CONFLUENCE_API_TOKEN".

(** The message of the parameter check that a page reference fails, if it
    fails one: both forms given, neither given, or a title without a space
    key. *)
Definition page_reference_error (page_id page_title space_key : option string)
  : option string :=
  if opt_truthy page_id && opt_truthy page_title then
    Some "Cannot specify both page_id and page_title. Please use only one."
  else if negb (opt_truthy page_id) && negb (opt_truthy page_title) then
    Some "Must specify either page_id or page_title."
  else if opt_truthy page_title && negb (opt_truthy space_key) then
    Some "space_key is required when using page_title"
  else None.

(** The content carries one of the tags [_prepare_content_html] looks for,
    in any letter case. *)
Definition has_html_tag (content : string) : bool :=
  existsb (fun tag => PyString.contains tag (PyString.lower content))
    ["<p>"; "<h1>"; "<h2>"; "<h3>"; "<div>"; "<table>"].

(** The legacy endpoint confirmed the grants: a 2xx response whose body has
    "true" in any letter case. *)
Definition confirms (reply : Reply) : Prop :=
  exists r,
    reply = Responded r
    /\ 200 <= status_code r <= 299
    /\ PyString.contains "true" (PyString.lower (text r)) = true.

(** The title cannot be read off the reply: the fetch broke, or the JSON
    object of the answer has no title. *)
Definition title_unavailable (reply : Reply) : Prop :=
  lookup_broke reply
  \/ exists r d,
       reply = Responded r
       /\ 200 <= status_code r <= 299
       /\ body_json r = Ok (JDict d)
       /\ Py.lookup "title" d = None.

(** A title that is neither text nor a container: null, a boolean or a
    number. *)
Definition no_text (page_title : json) : Prop :=
  match page_title with
  | JNull | JBool _ | JInt _ => True
  | _ => False
  end.

(** The request [create_page] posts for a page under [parent_id] (no parent
    when [parent_id] is None or empty). *)
Definition create_request (p : CreatePageInput.t) (parent_id : json) : Request :=
  mkRequest POST "/rest/api/content" []
    (JsonBody (create_payload p (_prepare_content_html (CreatePageInput.content p))
                 parent_id))
    [].

(** The request [get_restrictions] issues. *)
Definition restrictions_request (page_id : string) : Request :=
  mkRequest GET ("/rest/api/content/" ++ page_id ++ "/restriction/byOperation")
    [("expand",
      "read.restrictions.user,read.restrictions.group,update.restrictions.user,update.restrictions.group")]
    NoBody [].

(** A query parameter that is sent only when the field is given and not
    empty. *)
Definition optional_param (name : string) (value : option string)
  : list (string * string) :=
  match value with
  | Some s => if PyString.nonempty s then [(name, s)] else []
  | None => []
  end.

(** The request [get_space_pages] issues. *)
Definition space_pages_request (p : GetSpacePagesInput.t) : Request :=
  mkRequest GET "/rest/api/content"
    ([("spaceKey", GetSpacePagesInput.space_key p);
      ("type", "page");
      ("limit", PyString.of_Z (GetSpacePagesInput.limit p));
      ("start", PyString.of_Z (GetSpacePagesInput.start p))]
     ++ optional_param "title" (GetSpacePagesInput.title p)
     ++ optional_param "expand" (GetSpacePagesInput.expand p))%list
    NoBody [].

(** Whatever [m] returns satisfies [P]. *)
Definition returns {A} (P : A -> Prop) (m : IO A) : Prop :=
  forall w tr a tr', m w tr = (Ok a, tr') -> P a.

(** The entries hold no content preview. *)
Definition without_preview (entries : list (string * json)) : Prop :=
  Py.lookup "content_preview" entries = None
  /\ Py.lookup "content_length" entries = None.

(** ** Further servers and requests, for the examples *)

Module Cases.

(** A configuration without a token. *)
Definition no_token : World :=
  mkWorld "https://wiki.example.org" "admin" "" "admin-password" "10000" None
    Scenario.docs_backend.

Definition restrict_both_forms : AddRestrictionInput.t :=
  AddRestrictionInput.mk (Some "12345") (Some "Architecture") (Some "DOCS") READ
    (Some ["alice"]) None None None.

(** An update restriction for alice and for bob, who is unknown. *)
Definition restrict_unknown_user : AddRestrictionInput.t :=
  AddRestrictionInput.mk (Some "12345") None None UPDATE
    None (Some ["alice"; "bob"]) None None.

(** A server whose legacy endpoint answers 200 with an error page. *)
Definition refusing_backend (tr : list Request) (r : Request) : Reply :=
  match method r with
  | POST => Responded (Scenario.text_response 200 "<html>Not permitted</html>")
  | _ => Scenario.docs_backend tr r
  end.

Definition refusing : World :=
  mkWorld "https://wiki.example.org" "admin" "secret-token" "admin-password"
    "10000" None refusing_backend.

(** A server that answers [null] for the title of every page. *)
Definition untitled_backend (tr : list Request) (r : Request) : Reply :=
  match method r with
  | GET => Responded (Scenario.json_response 200 (JDict [("title", JNull)]))
  | _ => Scenario.docs_backend tr r
  end.

Definition untitled : World :=
  mkWorld "https://wiki.example.org" "admin" "secret-token" "admin-password"
    "10000" None untitled_backend.

(** A server that answers 500 to every GET and [true] to the form post. *)
Definition failing_reads_backend (tr : list Request) (r : Request) : Reply :=
  match method r with
  | GET => Responded (Scenario.text_response 500 "Internal Server Error")
  | _ => Scenario.docs_backend tr r
  end.

Definition failing_reads : World :=
  mkWorld "https://wiki.example.org" "admin" "secret-token" "admin-password"
    "10000" None failing_reads_backend.

(** A server on which the sync action answers 204. *)
Definition no_content_backend (tr : list Request) (r : Request) : Reply :=
  if String.prefix "/plugins/servlet/embedded-crowd/directories/sync" (url r)
  then Responded (Scenario.text_response 204 "")
  else Scenario.directory_admin_backend tr r.

Definition no_content : World :=
  mkWorld "https://wiki.example.org" "admin" "secret-token" "admin-password"
    "10000" None no_content_backend.

(** A configuration without an administrator password. *)
Definition no_password : World :=
  mkWorld "https://wiki.example.org" "admin" "secret-token" "" "10000" None
    Scenario.directory_admin_backend.

(** A page with an empty token field, a link with a token, and a later
    token field that is filled. *)
Definition page_with_two_tokens : string :=
  token_attribute_name ++ " " ++ token_attribute_value
    ++ String PyString.dquote
         (" <a href='?atl_token=fromlink'> " ++ token_attribute_name ++ " "
            ++ token_attribute_value ++ "fromfield" ++ String PyString.dquote ">").

(** A server that creates pages but answers without an id. *)
Definition forgetful_backend (tr : list Request) (r : Request) : Reply :=
  match method r with
  | POST => Responded (Scenario.json_response 200 (JDict [("title", JStr "Notes")]))
  | _ => Scenario.docs_backend tr r
  end.

Definition forgetful : World :=
  mkWorld "https://wiki.example.org" "admin" "secret-token" "admin-password"
    "10000" None forgetful_backend.

(** A page of plain text in DOCS, without a parent. *)
Definition notes : CreatePageInput.t :=
  CreatePageInput.mk "DOCS" "Notes" "Remember the milk" None None V2.

(** The same page under a parent that does not exist. *)
Definition orphan_notes : CreatePageInput.t :=
  CreatePageInput.mk "DOCS" "Notes" "Remember the milk" None (Some "Missing") V2.

(** A page whose storage body is the given text. *)
Definition page_with_content (content : string) : json :=
  JDict [("id", JStr "1");
         ("body", JDict [("storage", JDict [("value", JStr content)])])].

(** A server on which no page is restricted. *)
Definition unrestricted_backend (_ : list Request) (_ : Request) : Reply :=
  Responded (Scenario.json_response 200 (JDict [("_links", JDict [])])).

Definition unrestricted : World :=
  mkWorld "https://wiki.example.org" "admin" "secret-token" "admin-password"
    "10000" None unrestricted_backend.

(** Remove the restrictions of the page "Missing" of DOCS; list its
    children. *)
Definition unrestrict_missing : RemoveRestrictionInput.t :=
  RemoveRestrictionInput.mk None (Some "Missing") (Some "DOCS") None true.

Definition children_of_missing : GetChildPagesInput.t :=
  GetChildPagesInput.mk None (Some "Missing") (Some "DOCS") 25 0 None.

(** A server whose space DOCS holds two pages out of seven. *)
Definition two_pages : json :=
  JDict [("results",
          JList [JDict [("id", JStr "1"); ("title", JStr "Home")];
                 JDict [("id", JStr "2"); ("title", JStr "Notes");
                        ("_links", JDict [("webui", JStr "/display/DOCS/Notes")])]]);
         ("size", JInt 7);
         ("_links", JDict [("next", JStr "/rest/api/content?start=2")])].

Definition listing_backend (_ : list Request) (_ : Request) : Reply :=
  Responded (Scenario.json_response 200 two_pages).

Definition listing : World :=
  mkWorld "https://wiki.example.org" "admin" "secret-token" "admin-password"
    "10000" None listing_backend.

(** A server whose space DOCS holds a page with a short note. *)
Definition notebook_backend (_ : list Request) (_ : Request) : Reply :=
  Responded (Scenario.json_response 200
    (JDict [("results",
             JList [JDict [("id", JStr "1")];
                    page_with_content "Remember the milk"])])).

Definition notebook : World :=
  mkWorld "https://wiki.example.org" "admin" "secret-token" "admin-password"
    "10000" None notebook_backend.

Definition first_two_of_docs : GetSpacePagesInput.t :=
  GetSpacePagesInput.mk "DOCS" None 2 0 (Some "").

End Cases.

(** * Properties *)

(** ** The embedding on examples *)

Example title_with_private :
  is_private_or_shared (JStr "Private Roadmap") = Ok true.
Proof. reflexivity. Qed.

Example title_test_is_case_sensitive :
  is_private_or_shared (JStr "private notes, shared widely") = Ok false.
Proof. reflexivity. Qed.

Example title_that_is_no_string :
  is_private_or_shared JNull
  = Raise (OtherException "TypeError"
             "argument of type 'NoneType' is not iterable").
Proof. reflexivity. Qed.

Example str_of_a_list :
  Py.str (JList [JInt 1; JStr "a"; JNull; JBool true]) = "[1, 'a', None, True]".
Proof. reflexivity. Qed.

Example resolve_architecture :
  _find_page_by_title "DOCS" "Architecture" Scenario.docs []
  = (Ok (JStr "12345"), [lookup_request "DOCS" "Architecture"]).
Proof. reflexivity. Qed.

Example resolve_alice :
  _find_user_by_identifier "alice" Scenario.docs []
  = (Ok (JStr "u-alice"),
     [mkRequest GET "/rest/api/user" [("username", "alice")] NoBody []]).
Proof. reflexivity. Qed.

Example unknown_user_is_looked_up_twice :
  _find_user_by_identifier "bob" Scenario.docs []
  = (Ok JNull,
     [mkRequest GET "/rest/api/user" [("username", "bob")] NoBody [];
      mkRequest GET "/rest/api/search/user" [("query", "bob")] NoBody []]).
Proof. reflexivity. Qed.

Example token_from_attribute :
  extract_atl_token
    ("<input type='hidden' " ++ token_attribute_name ++ " "
       ++ token_attribute_value ++ "abc123" ++ String PyString.dquote ">")
  = Some "abc123".
Proof. reflexivity. Qed.

Example token_from_query_string :
  extract_atl_token "<a href='/admin/sync?atl_token=tok42&directoryId=1'>"
  = Some "tok42".
Proof. reflexivity. Qed.

Example attribute_needs_whitespace :
  extract_atl_token
    (token_attribute_name ++ token_attribute_value ++ "abc123"
       ++ String PyString.dquote ">")
  = None.
Proof. reflexivity. Qed.

Example sync_runs_four_steps :
  sync_user_directory Scenario.directory_admin Scenario.sync_configured
  = (JDict [("success", JBool true);
            ("message",
             JStr "User directory sync triggered successfully for directory ID: 10000");
            ("directory_id", JStr "10000")],
     [login_request "admin" "admin-password";
      authenticate_request "admin-password";
      sync_request "10000" "abc123"]).
Proof. reflexivity. Qed.

(** ** Substring tests *)

Lemma prefix_true_iff (p s : string) :
  String.prefix p s = true <-> exists rest, s = p ++ rest.
Proof.
  revert s; induction p as [|a p IH]; intros s.
  - split; [intros _; now exists s | intros _; now destruct s].
  - destruct s as [|b s]; simpl.
    + split; [discriminate | intros [rest H]; discriminate].
    + destruct (ascii_dec a b) as [->|Hab].
      * rewrite IH. split; intros [rest H]; exists rest.
        -- now rewrite H.
        -- now injection H.
      * split; [discriminate | intros [rest H]; injection H; intros; congruence].
Qed.

Lemma contains_unfold (needle hay : string) :
  PyString.contains needle hay
  = if String.prefix needle hay then true
    else match hay with
         | EmptyString => false
         | String _ rest => PyString.contains needle rest
         end.
Proof. now destruct hay. Qed.

Lemma contains_true_iff (needle hay : string) :
  PyString.contains needle hay = true <-> Substring needle hay.
Proof.
  unfold Substring. induction hay as [|c hay IH]; rewrite contains_unfold.
  - destruct (String.prefix needle "") eqn:E.
    + apply prefix_true_iff in E. destruct E as [rest E].
      split; [intros _; now exists "", rest | reflexivity].
    + split; [discriminate|].
      intros [before [after H]].
      destruct before; simpl in H; [|discriminate].
      assert (String.prefix needle "" = true) by (apply prefix_true_iff; eauto).
      congruence.
  - destruct (String.prefix needle (String c hay)) eqn:E.
    + apply prefix_true_iff in E. destruct E as [rest E].
      split; [intros _; now exists "", rest | reflexivity].
    + rewrite IH. split.
      * intros [before [after H]]. exists (String c before), after.
        simpl. now rewrite H.
      * intros [before [after H]]. destruct before as [|b before]; simpl in H.
        -- assert (String.prefix needle (String c hay) = true)
             by (apply prefix_true_iff; eauto).
           congruence.
        -- injection H; intros; eauto.
Qed.

Lemma contains_false_iff (needle hay : string) :
  PyString.contains needle hay = false <-> ~ Substring needle hay.
Proof.
  rewrite <- contains_true_iff.
  destruct (PyString.contains needle hay); intuition congruence.
Qed.

(** ** The monad *)

Lemma bind_ok {A B} (m : IO A) (k : A -> IO B) w tr a tr' :
  m w tr = (Ok a, tr') -> bind m k w tr = k a w tr'.
Proof. intros H. unfold bind. now rewrite H. Qed.

(** ** The form data *)

Lemma fold_left_append {A B} (f : A -> list B) (l : list A) (acc : list B) :
  fold_left (fun fd a => fd ++ f a)%list l acc = (acc ++ flat_map f l)%list.
Proof.
  revert acc; induction l as [|a l IH]; intros acc; simpl.
  - now rewrite app_nil_r.
  - now rewrite IH, app_assoc.
Qed.

Lemma build_form_data_flat_map op sensitive users groups page_id :
  build_form_data op sensitive users groups page_id
  = (flat_map (user_permissions op sensitive) users
     ++ flat_map (group_permissions op sensitive) groups
     ++ [("contentId=" ++ Py.str page_id)%string])%list.
Proof.
  unfold build_form_data. rewrite !fold_left_append. simpl.
  now rewrite app_assoc.
Qed.

Lemma is_private_or_shared_str (T : string) :
  is_private_or_shared (JStr T)
  = Ok (PyString.contains "Private" T || PyString.contains "Shared" T).
Proof.
  unfold is_private_or_shared; simpl.
  now destruct (PyString.contains "Private" T).
Qed.

(** Once the page and the principals are resolved and some principal is
    left, the tool issues exactly one more request, the form post. *)
Lemma add_restrictions_submits w p page_id page_title users groups tr1 tr2 tr3
    sensitive :
  get_http_client w [] = (Ok tt, []) ->
  resolve_page (AddRestrictionInput.page_id p) (AddRestrictionInput.page_title p)
    (AddRestrictionInput.space_key p) w [] = (Ok (Continue (page_id, page_title)), tr1) ->
  resolve_user_identifiers (or_empty (AddRestrictionInput.user_identifiers p))
    (map JStr (or_empty (AddRestrictionInput.user_account_ids p))) w tr1
    = (Ok (Continue users), tr2) ->
  resolve_group_names (or_empty (AddRestrictionInput.group_names p))
    (map JStr (or_empty (AddRestrictionInput.group_ids p))) w tr2
    = (Ok (Continue groups), tr3) ->
  list_truthy users || list_truthy groups = true ->
  is_private_or_shared page_title = Ok sensitive ->
  let form_body :=
    PyString.join "&"
      (build_form_data (AddRestrictionInput.operation p) sensitive users groups
         page_id) in
  exists added,
    submit_permissions form_body users groups w tr3
      = (Ok added, (tr3 ++ [permissions_request form_body])%list)
    /\ add_restrictions w p
       = (add_result page_id (AddRestrictionInput.operation p)
            (fst (fst added)) (snd (fst added)) (snd added),
          (tr3 ++ [permissions_request form_body])%list).
Proof.
  intros Hc Hp Hu Hg Hne Hs form_body.
  assert (Hsub : exists added,
    submit_permissions form_body users groups w tr3
    = (Ok added, (tr3 ++ [permissions_request form_body])%list)).
  { unfold submit_permissions, try_except, bind, send.
    destruct (backend w tr3 (permissions_request form_body)) as [e|resp].
    - eexists; reflexivity.
    - unfold raise_for_status.
      destruct ((200 <=? status_code resp) && (status_code resp <=? 299)).
      + unfold ret.
        destruct (PyString.contains "true" (PyString.lower (text resp)));
          eexists; reflexivity.
      + unfold raise, ret. eexists; reflexivity. }
  destruct Hsub as [added Hsub]. exists added. split; [exact Hsub|].
  unfold add_restrictions, tool, add_restrictions_body.
  rewrite (bind_ok _ _ _ _ _ _ Hc).
  rewrite (bind_ok _ _ _ _ _ _ Hp).
  rewrite (bind_ok _ _ _ _ _ _ Hu).
  rewrite (bind_ok _ _ _ _ _ _ Hg).
  replace (negb (list_truthy users) && negb (list_truthy groups)) with false
    by (destruct (list_truthy users), (list_truthy groups);
        simpl in *; congruence).
  unfold lift at 1. rewrite Hs. unfold bind at 1.
  fold form_body. rewrite (bind_ok _ _ _ _ _ _ Hsub).
  destruct added as [[ua ga] errs]. reflexivity.
Qed.

(** ** Restriction engine: the grants of [add_restrictions] *)

(** C1.  When [add_restrictions] has resolved the page to a title [T] and the
    merged principals are not all missing, it posts the form data made of the
    grants of each user, then of each group, then the page id; for [read]
    each principal gets exactly its view grant, for [update] on a title that
    contains "Private" or "Shared" each gets its view grant and its edit
    grant, and for [update] on any other title each gets exactly its edit
    grant. *)
Theorem add_restrictions_grants_by_operation
    (w : World) (p : AddRestrictionInput.t) (page_id : json) (T : string)
    (users groups : list json) (tr1 tr2 tr3 : list Request) :
  get_http_client w [] = (Ok tt, []) ->
  resolve_page (AddRestrictionInput.page_id p) (AddRestrictionInput.page_title p)
    (AddRestrictionInput.space_key p) w [] = (Ok (Continue (page_id, JStr T)), tr1) ->
  resolve_user_identifiers (or_empty (AddRestrictionInput.user_identifiers p))
    (map JStr (or_empty (AddRestrictionInput.user_account_ids p))) w tr1
    = (Ok (Continue users), tr2) ->
  resolve_group_names (or_empty (AddRestrictionInput.group_names p))
    (map JStr (or_empty (AddRestrictionInput.group_ids p))) w tr2
    = (Ok (Continue groups), tr3) ->
  list_truthy users || list_truthy groups = true ->
  let op := AddRestrictionInput.operation p in
  exists (user_grants group_grants : json -> list string),
    snd (add_restrictions w p)
    = (tr3 ++ [permissions_request
                 (PyString.join "&"
                    (flat_map user_grants users ++ flat_map group_grants groups
                     ++ [("contentId=" ++ Py.str page_id)%string]))])%list
    /\ (op = READ ->
        forall v, user_grants v = ["viewPermissionsUserList=" ++ Py.str v]
                  /\ group_grants v = ["viewPermissionsGroupList=" ++ Py.str v])
    /\ (op = UPDATE -> Substring "Private" T \/ Substring "Shared" T ->
        forall v, user_grants v = ["viewPermissionsUserList=" ++ Py.str v;
                                   "editPermissionsUserList=" ++ Py.str v]
                  /\ group_grants v = ["viewPermissionsGroupList=" ++ Py.str v;
                                       "editPermissionsGroupList=" ++ Py.str v])
    /\ (op = UPDATE -> ~ Substring "Private" T -> ~ Substring "Shared" T ->
        forall v, user_grants v = ["editPermissionsUserList=" ++ Py.str v]
                  /\ group_grants v = ["editPermissionsGroupList=" ++ Py.str v]).
Proof.
  intros Hc Hp Hu Hg Hne op.
  set (sensitive := PyString.contains "Private" T || PyString.contains "Shared" T).
  exists (user_permissions op sensitive), (group_permissions op sensitive).
  destruct (add_restrictions_submits w p page_id (JStr T) users groups tr1 tr2 tr3
              sensitive Hc Hp Hu Hg Hne (is_private_or_shared_str T))
    as [added [_ Hrun]].
  rewrite Hrun, build_form_data_flat_map. simpl snd. fold op.
  split; [reflexivity|].
  split; [|split].
  - intros Hop v. rewrite Hop. split; reflexivity.
  - intros Hop Hsub v. rewrite Hop.
    assert (Hs : sensitive = true).
    { unfold sensitive. apply orb_true_iff.
      destruct Hsub as [H|H]; [left|right]; now apply contains_true_iff. }
    rewrite Hs. split; reflexivity.
  - intros Hop Hn1 Hn2 v. rewrite Hop.
    assert (Hs : sensitive = false).
    { unfold sensitive. apply orb_false_iff.
      split; now apply contains_false_iff. }
    rewrite Hs. split; reflexivity.
Qed.

Lemma add_restrictions_grants_by_operation_witness :
  exists user_grants group_grants : json -> list string,
    snd (add_restrictions Scenario.docs Scenario.restrict_roadmap)
    = [mkRequest GET "/rest/api/content/777" [] NoBody [];
       permissions_request
         (PyString.join "&"
            (flat_map user_grants [JStr "alice"; JStr "bob"]
             ++ flat_map group_grants [] ++ ["contentId=777"]))]%list
    /\ forall v, user_grants v = ["viewPermissionsUserList=" ++ Py.str v;
                                  "editPermissionsUserList=" ++ Py.str v]
                 /\ group_grants v = ["viewPermissionsGroupList=" ++ Py.str v;
                                      "editPermissionsGroupList=" ++ Py.str v].
Proof.
  destruct (add_restrictions_grants_by_operation
              Scenario.docs Scenario.restrict_roadmap (JStr "777") "Private Roadmap"
              [JStr "alice"; JStr "bob"] []
              [mkRequest GET "/rest/api/content/777" [] NoBody []]
              [mkRequest GET "/rest/api/content/777" [] NoBody []]
              [mkRequest GET "/rest/api/content/777" [] NoBody []]
              eq_refl eq_refl eq_refl eq_refl eq_refl)
    as [ug [gg [Hreq [_ [Hboth _]]]]].
  exists ug, gg. split; [exact Hreq|].
  apply Hboth; [reflexivity|].
  left. exists "", " Roadmap". reflexivity.
Defined.

(** ** Restriction engine: the order of the form body *)

Import FormOrder.

Lemma each_of_all_of view edit vk ek (l : list json) :
  view = false \/ edit = false \/ (length l <= 1)%nat ->
  flat_map (each_of view edit vk ek) l
  = (all_of view vk l ++ all_of edit ek l)%list.
Proof.
  unfold each_of, all_of. intros [->|[->|Hlen]].
  - simpl. induction l as [|a l IH]; simpl; [now destruct edit|].
    rewrite IH. now destruct edit.
  - destruct view; simpl.
    + rewrite app_nil_r. induction l as [|a l IH]; simpl; congruence.
    + induction l as [|a l IH]; simpl; congruence.
  - destruct l as [|a [|b l]]; simpl in *; [now destruct view, edit| |lia].
    destruct view, edit; reflexivity.
Qed.

Lemma user_permissions_each_of op sensitive v :
  user_permissions op sensitive v
  = each_of (grants_view op sensitive) (grants_edit op)
      "viewPermissionsUserList" "editPermissionsUserList" v.
Proof. destruct op, sensitive; reflexivity. Qed.

Lemma group_permissions_each_of op sensitive v :
  group_permissions op sensitive v
  = each_of (grants_view op sensitive) (grants_edit op)
      "viewPermissionsGroupList" "editPermissionsGroupList" v.
Proof. destruct op, sensitive; reflexivity. Qed.

Lemma build_form_data_by_principal op sensitive users groups page_id :
  build_form_data op sensitive users groups page_id
  = by_principal op sensitive users groups page_id.
Proof.
  rewrite build_form_data_flat_map. unfold by_principal.
  f_equal; [|f_equal].
  - apply flat_map_ext. intros v. apply user_permissions_each_of.
  - apply flat_map_ext. intros v. apply group_permissions_each_of.
Qed.

Lemma by_principal_by_permission op sensitive users groups page_id :
  op = READ \/ sensitive = false
  \/ ((length users <= 1)%nat /\ (length groups <= 1)%nat) ->
  by_principal op sensitive users groups page_id
  = by_permission op sensitive users groups page_id.
Proof.
  intros H. unfold by_principal, by_permission.
  assert (Hu : grants_view op sensitive = false \/ grants_edit op = false
               \/ (length users <= 1)%nat).
  { destruct H as [->|[->|[H _]]]; [right; left| |]; auto.
    destruct op; simpl; auto. }
  assert (Hg : grants_view op sensitive = false \/ grants_edit op = false
               \/ (length groups <= 1)%nat).
  { destruct H as [->|[->|[_ H]]]; [right; left| |]; auto.
    destruct op; simpl; auto. }
  rewrite (each_of_all_of _ _ _ _ users Hu), (each_of_all_of _ _ _ _ groups Hg).
  now rewrite <- !app_assoc.
Qed.


(** C2, as the specification states it, fails: an update restriction for
    two users on the sensitive page "Private Roadmap" posts each user's view
    grant directly followed by that user's edit grant, so an edit grant comes
    before the second user's view grant. *)
Lemma form_body_not_grouped_by_permission :
  snd (add_restrictions Scenario.docs Scenario.restrict_roadmap)
  = [mkRequest GET "/rest/api/content/777" [] NoBody [];
     permissions_request
       "viewPermissionsUserList=alice&editPermissionsUserList=alice&viewPermissionsUserList=bob&editPermissionsUserList=bob&contentId=777"]
  /\ PyString.join "&"
       (FormOrder.by_permission UPDATE true [JStr "alice"; JStr "bob"] []
          (JStr "777"))
     = "viewPermissionsUserList=alice&viewPermissionsUserList=bob&editPermissionsUserList=alice&editPermissionsUserList=bob&contentId=777"
  /\ snd (add_restrictions Scenario.docs Scenario.restrict_roadmap)
     <> [mkRequest GET "/rest/api/content/777" [] NoBody [];
         permissions_request
           (PyString.join "&"
              (FormOrder.by_permission UPDATE true [JStr "alice"; JStr "bob"] []
                 (JStr "777")))].
Proof.
  split; [reflexivity|]. split; [reflexivity|].
  vm_compute. discriminate.
Qed.

(** C2, amended.  The form body lists the grants principal by principal:
    for each user in turn its view grant then its edit grant (whichever of
    the two the operation grants), then the same for each group, then the
    page id.  This is the order by permission whenever the operation is
    read, the page is not sensitive, or there is at most one user and at
    most one group; and an update restriction for the single group
    "engineering" on the page 12345 titled "Architecture" posts exactly
    editPermissionsGroupList=engineering&contentId=12345. *)
Theorem add_restrictions_form_body_order
    (w : World) (p : AddRestrictionInput.t) (page_id page_title : json)
    (users groups : list json) (tr1 tr2 tr3 : list Request) (sensitive : bool) :
  get_http_client w [] = (Ok tt, []) ->
  resolve_page (AddRestrictionInput.page_id p) (AddRestrictionInput.page_title p)
    (AddRestrictionInput.space_key p) w [] = (Ok (Continue (page_id, page_title)), tr1) ->
  resolve_user_identifiers (or_empty (AddRestrictionInput.user_identifiers p))
    (map JStr (or_empty (AddRestrictionInput.user_account_ids p))) w tr1
    = (Ok (Continue users), tr2) ->
  resolve_group_names (or_empty (AddRestrictionInput.group_names p))
    (map JStr (or_empty (AddRestrictionInput.group_ids p))) w tr2
    = (Ok (Continue groups), tr3) ->
  list_truthy users || list_truthy groups = true ->
  is_private_or_shared page_title = Ok sensitive ->
  let op := AddRestrictionInput.operation p in
  snd (add_restrictions w p)
  = (tr3 ++ [permissions_request
               (PyString.join "&"
                  (FormOrder.by_principal op sensitive users groups page_id))])%list
  /\ (op = READ \/ sensitive = false
      \/ ((length users <= 1)%nat /\ (length groups <= 1)%nat) ->
      snd (add_restrictions w p)
      = (tr3 ++ [permissions_request
                   (PyString.join "&"
                      (FormOrder.by_permission op sensitive users groups page_id))])%list)
  /\ add_restrictions Scenario.docs Scenario.restrict_engineering
     = (JDict [("success", JBool true); ("page_id", JStr "12345");
               ("operation", JStr "update"); ("users_added", JInt 0);
               ("groups_added", JInt 1);
               ("message", JStr "Added update restrictions: 0 users, 1 groups")],
        [mkRequest GET "/rest/api/content/12345" [] NoBody [];
         permissions_request "editPermissionsGroupList=engineering&contentId=12345"]).
Proof.
  intros Hc Hp Hu Hg Hne Hs op.
  destruct (add_restrictions_submits w p page_id page_title users groups tr1 tr2 tr3
              sensitive Hc Hp Hu Hg Hne Hs) as [added [_ Hrun]].
  rewrite Hrun, build_form_data_by_principal. simpl snd. fold op.
  split; [reflexivity|]. split; [|reflexivity].
  intros H. now rewrite (by_principal_by_permission _ _ _ _ _ H).
Qed.

Lemma add_restrictions_form_body_order_witness :
  snd (add_restrictions Scenario.docs Scenario.restrict_engineering)
  = [mkRequest GET "/rest/api/content/12345" [] NoBody [];
     permissions_request
       (PyString.join "&"
          (FormOrder.by_permission UPDATE false [] [JStr "engineering"]
             (JStr "12345")))].
Proof.
  apply (add_restrictions_form_body_order
           Scenario.docs Scenario.restrict_engineering (JStr "12345")
           (JStr "Architecture") [] [JStr "engineering"]
           [mkRequest GET "/rest/api/content/12345" [] NoBody []]
           [mkRequest GET "/rest/api/content/12345" [] NoBody []]
           [mkRequest GET "/rest/api/content/12345" [] NoBody []]
           false eq_refl eq_refl eq_refl eq_refl eq_refl eq_refl).
  right; left; reflexivity.
Defined.

(** ** Which requests a computation issues *)

Section OnlyIssues.
Variable P : Request -> Prop.

Lemma only_issues_ret {A} (a : A) : only_issues P (ret a).
Proof. intros w tr. exists []. simpl. now rewrite app_nil_r. Qed.

Lemma only_issues_raise {A} (e : exn) : only_issues P (@raise A e).
Proof. intros w tr. exists []. simpl. now rewrite app_nil_r. Qed.

Lemma only_issues_lift {A} (r : result A) : only_issues P (lift r).
Proof. intros w tr. exists []. simpl. now rewrite app_nil_r. Qed.

Lemma only_issues_ask : only_issues P ask.
Proof. intros w tr. exists []. simpl. now rewrite app_nil_r. Qed.

Lemma only_issues_send (r : Request) : P r -> only_issues P (send r).
Proof.
  intros Hr w tr. exists [r]. unfold send.
  destruct (backend w tr r); simpl; auto.
Qed.

Lemma only_issues_bind {A B} (m : IO A) (k : A -> IO B) :
  only_issues P m -> (forall a, only_issues P (k a)) -> only_issues P (bind m k).
Proof.
  intros Hm Hk w tr. unfold bind.
  destruct (Hm w tr) as [ext1 [E1 F1]].
  destruct (m w tr) as [[a|e] tr1]; simpl in E1; subst tr1.
  - destruct (Hk a w (tr ++ ext1)%list) as [ext2 [E2 F2]].
    exists (ext1 ++ ext2)%list. rewrite E2, app_assoc.
    split; [reflexivity | now apply Forall_app].
  - exists ext1. auto.
Qed.

Lemma only_issues_try_except {A} (m : IO A) (h : exn -> IO A) :
  only_issues P m -> (forall e, only_issues P (h e)) ->
  only_issues P (try_except m h).
Proof.
  intros Hm Hh w tr. unfold try_except.
  destruct (Hm w tr) as [ext1 [E1 F1]].
  destruct (m w tr) as [[a|e] tr1]; simpl in E1; subst tr1.
  - exists ext1. auto.
  - destruct (Hh e w (tr ++ ext1)%list) as [ext2 [E2 F2]].
    exists (ext1 ++ ext2)%list. rewrite E2, app_assoc.
    split; [reflexivity | now apply Forall_app].
Qed.

Lemma only_issues_if {A} (b : bool) (m1 m2 : IO A) :
  only_issues P m1 -> only_issues P m2 -> only_issues P (if b then m1 else m2).
Proof. now destruct b. Qed.

End OnlyIssues.

Create HintDb io_trace.
#[local] Hint Resolve only_issues_ret only_issues_raise only_issues_lift
  only_issues_ask only_issues_send only_issues_bind only_issues_try_except
  only_issues_if : io_trace.

Ltac only_gets :=
  repeat first
    [ apply only_issues_bind; [|intros ?]
    | apply only_issues_try_except; [|intros ?]
    | apply only_issues_if
    | apply only_issues_send; reflexivity
    | apply only_issues_ret
    | apply only_issues_raise
    | apply only_issues_lift
    | apply only_issues_ask ].

Lemma raise_for_status_silent P (r : Response) : only_issues P (raise_for_status r).
Proof. unfold raise_for_status. auto with io_trace. Qed.

Lemma get_http_client_silent P : only_issues P get_http_client.
Proof. unfold get_http_client. auto with io_trace. Qed.

#[local] Hint Resolve raise_for_status_silent get_http_client_silent : io_trace.

Lemma _find_page_by_title_gets space_key title :
  only_issues is_get (_find_page_by_title space_key title).
Proof.
  unfold _find_page_by_title, client_get, response_json.
  only_gets.
Qed.

Lemma fetch_page_title_gets page_id :
  only_issues is_get (fetch_page_title page_id).
Proof.
  unfold fetch_page_title, client_get, response_json.
  only_gets.
Qed.

Lemma _find_user_by_identifier_gets identifier :
  only_issues is_get (_find_user_by_identifier identifier).
Proof.
  unfold _find_user_by_identifier, client_get, response_json. only_gets.
Qed.

Lemma resolve_page_gets page_id page_title space_key :
  only_issues is_get (resolve_page page_id page_title space_key).
Proof.
  unfold resolve_page. only_gets.
Qed.

Lemma resolve_user_identifiers_gets identifiers acc :
  only_issues is_get (resolve_user_identifiers identifiers acc).
Proof.
  revert acc; induction identifiers as [|i rest IH]; intros acc; simpl.
  - apply only_issues_ret.
  - apply only_issues_bind; [apply _find_user_by_identifier_gets|].
    intros a. apply only_issues_if; [apply IH | apply only_issues_ret].
Qed.

Lemma resolve_group_names_silent P names acc :
  only_issues P (resolve_group_names names acc).
Proof.
  revert acc; induction names as [|n rest IH]; intros acc; simpl.
  - apply only_issues_ret.
  - unfold _find_group_by_name.
    apply only_issues_bind; [apply only_issues_ret|].
    intros a. apply only_issues_if; [apply IH | apply only_issues_ret].
Qed.

(** ** Restriction engine: the merged principals *)

Lemma resolve_user_identifiers_spec identifiers acc w tr users tr' :
  resolve_user_identifiers identifiers acc w tr = (Ok (Continue users), tr') ->
  exists resolved,
    users = (acc ++ resolved)%list
    /\ length resolved = length identifiers
    /\ Forall (fun v => Py.truthy v = true) resolved.
Proof.
  revert acc tr; induction identifiers as [|i rest IH]; intros acc tr; simpl.
  - unfold ret. intros H. injection H as <- _. exists [].
    rewrite app_nil_r. auto.
  - unfold bind.
    destruct (_find_user_by_identifier i w tr) as [[account_id|e] tr1];
      [|discriminate].
    destruct (Py.truthy account_id) eqn:Ht; [|discriminate].
    intros H. destruct (IH _ _ H) as [resolved [-> [Hlen Hall]]].
    exists (account_id :: resolved). rewrite <- app_assoc. simpl. auto.
Qed.

Lemma resolve_group_names_spec names acc w tr groups tr' :
  resolve_group_names names acc w tr = (Ok (Continue groups), tr') ->
  groups = (acc ++ map JStr names)%list /\ tr' = tr.
Proof.
  revert acc; induction names as [|n rest IH]; intros acc; simpl.
  - unfold ret. intros H. injection H as <- <-. now rewrite app_nil_r.
  - unfold bind, _find_group_by_name, ret.
    destruct (Py.truthy (JStr n)); [|discriminate].
    intros H. destruct (IH _ H) as [-> ->]. now rewrite <- app_assoc.
Qed.

(** C5.  When the merged users and the merged groups are both empty after
    resolution, [add_restrictions] returns the failure "At least one user or
    group must be specified" and has issued nothing but the GET requests of
    the resolution: no request was posted to the legacy endpoint. *)
Theorem add_restrictions_requires_a_principal
    (w : World) (p : AddRestrictionInput.t) (page_id page_title : json)
    (tr1 tr2 tr3 : list Request) :
  get_http_client w [] = (Ok tt, []) ->
  resolve_page (AddRestrictionInput.page_id p) (AddRestrictionInput.page_title p)
    (AddRestrictionInput.space_key p) w [] = (Ok (Continue (page_id, page_title)), tr1) ->
  resolve_user_identifiers (or_empty (AddRestrictionInput.user_identifiers p))
    (map JStr (or_empty (AddRestrictionInput.user_account_ids p))) w tr1
    = (Ok (Continue []), tr2) ->
  resolve_group_names (or_empty (AddRestrictionInput.group_names p))
    (map JStr (or_empty (AddRestrictionInput.group_ids p))) w tr2
    = (Ok (Continue []), tr3) ->
  fst (add_restrictions w p)
  = JDict [("success", JBool false);
           ("error", JStr "At least one user or group must be specified")]
  /\ Forall (fun r => method r = GET) (snd (add_restrictions w p))
  /\ forall form_body, ~ In (permissions_request form_body) (snd (add_restrictions w p)).
Proof.
  intros Hc Hp Hu Hg.
  assert (Hrun : add_restrictions w p
                 = (failure "At least one user or group must be specified", tr3)).
  { unfold add_restrictions, tool, add_restrictions_body.
    rewrite (bind_ok _ _ _ _ _ _ Hc), (bind_ok _ _ _ _ _ _ Hp),
      (bind_ok _ _ _ _ _ _ Hu), (bind_ok _ _ _ _ _ _ Hg).
    reflexivity. }
  assert (Hgets : Forall is_get tr3).
  { destruct (resolve_page_gets (AddRestrictionInput.page_id p)
                (AddRestrictionInput.page_title p)
                (AddRestrictionInput.space_key p) w []) as [e1 [E1 F1]].
    rewrite Hp in E1. simpl in E1. subst tr1.
    destruct (resolve_user_identifiers_gets
                (or_empty (AddRestrictionInput.user_identifiers p))
                (map JStr (or_empty (AddRestrictionInput.user_account_ids p)))
                w e1) as [e2 [E2 F2]].
    rewrite Hu in E2. simpl in E2. subst tr2.
    destruct (resolve_group_names_spec _ _ _ _ _ _ Hg) as [_ ->].
    now apply Forall_app. }
  rewrite Hrun. simpl. split; [reflexivity|]. split; [exact Hgets|].
  intros form_body Hin.
  rewrite Forall_forall in Hgets. specialize (Hgets _ Hin). discriminate.
Qed.

Lemma add_restrictions_requires_a_principal_witness :
  fst (add_restrictions Scenario.docs
         (AddRestrictionInput.mk (Some "12345") None None READ
            None (Some []) (Some []) None))
  = JDict [("success", JBool false);
           ("error", JStr "At least one user or group must be specified")].
Proof.
  apply (add_restrictions_requires_a_principal Scenario.docs
           (AddRestrictionInput.mk (Some "12345") None None READ
              None (Some []) (Some []) None)
           (JStr "12345") (JStr "Architecture")
           [mkRequest GET "/rest/api/content/12345" [] NoBody []]
           [mkRequest GET "/rest/api/content/12345" [] NoBody []]
           [mkRequest GET "/rest/api/content/12345" [] NoBody []]
           eq_refl eq_refl eq_refl eq_refl).
Defined.

(** C9, as the specification states it, fails: a group given both as an id
    and as a name is merged twice, granted twice in the form body and
    counted twice in [groups_added]. *)
Lemma merged_groups_are_not_a_set :
  let p := AddRestrictionInput.mk (Some "12345") None None UPDATE
             None None (Some ["engineering"]) (Some ["engineering"]) in
  resolve_group_names (or_empty (AddRestrictionInput.group_names p))
    (map JStr (or_empty (AddRestrictionInput.group_ids p))) Scenario.docs []
  = (Ok (Continue [JStr "engineering"; JStr "engineering"]), [])
  /\ ~ NoDup [JStr "engineering"; JStr "engineering"]
  /\ add_restrictions Scenario.docs p
     = (JDict [("success", JBool true); ("page_id", JStr "12345");
               ("operation", JStr "update"); ("users_added", JInt 0);
               ("groups_added", JInt 2);
               ("message", JStr "Added update restrictions: 0 users, 2 groups")],
        [mkRequest GET "/rest/api/content/12345" [] NoBody [];
         permissions_request
           "editPermissionsGroupList=engineering&editPermissionsGroupList=engineering&contentId=12345"]).
Proof.
  split; [reflexivity|]. split; [|reflexivity].
  intros H. inversion H as [|x l Hnotin _]. apply Hnotin. now left.
Qed.

Lemma resolve_user_identifiers_lookups identifiers acc w tr users tr' :
  resolve_user_identifiers identifiers acc w tr = (Ok (Continue users), tr') ->
  exists resolved,
    users = (acc ++ resolved)%list
    /\ map snd (user_lookups w tr identifiers) = map Ok resolved.
Proof.
  revert acc tr; induction identifiers as [|i rest IH]; intros acc tr; simpl.
  - unfold ret. intros H. injection H as <- _. exists [].
    rewrite app_nil_r. auto.
  - unfold bind.
    destruct (_find_user_by_identifier i w tr) as [[account_id|e] tr1];
      [|discriminate].
    destruct (Py.truthy account_id) eqn:Ht; [|discriminate].
    intros H. destruct (IH _ _ H) as [resolved [-> Hlookups]].
    exists (account_id :: resolved). rewrite <- app_assoc. simpl.
    split; [reflexivity|]. now rewrite Hlookups.
Qed.

Lemma submit_permissions_counts form_body users groups w tr added tr' :
  submit_permissions form_body users groups w tr = (Ok added, tr') ->
  (confirms (backend w tr (permissions_request form_body)) ->
   added = (len users, len groups, []))
  /\ (~ confirms (backend w tr (permissions_request form_body)) ->
      fst (fst added) = 0 /\ snd (fst added) = 0).
Proof.
  unfold submit_permissions, try_except, bind, send, confirms.
  destruct (backend w tr (permissions_request form_body)) as [e|r].
  - unfold ret. intros H. injection H as <- _. split.
    + intros [r' [H _]]. discriminate.
    + intros _. split; reflexivity.
  - unfold raise_for_status.
    destruct ((200 <=? status_code r) && (status_code r <=? 299)) eqn:E2.
    + apply andb_true_iff in E2. destruct E2 as [E2a E2b].
      apply Z.leb_le in E2a, E2b. unfold ret.
      destruct (PyString.contains "true" (PyString.lower (text r))) eqn:Et;
        intros H; injection H as <- _; split.
      * reflexivity.
      * intros Hn. exfalso. apply Hn. exists r. repeat split; auto.
      * intros [r' [H [_ Ht]]]. injection H as <-. congruence.
      * intros _. split; reflexivity.
    + unfold raise, ret. intros H. injection H as <- _. split.
      * intros [r' [H [Hst _]]]. injection H as <-.
        apply andb_false_iff in E2. destruct E2 as [E2 | E2];
          apply Z.leb_gt in E2; lia.
      * intros _. split; reflexivity.
Qed.

Lemma flat_map_twice {A B} (f : A -> list B) (x : A) (l1 l2 : list A) :
  In x l1 -> In x l2 ->
  exists a b c, (flat_map f (l1 ++ l2) = a ++ f x ++ b ++ f x ++ c)%list.
Proof.
  intros H1 H2.
  destruct (in_split _ _ H1) as [a [b1 ->]].
  destruct (in_split _ _ H2) as [b2 [c ->]].
  exists (flat_map f a), (flat_map f b1 ++ flat_map f b2)%list, (flat_map f c).
  repeat (rewrite flat_map_app; simpl).
  now rewrite <- !app_assoc.
Qed.

(** C9, amended.  The merged principals are lists, not sets: the users are
    the direct account ids followed by the account id each identifier's
    lookup returned, the groups are the direct group ids followed by the
    group names, in input order and with duplicates kept.  The form that is
    posted carries the grants of every entry of these lists in that order,
    so the grants of a principal supplied in both forms stand in it twice;
    when the endpoint confirms the post, [users_added] and [groups_added]
    are the lengths of the lists, so it is counted twice, and otherwise both
    counts are 0. *)
Theorem merged_principals_are_concatenated
    (w : World) (p : AddRestrictionInput.t) (page_id page_title : json)
    (users groups : list json) (tr1 tr2 tr3 : list Request) (sensitive : bool) :
  get_http_client w [] = (Ok tt, []) ->
  resolve_page (AddRestrictionInput.page_id p) (AddRestrictionInput.page_title p)
    (AddRestrictionInput.space_key p) w [] = (Ok (Continue (page_id, page_title)), tr1) ->
  resolve_user_identifiers (or_empty (AddRestrictionInput.user_identifiers p))
    (map JStr (or_empty (AddRestrictionInput.user_account_ids p))) w tr1
    = (Ok (Continue users), tr2) ->
  resolve_group_names (or_empty (AddRestrictionInput.group_names p))
    (map JStr (or_empty (AddRestrictionInput.group_ids p))) w tr2
    = (Ok (Continue groups), tr3) ->
  list_truthy users || list_truthy groups = true ->
  is_private_or_shared page_title = Ok sensitive ->
  let op := AddRestrictionInput.operation p in
  let direct_users := or_empty (AddRestrictionInput.user_account_ids p) in
  let identifiers := or_empty (AddRestrictionInput.user_identifiers p) in
  let direct_groups := or_empty (AddRestrictionInput.group_ids p) in
  let names := or_empty (AddRestrictionInput.group_names p) in
  let user_grants := flat_map (user_permissions op sensitive) users in
  let group_grants := flat_map (group_permissions op sensitive) groups in
  let form_body :=
    PyString.join "&"
      (user_grants ++ group_grants
       ++ [("contentId=" ++ Py.str page_id)%string])%list in
  let reply := backend w tr3 (permissions_request form_body) in
  let outcome := fst (add_restrictions w p) in
  (exists resolved,
      users = (map JStr direct_users ++ resolved)%list
      /\ map snd (user_lookups w tr1 identifiers) = map Ok resolved
      /\ forall u, In u direct_users -> In (JStr u) resolved ->
           exists a b c,
             user_grants
             = (a ++ user_permissions op sensitive (JStr u) ++ b
                  ++ user_permissions op sensitive (JStr u) ++ c)%list)
  /\ groups = (map JStr direct_groups ++ map JStr names)%list
  /\ (forall g, In g direct_groups -> In g names ->
        exists a b c,
          group_grants
          = (a ++ group_permissions op sensitive (JStr g) ++ b
               ++ group_permissions op sensitive (JStr g) ++ c)%list)
  /\ snd (add_restrictions w p) = (tr3 ++ [permissions_request form_body])%list
  /\ (confirms reply ->
      field "success" outcome = Some (JBool true)
      /\ field "users_added" outcome
         = Some (JInt (len direct_users + len identifiers))
      /\ field "groups_added" outcome
         = Some (JInt (len direct_groups + len names)))
  /\ (~ confirms reply ->
      field "success" outcome = Some (JBool false)
      /\ field "users_added" outcome = Some (JInt 0)
      /\ field "groups_added" outcome = Some (JInt 0)).
Proof.
  intros Hc Hp Hu Hg Hne Hs op direct_users identifiers direct_groups names
    user_grants group_grants form_body reply outcome.
  destruct (resolve_user_identifiers_lookups _ _ _ _ _ _ Hu)
    as [resolved [Husers Hlookups]].
  destruct (resolve_group_names_spec _ _ _ _ _ _ Hg) as [Hgroups _].
  fold direct_users in Husers. fold identifiers in Hlookups.
  fold direct_groups names in Hgroups.
  assert (Hlen : length resolved = length identifiers).
  { apply (f_equal (@length _)) in Hlookups.
    rewrite !length_map in Hlookups.
    rewrite <- Hlookups. clear. generalize tr1.
    induction identifiers as [|i rest IH]; intros tr; simpl; [reflexivity|].
    now rewrite IH. }
  destruct (add_restrictions_submits w p page_id page_title users groups tr1 tr2 tr3
              sensitive Hc Hp Hu Hg Hne Hs) as [added [Hsub Hrun]].
  rewrite build_form_data_flat_map in Hsub, Hrun.
  fold op user_grants group_grants form_body in Hsub, Hrun.
  destruct (submit_permissions_counts _ _ _ _ _ _ _ Hsub) as [Hyes Hno].
  fold reply in Hyes, Hno.
  split.
  { exists resolved. split; [exact Husers|]. split; [exact Hlookups|].
    intros u Hdirect Hresolved. unfold user_grants. rewrite Husers.
    apply flat_map_twice; [now apply in_map | exact Hresolved]. }
  split; [exact Hgroups|].
  split.
  { intros g Hdirect Hname. unfold group_grants. rewrite Hgroups.
    apply flat_map_twice; now apply in_map. }
  unfold outcome. rewrite Hrun. simpl fst. simpl snd.
  split; [reflexivity|].
  split.
  - intros Hconfirms. rewrite (Hyes Hconfirms). cbn [fst snd].
    assert (Hpos : (0 <? len users) || (0 <? len groups) = true).
    { unfold len. destruct users, groups; simpl in *; try discriminate;
        try reflexivity; apply orb_true_iff; auto. }
    unfold add_result. rewrite Hpos.
    assert (Hu_len : len users = len direct_users + len identifiers).
    { unfold len. rewrite Husers, length_app, length_map, Hlen. lia. }
    assert (Hg_len : len groups = len direct_groups + len names).
    { unfold len. rewrite Hgroups, length_app, !length_map. lia. }
    rewrite <- Hu_len, <- Hg_len. simpl. repeat split.
  - intros Hrefused. destruct (Hno Hrefused) as [H1 H2].
    destruct added as [[users_added groups_added] errors]. simpl in H1, H2.
    subst users_added groups_added. cbn [fst snd].
    unfold add_result. simpl. repeat split.
Qed.

Lemma merged_principals_are_concatenated_witness :
  let p := AddRestrictionInput.mk (Some "12345") None None READ
             (Some ["u-alice"]) (Some ["alice"]) None None in
  snd (add_restrictions Scenario.docs p)
  = [mkRequest GET "/rest/api/content/12345" [] NoBody [];
     mkRequest GET "/rest/api/user" [("username", "alice")] NoBody [];
     permissions_request
       "viewPermissionsUserList=u-alice&viewPermissionsUserList=u-alice&contentId=12345"]
  /\ field "users_added" (fst (add_restrictions Scenario.docs p))
     = Some (JInt 2).
Proof.
  intros p.
  destruct (merged_principals_are_concatenated Scenario.docs p
              (JStr "12345") (JStr "Architecture")
              [JStr "u-alice"; JStr "u-alice"] []
              [mkRequest GET "/rest/api/content/12345" [] NoBody []]
              [mkRequest GET "/rest/api/content/12345" [] NoBody [];
               mkRequest GET "/rest/api/user" [("username", "alice")] NoBody []]
              [mkRequest GET "/rest/api/content/12345" [] NoBody [];
               mkRequest GET "/rest/api/user" [("username", "alice")] NoBody []]
              false eq_refl eq_refl eq_refl eq_refl eq_refl eq_refl)
    as [_ [_ [_ [Htrace [Hconfirmed _]]]]].
  split; [exact Htrace|].
  apply Hconfirmed.
  exists (Scenario.text_response 200 "true"). repeat split; simpl; lia.
Defined.

(** ** Identity resolver: a page that is not found *)

Lemma _find_page_by_title_total space_key title w tr :
  exists found,
    _find_page_by_title space_key title w tr
    = (Ok found, (tr ++ [lookup_request space_key title])%list).
Proof.
  unfold _find_page_by_title, try_except, bind, client_get, send.
  change (mkRequest GET "/rest/api/content" _ NoBody [])
    with (lookup_request space_key title).
  destruct (backend w tr (lookup_request space_key title)) as [e|r].
  - eexists; reflexivity.
  - unfold raise_for_status.
    destruct ((200 <=? status_code r) && (status_code r <=? 299));
      [|eexists; reflexivity].
    unfold ret, response_json, lift.
    destruct (body_json r) as [data|e]; [|eexists; reflexivity].
    destruct (PyOps.get data "results" (JList [])) as [results|e];
      [|eexists; reflexivity].
    destruct (Py.truthy results); [|eexists; reflexivity].
    destruct (PyOps.first results) as [first|e]; [|eexists; reflexivity].
    destruct (PyOps.getitem first "id") as [found|e]; eexists; reflexivity.
Qed.

Lemma _find_page_by_title_none space_key title w tr :
  no_match (backend w tr (lookup_request space_key title))
  \/ lookup_broke (backend w tr (lookup_request space_key title)) ->
  _find_page_by_title space_key title w tr
  = (Ok JNull, (tr ++ [lookup_request space_key title])%list).
Proof.
  unfold _find_page_by_title, try_except, bind, client_get, send.
  change (mkRequest GET "/rest/api/content" _ NoBody [])
    with (lookup_request space_key title).
  intros [[r [d [-> [Hs [Hj Hres]]]]] | [[e ->] | [r [-> Hbad]]]].
  - unfold raise_for_status.
    replace ((200 <=? status_code r) && (status_code r <=? 299)) with true
      by (symmetry; apply andb_true_iff; split; apply Z.leb_le; lia).
    unfold ret, response_json, lift. rewrite Hj.
    unfold PyOps.get. cbn [bind]. now rewrite Hres.
  - reflexivity.
  - unfold raise_for_status.
    destruct ((200 <=? status_code r) && (status_code r <=? 299)) eqn:E;
      [|reflexivity].
    apply andb_true_iff in E. destruct E as [E1 E2].
    apply Z.leb_le in E1, E2.
    destruct Hbad as [Hbad | [e He]]; [lia|].
    unfold ret, response_json, lift. now rewrite He.
Qed.

Lemma resolve_page_not_found page_id title space_key w tr found tr' :
  opt_truthy page_id = false ->
  PyString.nonempty title = true ->
  PyString.nonempty space_key = true ->
  _find_page_by_title space_key title w tr = (Ok found, tr') ->
  Py.truthy found = false ->
  resolve_page page_id (Some title) (Some space_key) w tr
  = (Ok (Return (failure (not_found_message title space_key))), tr').
Proof.
  intros Hid Hnt Hns Hfind Hfalsy. unfold resolve_page.
  rewrite Hid.
  replace (opt_truthy (Some title)) with true by (symmetry; exact Hnt).
  replace (opt_truthy (Some space_key)) with true by (symmetry; exact Hns).
  change (Py.str (opt_str (Some title))) with title.
  change (Py.str (opt_str (Some space_key))) with space_key.
  cbn [andb negb].
  rewrite (bind_ok _ _ _ _ _ _ Hfind). rewrite Hfalsy. reflexivity.
Qed.

(** C4, as the specification states it, fails in its second half: when the
    server cannot be reached, looking up "Architecture" in DOCS is reported
    as the page not being found. *)
Lemma transport_failure_reported_as_not_found :
  add_restrictions Scenario.unreachable
    (AddRestrictionInput.mk None (Some "Architecture") (Some "DOCS") UPDATE
       None None (Some ["engineering"]) None)
  = (JDict [("success", JBool false);
            ("error",
             JStr "Page with title 'Architecture' not found in space 'DOCS'")],
     [lookup_request "DOCS" "Architecture"])
  /\ ~ transport_failure_is_distinguished.
Proof.
  split; [reflexivity|].
  intros H.
  apply (H Scenario.unreachable
           (AddRestrictionInput.mk None (Some "Architecture") (Some "DOCS") UPDATE
              None None (Some ["engineering"]) None)
           "DOCS" "Architecture"
           (OtherException "ConnectError" "All connection attempts failed"));
    reflexivity.
Qed.

(** C4, amended.  A page lookup by space key and title never raises, and
    when the backend returns no matching page [add_restrictions] returns the
    failure "Page with title 'X' not found in space 'Y'" after that single
    request; a lookup that breaks (the transport raises, the status is not
    2xx, the body is not JSON) is reported with the same outcome. *)
Theorem page_lookup_failure_is_not_found
    (w : World) (p : AddRestrictionInput.t) (space_key title : string) :
  get_http_client w [] = (Ok tt, []) ->
  opt_truthy (AddRestrictionInput.page_id p) = false ->
  AddRestrictionInput.page_title p = Some title ->
  AddRestrictionInput.space_key p = Some space_key ->
  PyString.nonempty title = true ->
  PyString.nonempty space_key = true ->
  (forall tr, exists found,
      _find_page_by_title space_key title w tr
      = (Ok found, (tr ++ [lookup_request space_key title])%list))
  /\ (no_match (backend w [] (lookup_request space_key title))
      \/ lookup_broke (backend w [] (lookup_request space_key title)) ->
      add_restrictions w p
      = (JDict [("success", JBool false);
                ("error",
                 JStr ("Page with title '" ++ title ++ "' not found in space '"
                         ++ space_key ++ "'"))],
         [lookup_request space_key title])).
Proof.
  intros Hc Hid Ht Hs Hnt Hns.
  split; [intros tr; apply _find_page_by_title_total|].
  intros Hfail.
  pose proof (_find_page_by_title_none space_key title w [] Hfail) as Hnone.
  unfold add_restrictions, tool, add_restrictions_body.
  rewrite (bind_ok _ _ _ _ _ _ Hc).
  rewrite Ht, Hs.
  rewrite (bind_ok _ _ _ _ _ _
             (resolve_page_not_found _ title space_key w [] JNull _
                Hid Hnt Hns Hnone eq_refl)).
  reflexivity.
Qed.

Lemma page_lookup_failure_is_not_found_witness :
  add_restrictions Scenario.docs
    (AddRestrictionInput.mk None (Some "Missing") (Some "DOCS") READ
       (Some ["alice"]) None None None)
  = (JDict [("success", JBool false);
            ("error", JStr "Page with title 'Missing' not found in space 'DOCS'")],
     [lookup_request "DOCS" "Missing"]).
Proof.
  apply (page_lookup_failure_is_not_found Scenario.docs
           (AddRestrictionInput.mk None (Some "Missing") (Some "DOCS") READ
              (Some ["alice"]) None None None)
           "DOCS" "Missing" eq_refl eq_refl eq_refl eq_refl eq_refl eq_refl).
  left. exists (Scenario.json_response 200 (JDict [("results", JList [])])),
    [("results", JList [])].
  repeat split; try reflexivity; vm_compute; discriminate.
Defined.

(** ** Restriction engine: removing restrictions *)

Lemma remove_operation_spec page_id operation removed errors w tr :
  remove_operation page_id operation removed errors w tr
  = (Ok (if delete_succeeds (backend w tr (delete_request page_id operation))
         then ((removed ++ [operation])%list, errors)
         else (removed,
               (errors ++ [remove_failed operation
                             (delete_error
                                (backend w tr (delete_request page_id operation)))])%list)),
     (tr ++ [delete_request page_id operation])%list).
Proof.
  unfold remove_operation, try_except, bind, send.
  destruct (backend w tr (delete_request page_id operation)) as [e|r].
  - destruct e as [status t m| | |]; simpl; try reflexivity.
    now destruct (status =? 404).
  - simpl. destruct ((status_code r =? 204) || (status_code r =? 404)) eqn:E1.
    + reflexivity.
    + unfold raise_for_status.
      destruct ((200 <=? status_code r) && (status_code r <=? 299)) eqn:E2.
      * reflexivity.
      * simpl. apply orb_false_iff in E1. destruct E1 as [_ E1].
        now rewrite E1.
Qed.

Lemma remove_operations_spec page_id operations removed errors w tr :
  remove_operations page_id operations removed errors w tr
  = (Ok ((removed ++ map fst (filter succeeded
                                (deletions w page_id tr operations)))%list,
         (errors ++ map warning
                      (filter (fun d => negb (succeeded d))
                         (deletions w page_id tr operations)))%list),
     (tr ++ map (delete_request page_id) operations)%list).
Proof.
  revert removed errors tr.
  induction operations as [|operation rest IH]; intros removed errors tr; simpl.
  - unfold ret. now rewrite !app_nil_r.
  - unfold bind. rewrite remove_operation_spec.
    change (succeeded (operation, backend w tr (delete_request page_id operation)))
      with (delete_succeeds (backend w tr (delete_request page_id operation))).
    destruct (delete_succeeds (backend w tr (delete_request page_id operation)));
      simpl; rewrite IH, <- !app_assoc; reflexivity.
Qed.

Lemma remove_restrictions_run w p page_id page_title tr1 :
  get_http_client w [] = (Ok tt, []) ->
  resolve_page (RemoveRestrictionInput.page_id p)
    (RemoveRestrictionInput.page_title p) (RemoveRestrictionInput.space_key p)
    w [] = (Ok (Continue (page_id, page_title)), tr1) ->
  remove_restrictions w p
  = (remove_result page_id page_title
       (map fst (filter succeeded
                   (deletions w page_id tr1 (operations_to_remove p))))
       (map warning (filter (fun d => negb (succeeded d))
                       (deletions w page_id tr1 (operations_to_remove p)))),
     (tr1 ++ map (delete_request page_id) (operations_to_remove p))%list).
Proof.
  intros Hc Hp. unfold remove_restrictions, tool, remove_restrictions_body.
  rewrite (bind_ok _ _ _ _ _ _ Hc), (bind_ok _ _ _ _ _ _ Hp).
  unfold bind. rewrite remove_operations_spec. reflexivity.
Qed.

Lemma field_removed_operations page_id page_title removed errors :
  field "removed_operations" (remove_result page_id page_title removed errors)
  = Some (JList (map JStr removed)).
Proof. reflexivity. Qed.

Lemma field_remove_success page_id page_title removed errors :
  field "success" (remove_result page_id page_title removed errors)
  = Some (JBool (list_truthy removed)).
Proof.
  unfold remove_result, field, len. simpl.
  destruct removed; simpl; [reflexivity|].
  do 2 f_equal.
Qed.

(** C6.  In [remove_restrictions], an operation whose delete request is
    answered with status 204 or 404 is listed in [removed_operations], and
    the call reports success: removing a restriction that does not exist
    counts as removing it. *)
Theorem remove_restrictions_accepts_204_and_404
    (w : World) (p : RemoveRestrictionInput.t) (page_id page_title : json)
    (tr1 : list Request) (operation : string) (r : Response) :
  get_http_client w [] = (Ok tt, []) ->
  resolve_page (RemoveRestrictionInput.page_id p)
    (RemoveRestrictionInput.page_title p) (RemoveRestrictionInput.space_key p)
    w [] = (Ok (Continue (page_id, page_title)), tr1) ->
  In (operation, Responded r) (deletions w page_id tr1 (operations_to_remove p)) ->
  status_code r = 204 \/ status_code r = 404 ->
  exists removed_operations,
    field "removed_operations" (fst (remove_restrictions w p))
    = Some (JList (map JStr removed_operations))
    /\ In operation removed_operations
    /\ field "success" (fst (remove_restrictions w p)) = Some (JBool true).
Proof.
  intros Hc Hp Hin Hstatus.
  rewrite (remove_restrictions_run w p page_id page_title tr1 Hc Hp). simpl fst.
  set (ds := deletions w page_id tr1 (operations_to_remove p)) in *.
  exists (map fst (filter succeeded ds)).
  assert (Hok : In operation (map fst (filter succeeded ds))).
  { apply in_map_iff. exists (operation, Responded r). split; [reflexivity|].
    apply filter_In. split; [exact Hin|].
    unfold succeeded, delete_succeeds. simpl.
    destruct Hstatus as [-> | ->]; reflexivity. }
  split; [apply field_removed_operations|]. split; [exact Hok|].
  rewrite field_remove_success.
  destruct (map fst (filter succeeded ds)); [contradiction | reflexivity].
Qed.

Lemma remove_restrictions_accepts_204_and_404_witness :
  exists removed_operations,
    field "removed_operations"
      (fst (remove_restrictions Scenario.docs Scenario.unrestrict))
    = Some (JList (map JStr removed_operations))
    /\ In "update" removed_operations
    /\ field "success" (fst (remove_restrictions Scenario.docs Scenario.unrestrict))
       = Some (JBool true).
Proof.
  apply (remove_restrictions_accepts_204_and_404 Scenario.docs Scenario.unrestrict
           (JStr "12345") (JStr "Architecture")
           [mkRequest GET "/rest/api/content/12345" [] NoBody []]
           "update" (Scenario.text_response 404 "") eq_refl eq_refl).
  - right; left; reflexivity.
  - right; reflexivity.
Defined.

Lemma field_remove_warnings page_id page_title removed errors :
  field "warnings" (remove_result page_id page_title removed errors)
  = if list_truthy errors then Some (JList (map JStr errors)) else None.
Proof. unfold remove_result, field. now destruct errors. Qed.

Lemma list_truthy_succeeded (ds : list (string * Reply)) :
  list_truthy (map fst (filter succeeded ds)) = existsb succeeded ds.
Proof.
  induction ds as [|d ds IH]; simpl; [reflexivity|].
  destruct (succeeded d); simpl; [reflexivity | exact IH].
Qed.

(** C7.  [remove_restrictions] targets both operations when [remove_all] is
    set or no operation is named, and the named operation otherwise; it
    issues one delete request per targeted operation, in order, whatever the
    earlier ones were answered; the operations whose delete succeeded are
    [removed_operations], every other one leaves a warning "Failed to remove
    <operation> restrictions: ..." in [warnings], and [success] is true
    exactly when some targeted operation succeeded. *)
Theorem remove_restrictions_attempts_every_operation
    (w : World) (p : RemoveRestrictionInput.t) (page_id page_title : json)
    (tr1 : list Request) :
  get_http_client w [] = (Ok tt, []) ->
  resolve_page (RemoveRestrictionInput.page_id p)
    (RemoveRestrictionInput.page_title p) (RemoveRestrictionInput.space_key p)
    w [] = (Ok (Continue (page_id, page_title)), tr1) ->
  let targets := operations_to_remove p in
  let attempts := deletions w page_id tr1 targets in
  let failed := filter (fun d => negb (succeeded d)) attempts in
  (RemoveRestrictionInput.remove_all p = true
   \/ RemoveRestrictionInput.operation p = None -> targets = ["read"; "update"])
  /\ (forall op, RemoveRestrictionInput.remove_all p = false ->
                 RemoveRestrictionInput.operation p = Some op ->
                 targets = [value op])
  /\ snd (remove_restrictions w p)
     = (tr1 ++ map (delete_request page_id) targets)%list
  /\ map fst attempts = targets
  /\ field "removed_operations" (fst (remove_restrictions w p))
     = Some (JList (map JStr (map fst (filter succeeded attempts))))
  /\ field "warnings" (fst (remove_restrictions w p))
     = (if list_truthy failed
        then Some (JList (map JStr
               (map (fun d => remove_failed (fst d) (delete_error (snd d))) failed)))
        else None)
  /\ field "success" (fst (remove_restrictions w p))
     = Some (JBool (existsb succeeded attempts))
  /\ (field "success" (fst (remove_restrictions w p)) = Some (JBool true)
      <-> exists operation reply,
            In (operation, reply) attempts /\ delete_succeeds reply = true).
Proof.
  intros Hc Hp targets attempts failed.
  rewrite (remove_restrictions_run w p page_id page_title tr1 Hc Hp).
  fold targets. fold attempts. fold failed. simpl fst. simpl snd.
  split.
  { unfold targets, operations_to_remove. intros [H | H]; rewrite H.
    - now destruct (RemoveRestrictionInput.operation p).
    - reflexivity. }
  split.
  { unfold targets, operations_to_remove. intros op H1 H2. now rewrite H2, H1. }
  split; [reflexivity|].
  split.
  { unfold attempts. generalize tr1.
    induction targets as [|t ts IH]; intros tr; simpl; [reflexivity|].
    now rewrite IH. }
  split; [apply field_removed_operations|].
  split.
  { rewrite field_remove_warnings.
    assert (E : list_truthy (map warning failed) = list_truthy failed)
      by now destruct failed.
    rewrite E. reflexivity. }
  assert (Hsucc : field "success"
                    (remove_result page_id page_title
                       (map fst (filter succeeded attempts)) (map warning failed))
                  = Some (JBool (existsb succeeded attempts))).
  { now rewrite field_remove_success, list_truthy_succeeded. }
  split; [exact Hsucc|].
  rewrite Hsucc. split.
  - intros H. injection H as H. apply existsb_exists in H.
    destruct H as [[operation reply] [Hin Hs]]. now exists operation, reply.
  - intros [operation [reply [Hin Hs]]]. do 2 f_equal.
    apply existsb_exists. now exists (operation, reply).
Qed.

Lemma remove_restrictions_attempts_every_operation_witness :
  snd (remove_restrictions Scenario.locked Scenario.unrestrict)
  = [mkRequest GET "/rest/api/content/12345" [] NoBody [];
     mkRequest DELETE "/rest/api/content/12345/restriction/byOperation/read"
       [] NoBody [];
     mkRequest DELETE "/rest/api/content/12345/restriction/byOperation/update"
       [] NoBody []]
  /\ fst (remove_restrictions Scenario.locked Scenario.unrestrict)
     = JDict [("success", JBool true); ("page_id", JStr "12345");
              ("page_title", JStr "Architecture");
              ("removed_operations", JList [JStr "update"]);
              ("warnings",
               JList [JStr "Failed to remove read restrictions: Error: Permission denied. You don't have access to perform this operation."]);
              ("message", JStr "Removed restrictions for: update")].
Proof.
  split; [|reflexivity].
  apply (remove_restrictions_attempts_every_operation Scenario.locked
           Scenario.unrestrict (JStr "12345") (JStr "Architecture")
           [mkRequest GET "/rest/api/content/12345" [] NoBody []]
           eq_refl eq_refl).
Defined.

(** ** Directory sync: the token patterns *)

Lemma strip_prefix_some_iff lit s rest :
  PyString.strip_prefix lit s = Some rest <-> s = lit ++ rest.
Proof.
  revert s; induction lit as [|a lit IH]; intros s; simpl.
  - split; [intros H; now injection H | intros ->; reflexivity].
  - destruct s as [|b s]; [split; discriminate|].
    destruct (Ascii.eqb_spec a b) as [->|Hab].
    + rewrite IH. split; [intros ->; reflexivity | intros H; now injection H].
    + split; [discriminate | intros H; injection H; intros; congruence].
Qed.

Lemma strip_prefix_app lit rest :
  PyString.strip_prefix lit (lit ++ rest) = Some rest.
Proof. now apply strip_prefix_some_iff. Qed.

Lemma span_spec p s :
  s = fst (PyString.span p s) ++ snd (PyString.span p s)
  /\ all_chars p (fst (PyString.span p s)) = true
  /\ match snd (PyString.span p s) with
     | EmptyString => True
     | String c _ => p c = false
     end.
Proof.
  induction s as [|c s IH]; simpl; [auto|].
  destruct (p c) eqn:E.
  - destruct (PyString.span p s) as [run tl]. simpl in *.
    destruct IH as [H1 [H2 H3]]. rewrite E, H2.
    split; [now rewrite <- H1|]. split; [reflexivity | exact H3].
  - simpl. auto.
Qed.

Lemma span_app p run rest :
  all_chars p run = true ->
  match rest with EmptyString => True | String c _ => p c = false end ->
  PyString.span p (run ++ rest) = (run, rest).
Proof.
  intros Hrun Hrest. induction run as [|c run IH]; simpl in *.
  - destruct rest as [|c rest]; simpl; [reflexivity | now rewrite Hrest].
  - apply andb_true_iff in Hrun. destruct Hrun as [Hc Hrun].
    now rewrite Hc, (IH Hrun).
Qed.

Lemma search_none_iff m s :
  search m s = None <-> forall before after, s = before ++ after -> m after = None.
Proof.
  induction s as [|c s IH]; simpl.
  - destruct (m "") eqn:E.
    + split; [discriminate|]. intros H. rewrite (H "" "" eq_refl) in E. discriminate.
    + split; [|reflexivity]. intros _ before after H.
      destruct before; simpl in H; [now subst | discriminate].
  - destruct (m (String c s)) eqn:E.
    + split; [discriminate|]. intros H.
      rewrite (H "" (String c s) eq_refl) in E. discriminate.
    + rewrite IH. split.
      * intros H before after Hs. destruct before as [|b before]; simpl in Hs.
        -- now subst.
        -- injection Hs as _ Hs. eauto.
      * intros H before after Hs. apply (H (String c before) after).
        simpl. now rewrite Hs.
Qed.

Lemma match_token_query_none_iff s :
  match_token_query s = None
  <-> ~ exists c after, s = "atl_token=" ++ String c after /\ token_char c = true.
Proof.
  unfold match_token_query.
  destruct (PyString.strip_prefix "atl_token=" s) as [after_key|] eqn:E.
  - apply strip_prefix_some_iff in E. subst s.
    destruct after_key as [|c rest].
    + simpl. split; [|reflexivity]. intros _ [c [after [H _]]]. discriminate.
    + simpl PyString.span. destruct (token_char c) eqn:Hc.
      * destruct (PyString.span token_char rest). simpl.
        split; [discriminate|]. intros H. exfalso. apply H. now exists c, rest.
      * simpl. split; [|reflexivity]. intros _ [c' [after [H Hc']]].
        injection H as -> _. congruence.
  - split; [|reflexivity]. intros _ [c [after [H _]]].
    apply strip_prefix_some_iff in H. congruence.
Qed.

Lemma search_token_query_none_iff s :
  search match_token_query s = None <-> ~ has_token_query s.
Proof.
  rewrite search_none_iff. unfold has_token_query. split.
  - intros H [before [c [after [Hs Hc]]]].
    specialize (H before _ Hs). apply match_token_query_none_iff in H.
    apply H. eauto.
  - intros H before after Hs. apply match_token_query_none_iff.
    intros [c [rest [Hafter Hc]]]. apply H. exists before, c, rest.
    now rewrite Hs, Hafter.
Qed.

Lemma nonempty_all_chars_head p s :
  PyString.nonempty s = true -> all_chars p s = true ->
  exists c rest, s = String c rest /\ p c = true.
Proof.
  destruct s as [|c rest]; simpl; [discriminate|].
  intros _ H. apply andb_true_iff in H. destruct H. eauto.
Qed.

Lemma match_token_attribute_none_iff s :
  match_token_attribute s = None
  <-> ~ exists spaces group after,
        s = token_attribute_name ++ spaces ++ token_attribute_value
              ++ group ++ String PyString.dquote after
        /\ PyString.nonempty spaces = true
        /\ all_chars PyString.isspace spaces = true
        /\ PyString.nonempty group = true
        /\ all_chars not_dquote group = true.
Proof.
  split.
  - intros Hnone [spaces [group [after [Hs [Hsp [Hspa [Hg Hga]]]]]]].
    revert Hnone. unfold match_token_attribute.
    rewrite Hs, strip_prefix_app.
    rewrite (span_app PyString.isspace spaces _ Hspa) by reflexivity.
    rewrite Hsp, strip_prefix_app.
    rewrite (span_app not_dquote group (String PyString.dquote after) Hga)
      by reflexivity.
    rewrite Hg. discriminate.
  - intros Hno. unfold match_token_attribute.
    destruct (PyString.strip_prefix token_attribute_name s) as [after_name|] eqn:E1;
      [|reflexivity].
    apply strip_prefix_some_iff in E1.
    destruct (span_spec PyString.isspace after_name) as [S1 [S2 _]].
    destruct (PyString.span PyString.isspace after_name) as [spaces after_spaces].
    simpl in S1, S2.
    destruct (PyString.nonempty spaces) eqn:Hsp; [|reflexivity].
    destruct (PyString.strip_prefix token_attribute_value after_spaces)
      as [after_value|] eqn:E2; [|reflexivity].
    apply strip_prefix_some_iff in E2.
    destruct (span_spec not_dquote after_value) as [G1 [G2 G3]].
    destruct (PyString.span not_dquote after_value) as [group after_group].
    simpl in G1, G2, G3.
    destruct (PyString.nonempty group) eqn:Hg; [|reflexivity].
    destruct after_group as [|c after]; [reflexivity|].
    exfalso. apply Hno. exists spaces, group, after.
    assert (c = PyString.dquote) as ->.
    { unfold not_dquote in G3. apply negb_false_iff in G3.
      now apply Ascii.eqb_eq in G3. }
    repeat split; try assumption. now rewrite E1, S1, E2, G1.
Qed.

Lemma search_token_attribute_none_iff s :
  search match_token_attribute s = None <-> ~ has_token_attribute s.
Proof.
  rewrite search_none_iff. unfold has_token_attribute. split.
  - intros H [before [spaces [group [after [Hs Hrest]]]]].
    specialize (H before _ Hs). apply match_token_attribute_none_iff in H.
    apply H. exists spaces, group, after. split; [reflexivity | exact Hrest].
  - intros H before after Hs. apply match_token_attribute_none_iff.
    intros [spaces [group [rest [Hafter Hrest]]]]. apply H.
    exists before, spaces, group, rest. split; [|exact Hrest].
    now rewrite Hs, Hafter.
Qed.

Lemma extract_atl_token_none_iff s :
  extract_atl_token s = None <-> ~ has_token_attribute s /\ ~ has_token_query s.
Proof.
  unfold extract_atl_token.
  rewrite <- search_token_attribute_none_iff, <- search_token_query_none_iff.
  destruct (search match_token_attribute s); intuition congruence.
Qed.

(** ** Directory sync: the four steps *)

Lemma extract_atl_token_nonempty s token :
  extract_atl_token s = Some token -> PyString.nonempty token = true.
Proof.
  assert (Hsearch : forall m,
             (forall x g, m x = Some g -> PyString.nonempty g = true) ->
             forall x g, search m x = Some g -> PyString.nonempty g = true).
  { intros m Hm x. induction x as [|c x IH]; simpl; intros g.
    - destruct (m "") eqn:E; [|discriminate]. intros H; injection H as <-. eauto.
    - destruct (m (String c x)) eqn:E; [intros H; injection H as <-; eauto|].
      apply IH. }
  unfold extract_atl_token.
  destruct (search match_token_attribute s) as [g|] eqn:E.
  - intros H; injection H as <-. revert E. apply Hsearch.
    intros x g'. unfold match_token_attribute.
    destruct (PyString.strip_prefix token_attribute_name x) as [after_name|];
      [|discriminate].
    destruct (PyString.span PyString.isspace after_name)
      as [spaces after_spaces].
    destruct (PyString.nonempty spaces); [|discriminate].
    destruct (PyString.strip_prefix token_attribute_value after_spaces)
      as [after_value|]; [|discriminate].
    destruct (PyString.span not_dquote after_value) as [group after_group].
    destruct (PyString.nonempty group) eqn:Hg; [|discriminate].
    destruct after_group; [discriminate|]. intros H; injection H as <-. exact Hg.
  - apply Hsearch. intros x g'. unfold match_token_query.
    destruct (PyString.strip_prefix "atl_token=" x) as [after_key|];
      [|discriminate].
    destruct (PyString.span token_char after_key) as [group rest].
    destruct (PyString.nonempty group) eqn:Hg; [|discriminate].
    intros H; injection H as <-. exact Hg.
Qed.

(** What the call does once steps 1 and 2 got a response: the outcome
    depends on the text of the second response and on nothing else of the
    two. *)
Lemma sync_after_authentication w p login_response auth_response :
  sync_ready w p ->
  backend w [] (login_request (sync_login w p) (sync_password w p))
  = Responded login_response ->
  backend w [login_request (sync_login w p) (sync_password w p)]
    (authenticate_request (sync_password w p))
  = Responded auth_response ->
  sync_user_directory_body p w []
  = match extract_atl_token (text auth_response) with
    | None =>
        (Ok (failure token_not_found),
         [login_request (sync_login w p) (sync_password w p);
          authenticate_request (sync_password w p)])
    | Some atl_token =>
        try_except
          (sync_response <- send (sync_request (sync_directory w p) atl_token) ;;
           if (status_code sync_response =? 200)
              || (status_code sync_response =? 302) then
             ret (JDict
               [("success", JBool true);
                ("message",
                 JStr ("User directory sync triggered successfully for directory ID: "
                         ++ sync_directory w p));
                ("directory_id", JStr (sync_directory w p))])
           else
             ret (failure
               ("Sync request returned status "
                  ++ PyString.of_Z (status_code sync_response) ++ ": "
                  ++ PyString.take 200 (text sync_response))))
          (fun e => ret (failure ("Failed to trigger sync: " ++ exn_str e)))
          w [login_request (sync_login w p) (sync_password w p);
             authenticate_request (sync_password w p)]
    end.
Proof.
  intros [Hl [Hp [Hd Hs]]] H1 H2.
  unfold sync_user_directory_body, bind at 1, ask.
  fold (sync_login w p) (sync_password w p) (sync_directory w p).
  rewrite Hl, Hp, Hd. cbn [negb orb].
  unfold bind at 1, open_session, bind at 1, ask. rewrite Hs. unfold ret at 1.
  unfold bind at 1, try_except at 1, bind at 1, send at 1. rewrite H1.
  unfold ret at 1.
  unfold bind at 1, try_except at 1, bind at 1, send at 1. simpl app. rewrite H2.
  unfold ret at 1. simpl app.
  destruct (extract_atl_token (text auth_response)) as [token|] eqn:E;
    [|reflexivity].
  now rewrite (extract_atl_token_nonempty _ _ E).
Qed.

(** C3.  When the response of step 2 carries neither the attribute form nor
    the query-string form of the token, [sync_user_directory] returns the
    failure "ATL_TOKEN not found in response. ..." after the login and the
    re-authentication requests, and no sync request is issued. *)
Theorem sync_without_token_never_triggers
    (w : World) (p : SyncUserDirectoryInput.t)
    (login_response auth_response : Response) :
  sync_ready w p ->
  backend w [] (login_request (sync_login w p) (sync_password w p))
  = Responded login_response ->
  backend w [login_request (sync_login w p) (sync_password w p)]
    (authenticate_request (sync_password w p))
  = Responded auth_response ->
  ~ has_token_attribute (text auth_response) ->
  ~ has_token_query (text auth_response) ->
  sync_user_directory w p
  = (JDict [("success", JBool false);
            ("error",
             JStr "ATL_TOKEN not found in response. Authentication may have failed or user lacks admin permissions.")],
     [login_request (sync_login w p) (sync_password w p);
      authenticate_request (sync_password w p)])
  /\ forall directory_id atl_token,
       ~ In (sync_request directory_id atl_token) (snd (sync_user_directory w p)).
Proof.
  intros Hready H1 H2 Hattr Hquery.
  assert (Hnone : extract_atl_token (text auth_response) = None)
    by (apply extract_atl_token_none_iff; auto).
  assert (Hrun : sync_user_directory w p
                 = (failure token_not_found,
                    [login_request (sync_login w p) (sync_password w p);
                     authenticate_request (sync_password w p)])).
  { unfold sync_user_directory.
    rewrite (sync_after_authentication w p _ _ Hready H1 H2), Hnone.
    reflexivity. }
  split; [exact Hrun|].
  intros directory_id atl_token. rewrite Hrun. simpl.
  intros [H | [H | []]]; discriminate.
Qed.

Lemma sync_without_token_never_triggers_witness :
  sync_user_directory Scenario.rejecting Scenario.sync_configured
  = (JDict [("success", JBool false);
            ("error",
             JStr "ATL_TOKEN not found in response. Authentication may have failed or user lacks admin permissions.")],
     [login_request "admin" "wrong-password";
      authenticate_request "wrong-password"]).
Proof.
  apply (sync_without_token_never_triggers Scenario.rejecting
           Scenario.sync_configured
           (Scenario.text_response 401 "Unauthorized")
           (Scenario.text_response 401 "Unauthorized")).
  - repeat split.
  - reflexivity.
  - reflexivity.
  - apply search_token_attribute_none_iff. reflexivity.
  - apply search_token_query_none_iff. reflexivity.
Defined.

(** C10.  Steps 1 and 2 of [sync_user_directory] do not look at the status
    of their responses: whatever the two responses are, the call goes on to
    the token extraction of step 3, fails with the token-not-found message
    when the second response carries no token, and issues the sync request
    when it does; only an exception raised by the login or by the
    re-authentication request ends the call at step 1 or 2. *)
Theorem sync_ignores_login_status
    (w : World) (p : SyncUserDirectoryInput.t) :
  sync_ready w p ->
  let login_req := login_request (sync_login w p) (sync_password w p) in
  let auth_req := authenticate_request (sync_password w p) in
  (forall login_response auth_response,
      backend w [] login_req = Responded login_response ->
      backend w [login_req] auth_req = Responded auth_response ->
      (extract_atl_token (text auth_response) = None ->
       sync_user_directory w p
       = (failure token_not_found, [login_req; auth_req]))
      /\ (forall atl_token,
             extract_atl_token (text auth_response) = Some atl_token ->
             snd (sync_user_directory w p)
             = [login_req; auth_req;
                sync_request (sync_directory w p) atl_token]))
  /\ (forall e,
         backend w [] login_req = Raised e ->
         sync_user_directory w p
         = (failure ("Login failed: " ++ exn_str e), [login_req]))
  /\ (forall login_response e,
         backend w [] login_req = Responded login_response ->
         backend w [login_req] auth_req = Raised e ->
         sync_user_directory w p
         = (failure ("Authentication to user directories failed: " ++ exn_str e),
            [login_req; auth_req])).
Proof.
  intros Hready login_req auth_req.
  split; [|split].
  - intros login_response auth_response H1 H2.
    pose proof (sync_after_authentication w p _ _ Hready H1 H2) as Hrun.
    fold login_req auth_req in Hrun.
    split.
    + intros Hnone. unfold sync_user_directory. now rewrite Hrun, Hnone.
    + intros atl_token Hsome. unfold sync_user_directory.
      rewrite Hrun, Hsome. unfold try_except, bind, send.
      destruct (backend w [login_req; auth_req]
                  (sync_request (sync_directory w p) atl_token)) as [e|r].
      * reflexivity.
      * destruct ((status_code r =? 200) || (status_code r =? 302)); reflexivity.
  - intros e H1. destruct Hready as [Hl [Hp [Hd Hs]]].
    unfold sync_user_directory, sync_user_directory_body, bind at 1, ask.
    fold (sync_login w p) (sync_password w p) (sync_directory w p).
    rewrite Hl, Hp, Hd. cbn [negb orb].
    unfold bind at 1, open_session, bind at 1, ask. rewrite Hs. unfold ret at 1.
    unfold bind at 1, try_except at 1, bind at 1, send at 1.
    fold login_req. rewrite H1. reflexivity.
  - intros login_response e H1 H2. destruct Hready as [Hl [Hp [Hd Hs]]].
    unfold sync_user_directory, sync_user_directory_body, bind at 1, ask.
    fold (sync_login w p) (sync_password w p) (sync_directory w p).
    rewrite Hl, Hp, Hd. cbn [negb orb].
    unfold bind at 1, open_session, bind at 1, ask. rewrite Hs. unfold ret at 1.
    unfold bind at 1, try_except at 1, bind at 1, send at 1.
    fold login_req. rewrite H1. unfold ret at 1.
    unfold bind at 1, try_except at 1, bind at 1, send at 1. simpl app.
    fold auth_req. rewrite H2. reflexivity.
Qed.

Lemma sync_ignores_login_status_witness :
  status_code (Scenario.text_response 401 "Unauthorized") = 401
  /\ sync_user_directory Scenario.rejecting Scenario.sync_configured
     = (failure token_not_found,
        [login_request "admin" "wrong-password";
         authenticate_request "wrong-password"]).
Proof.
  split; [reflexivity|].
  refine (proj1 (proj1 (sync_ignores_login_status Scenario.rejecting
                          Scenario.sync_configured _)
                   (Scenario.text_response 401 "Unauthorized")
                   (Scenario.text_response 401 "Unauthorized")
                   eq_refl eq_refl) eq_refl).
  repeat split.
Defined.

(** ** Every tool returns a structured outcome *)

Lemma structured_failure msg : structured (failure msg).
Proof. exists false. split; [reflexivity|]. intros _. exists msg. now left. Qed.

Lemma structured_success (entries : list (string * json)) :
  structured (JDict (("success", JBool true) :: entries)).
Proof. exists true. split; [reflexivity | discriminate]. Qed.

Lemma structured_add_result page_id op users_added groups_added errors :
  structured (add_result page_id op users_added groups_added errors).
Proof.
  unfold add_result.
  destruct ((0 <? users_added) || (0 <? groups_added)) eqn:E.
  - apply structured_success.
  - exists false. split; [reflexivity|]. intros _.
    exists "No restrictions were added". right.
    unfold field. now destruct errors.
Qed.

Lemma structured_remove_result page_id page_title removed errors :
  structured (remove_result page_id page_title removed errors).
Proof.
  unfold remove_result. destruct removed as [|op removed].
  - exists false. split; [reflexivity|]. intros _.
    exists "No restrictions were removed". right.
    unfold field. now destruct errors.
  - exists true. split; [|discriminate].
    unfold field, len. simpl. do 2 f_equal.
Qed.

Lemma returns_structured_ret outcome :
  structured outcome -> returns_structured (ret outcome).
Proof. intros H w tr out tr' E. unfold ret in E. now injection E as <- _. Qed.

Lemma returns_structured_raise e : returns_structured (raise e).
Proof. intros w tr out tr' E. discriminate. Qed.

Lemma returns_structured_bind {A} (m : IO A) (k : A -> IO json) :
  (forall a, returns_structured (k a)) -> returns_structured (bind m k).
Proof.
  intros Hk w tr out tr' E. unfold bind in E.
  destruct (m w tr) as [[a|e] tr1]; [|discriminate]. exact (Hk a _ _ _ _ E).
Qed.

Lemma returns_structured_try_except (m : IO json) (h : exn -> IO json) :
  returns_structured m -> (forall e, returns_structured (h e)) ->
  returns_structured (try_except m h).
Proof.
  intros Hm Hh w tr out tr' E. unfold try_except in E.
  destruct (m w tr) as [[a|e] tr1] eqn:Em.
  - injection E as <- <-. exact (Hm _ _ _ _ Em).
  - exact (Hh e _ _ _ _ E).
Qed.

Lemma returns_structured_bind_flow {A} (m : IO (Flow A)) (k : Flow A -> IO json) :
  returns_early_structured m ->
  (forall a, returns_structured (k (Continue a))) ->
  (forall outcome, structured outcome -> returns_structured (k (Return outcome))) ->
  returns_structured (bind m k).
Proof.
  intros Hm Hc Hr w tr out tr' E. unfold bind in E.
  destruct (m w tr) as [[[early|a]|e] tr1] eqn:Em; [| |discriminate].
  - exact (Hr early (Hm _ _ _ _ Em) _ _ _ _ E).
  - exact (Hc a _ _ _ _ E).
Qed.

Lemma returns_early_ret_continue {A} (a : A) :
  returns_early_structured (ret (Continue a)).
Proof. intros w tr out tr' E. discriminate. Qed.

Lemma returns_early_ret_return {A} outcome :
  structured outcome -> returns_early_structured (@ret (Flow A) (Return outcome)).
Proof. intros H w tr out tr' E. unfold ret in E. now injection E as <- _. Qed.

Lemma returns_early_bind {A B} (m : IO B) (k : B -> IO (Flow A)) :
  (forall b, returns_early_structured (k b)) -> returns_early_structured (bind m k).
Proof.
  intros Hk w tr out tr' E. unfold bind in E.
  destruct (m w tr) as [[b|e] tr1]; [|discriminate]. exact (Hk b _ _ _ _ E).
Qed.

Lemma returns_early_try_except {A} (m : IO (Flow A)) (h : exn -> IO (Flow A)) :
  returns_early_structured m -> (forall e, returns_early_structured (h e)) ->
  returns_early_structured (try_except m h).
Proof.
  intros Hm Hh w tr out tr' E. unfold try_except in E.
  destruct (m w tr) as [[a|e] tr1] eqn:Em.
  - injection E as -> <-. exact (Hm _ _ _ _ Em).
  - exact (Hh e _ _ _ _ E).
Qed.

Ltac returns_early :=
  repeat match goal with
    | |- returns_early_structured (bind _ _) => apply returns_early_bind; intros ?
    | |- returns_early_structured (try_except _ _) =>
        apply returns_early_try_except; [|intros ?]
    | |- returns_early_structured (ret (Continue _)) =>
        apply returns_early_ret_continue
    | |- returns_early_structured (ret (Return _)) =>
        apply returns_early_ret_return
    | |- returns_early_structured (if ?b then _ else _) => destruct b
    | |- structured (failure _) => apply structured_failure
    end.

Lemma resolve_page_returns_early page_id page_title space_key :
  returns_early_structured (resolve_page page_id page_title space_key).
Proof. unfold resolve_page. returns_early. Qed.

Lemma resolve_user_identifiers_returns_early identifiers acc :
  returns_early_structured (resolve_user_identifiers identifiers acc).
Proof.
  revert acc; induction identifiers as [|i rest IH]; intros acc; simpl.
  - apply returns_early_ret_continue.
  - apply returns_early_bind. intros account_id.
    destruct (Py.truthy account_id); [apply IH|].
    apply returns_early_ret_return, structured_failure.
Qed.

Lemma resolve_group_names_returns_early names acc :
  returns_early_structured (resolve_group_names names acc).
Proof.
  revert acc; induction names as [|n rest IH]; intros acc; simpl.
  - apply returns_early_ret_continue.
  - apply returns_early_bind. intros group_id.
    destruct (Py.truthy group_id); [apply IH|].
    apply returns_early_ret_return, structured_failure.
Qed.

Ltac returns_structured :=
  repeat match goal with
    | |- returns_structured (bind (resolve_page _ _ _) _) =>
        apply returns_structured_bind_flow;
        [apply resolve_page_returns_early | intros ? | intros ? ?]
    | |- returns_structured (bind (resolve_user_identifiers _ _) _) =>
        apply returns_structured_bind_flow;
        [apply resolve_user_identifiers_returns_early | intros ? | intros ? ?]
    | |- returns_structured (bind (resolve_group_names _ _) _) =>
        apply returns_structured_bind_flow;
        [apply resolve_group_names_returns_early | intros ? | intros ? ?]
    | |- returns_structured (bind (A:=Flow _) _ _) =>
        apply returns_structured_bind_flow;
        [returns_early | intros ? | intros ? ?]
    | H : structured ?o |- structured ?o => exact H
    | |- returns_structured (let _ := _ in _) => cbv zeta
    | |- structured (JDict (_ ++ _)%list) => cbn [app]
    | |- returns_structured (bind _ _) => apply returns_structured_bind; intros ?
    | |- returns_structured (try_except _ _) =>
        apply returns_structured_try_except; [|intros ?]
    | |- returns_structured (ret _) => apply returns_structured_ret
    | |- returns_structured (raise _) => apply returns_structured_raise
    | |- returns_structured (if ?b then _ else _) => destruct b
    | |- returns_structured (match ?x with _ => _ end) => destruct x
    | |- structured (failure _) => apply structured_failure
    | |- structured (JDict (("success", JBool true) :: _)) =>
        apply structured_success
    | |- structured (add_result _ _ _ _ _) => apply structured_add_result
    | |- structured (remove_result _ _ _ _) => apply structured_remove_result
    end.









(** * Further properties of the tools *)

(** ** Configuration and parameter checks *)

Lemma get_http_client_unconfigured w tr :
  CONFLUENCE_URL w = "" \/ CONFLUENCE_API_TOKEN w = "" ->
  get_http_client w tr
  = (Raise (ValueError
       "Missing required environment variables: CONFLUENCE_URL, CONFLUENCE_API_TOKEN"),
     tr).
Proof.
  intros H. unfold get_http_client, bind, ask.
  destruct H as [H | H]; rewrite H; simpl.
  - reflexivity.
  - now destruct (PyString.nonempty (CONFLUENCE_URL w)).
Qed.

Lemma tool_raise body w e tr :
  body w [] = (Raise e, tr) -> tool body w = (failure (_handle_api_error e), tr).
Proof. intros H. unfold tool. now rewrite H. Qed.

Lemma tool_ok body w outcome tr :
  body w [] = (Ok outcome, tr) -> tool body w = (outcome, tr).
Proof. intros H. unfold tool. now rewrite H. Qed.

Lemma bind_raise {A B} (m : IO A) (k : A -> IO B) w tr e tr' :
  m w tr = (Raise e, tr') -> bind m k w tr = (Raise e, tr').
Proof. intros H. unfold bind. now rewrite H. Qed.

(** X1.  While [CONFLUENCE_URL] or [CONFLUENCE_API_TOKEN] is empty, each of
    the six tools that use the shared client returns the failure "Error:
    Missing required environment variables: CONFLUENCE_URL,
    CONFLUENCE_API_TOKEN" and issues no request. *)
Theorem missing_configuration_stops_every_client_tool (w : World) :
  CONFLUENCE_URL w = "" \/ CONFLUENCE_API_TOKEN w = "" ->
  (forall p, create_page w p = (failure missing_configuration, []))
  /\ (forall p, add_restrictions w p = (failure missing_configuration, []))
  /\ (forall p, get_restrictions w p = (failure missing_configuration, []))
  /\ (forall p, remove_restrictions w p = (failure missing_configuration, []))
  /\ (forall p, get_space_pages w p = (failure missing_configuration, []))
  /\ (forall p, get_child_pages w p = (failure missing_configuration, [])).
Proof.
  intros H.
  pose proof (get_http_client_unconfigured w [] H) as Hc.
  repeat split; intros p;
    [unfold create_page, create_page_body
    |unfold add_restrictions, add_restrictions_body
    |unfold get_restrictions, get_restrictions_body
    |unfold remove_restrictions, remove_restrictions_body
    |unfold get_space_pages, get_space_pages_body
    |unfold get_child_pages, get_child_pages_body];
    cbv zeta; rewrite (tool_raise _ _ _ _ (bind_raise _ _ _ _ _ _ Hc));
    reflexivity.
Qed.

Lemma missing_configuration_stops_every_client_tool_witness :
  add_restrictions Cases.no_token Scenario.restrict_engineering
  = (JDict [("success", JBool false);
            ("error",
             JStr "Error: Missing required environment variables: CONFLUENCE_URL, CONFLUENCE_API_TOKEN")],
     []).
Proof.
  apply (missing_configuration_stops_every_client_tool Cases.no_token).
  right. reflexivity.
Defined.

Lemma resolve_page_invalid page_id page_title space_key msg w tr :
  page_reference_error page_id page_title space_key = Some msg ->
  resolve_page page_id page_title space_key w tr = (Ok (Return (failure msg)), tr).
Proof.
  unfold page_reference_error, resolve_page.
  destruct (opt_truthy page_id), (opt_truthy page_title), (opt_truthy space_key);
    simpl; intros H; try discriminate; injection H as <-; reflexivity.
Qed.

(** X2.  A page reference that fails the parameter check (both a page id
    and a title, neither of them, or a title without a space key) makes
    [add_restrictions], [remove_restrictions] and [get_child_pages] return
    the failure that names the problem before any request is issued. *)
Theorem invalid_page_reference_issues_no_request (w : World) (msg : string) :
  configured w ->
  (forall p,
      page_reference_error (AddRestrictionInput.page_id p)
        (AddRestrictionInput.page_title p) (AddRestrictionInput.space_key p)
      = Some msg ->
      add_restrictions w p = (failure msg, []))
  /\ (forall p,
         page_reference_error (RemoveRestrictionInput.page_id p)
           (RemoveRestrictionInput.page_title p)
           (RemoveRestrictionInput.space_key p)
         = Some msg ->
         remove_restrictions w p = (failure msg, []))
  /\ (forall p,
         page_reference_error (GetChildPagesInput.page_id p)
           (GetChildPagesInput.page_title p) (GetChildPagesInput.space_key p)
         = Some msg ->
         get_child_pages w p = (failure msg, [])).
Proof.
  intros Hc. repeat split; intros p H;
    [unfold add_restrictions, add_restrictions_body
    |unfold remove_restrictions, remove_restrictions_body
    |unfold get_child_pages, get_child_pages_body];
    cbv zeta; apply tool_ok;
    rewrite (bind_ok _ _ _ _ _ _ Hc);
    rewrite (bind_ok _ _ _ _ _ _ (resolve_page_invalid _ _ _ _ w [] H));
    reflexivity.
Qed.

Lemma invalid_page_reference_issues_no_request_witness :
  add_restrictions Scenario.docs Cases.restrict_both_forms
  = (JDict [("success", JBool false);
            ("error",
             JStr "Cannot specify both page_id and page_title. Please use only one.")],
     []).
Proof.
  apply (invalid_page_reference_issues_no_request Scenario.docs
           "Cannot specify both page_id and page_title. Please use only one."
           eq_refl).
  reflexivity.
Defined.

(** ** Error messages *)

(** X3.  Every message [_handle_api_error] builds starts with "Error: ",
    and for the statuses 401, 403, 404 and 429 it is a fixed sentence that
    quotes nothing of the response body. *)
Theorem handle_api_error_messages :
  (forall e, exists rest, _handle_api_error e = "Error: " ++ rest)
  /\ (forall status body1 body2 msg1 msg2,
         In status [401; 403; 404; 429] ->
         _handle_api_error (HTTPStatusError status body1 msg1)
         = _handle_api_error (HTTPStatusError status body2 msg2)).
Proof.
  split.
  - intros [status body_text m | m | m | name m]; simpl.
    + destruct (status =? 400); [eexists; reflexivity|].
      destruct (status =? 401); [eexists; reflexivity|].
      destruct (status =? 403); [eexists; reflexivity|].
      destruct (status =? 404); [eexists; reflexivity|].
      destruct (status =? 429); eexists; reflexivity.
    + eexists; reflexivity.
    + eexists; reflexivity.
    + eexists; reflexivity.
  - intros status body1 body2 msg1 msg2 H. simpl in H.
    destruct H as [<- | [<- | [<- | [<- | []]]]]; reflexivity.
Qed.

Lemma handle_api_error_messages_witness :
  _handle_api_error (HTTPStatusError 403 "<html>secret</html>" "")
  = _handle_api_error (HTTPStatusError 403 "" "").
Proof.
  apply (proj2 handle_api_error_messages). simpl. auto.
Defined.

(** ** Page content *)

Lemma lower_app (a b : string) :
  PyString.lower (a ++ b) = PyString.lower a ++ PyString.lower b.
Proof. induction a as [|c a IH]; simpl; congruence. Qed.

Lemma has_html_tag_wrapped content :
  has_html_tag ("<p>" ++ content ++ "</p>") = true.
Proof.
  unfold has_html_tag. cbn [existsb]. apply orb_true_iff. left.
  apply contains_true_iff. rewrite lower_app.
  exists "", (PyString.lower (content ++ "</p>")). reflexivity.
Qed.

(** X4.  [_prepare_content_html] leaves content that carries one of its six
    tags (in any letter case) as it is and wraps any other content in a
    paragraph; its result always carries a tag, so preparing content twice
    is the same as preparing it once. *)
Theorem prepare_content_html_idempotent (content : string) :
  (has_html_tag content = true -> _prepare_content_html content = content)
  /\ (has_html_tag content = false ->
      _prepare_content_html content = "<p>" ++ content ++ "</p>")
  /\ has_html_tag (_prepare_content_html content) = true
  /\ _prepare_content_html (_prepare_content_html content)
     = _prepare_content_html content.
Proof.
  assert (Hdef : _prepare_content_html content
                 = if has_html_tag content then content
                   else "<p>" ++ content ++ "</p>").
  { unfold _prepare_content_html, has_html_tag.
    now destruct (existsb _ _). }
  assert (Htag : has_html_tag (_prepare_content_html content) = true).
  { rewrite Hdef. destruct (has_html_tag content) eqn:E; [exact E|].
    apply has_html_tag_wrapped. }
  split; [intros H; now rewrite Hdef, H|].
  split; [intros H; now rewrite Hdef, H|].
  split; [exact Htag|].
  assert (Hdef2 : forall c, has_html_tag c = true -> _prepare_content_html c = c).
  { intros c Hc. unfold _prepare_content_html. fold (has_html_tag c).
    now rewrite Hc. }
  now apply Hdef2.
Qed.

Lemma prepare_content_html_idempotent_witness :
  _prepare_content_html "<DIV>Release notes</DIV>" = "<DIV>Release notes</DIV>"
  /\ _prepare_content_html "Release notes" = "<p>Release notes</p>".
Proof.
  split.
  - apply (proj1 (prepare_content_html_idempotent "<DIV>Release notes</DIV>")).
    reflexivity.
  - apply (proj1 (proj2 (prepare_content_html_idempotent "Release notes"))).
    reflexivity.
Defined.

(** ** Resolving users and groups *)

Ltac user_lookup_unfold :=
  unfold _find_user_by_identifier, try_except, bind, client_get, send;
  change (mkRequest GET "/rest/api/user" [("username", ?i)] NoBody [])
    with (user_request i);
  change (mkRequest GET "/rest/api/search/user" [("query", ?i)] NoBody [])
    with (user_search_request i).

Lemma _find_user_by_identifier_200 identifier w tr r :
  backend w tr (user_request identifier) = Responded r ->
  status_code r = 200 ->
  _find_user_by_identifier identifier w tr
  = (Ok (match body_json r with
         | Ok data =>
             match PyOps.get data "accountId" JNull with
             | Ok account_id => account_id
             | Raise _ => JNull
             end
         | Raise _ => JNull
         end),
     (tr ++ [user_request identifier])%list).
Proof.
  intros H Hs. user_lookup_unfold. rewrite H, Hs. cbn [Z.eqb Pos.eqb].
  unfold response_json, lift.
  destruct (body_json r) as [data|e]; [|reflexivity].
  now destruct (PyOps.get data "accountId" JNull).
Qed.

Lemma _find_user_by_identifier_fallback identifier w tr r :
  backend w tr (user_request identifier) = Responded r ->
  status_code r <> 200 ->
  snd (_find_user_by_identifier identifier w tr)
  = (tr ++ [user_request identifier; user_search_request identifier])%list.
Proof.
  intros H Hs. user_lookup_unfold. rewrite H.
  replace (status_code r =? 200) with false by (symmetry; now apply Z.eqb_neq).
  replace (tr ++ [user_request identifier; user_search_request identifier])%list
    with ((tr ++ [user_request identifier]) ++ [user_search_request identifier])%list
    by now rewrite <- app_assoc.
  destruct (backend w (tr ++ [user_request identifier])%list
              (user_search_request identifier)) as [e|r2]; [reflexivity|].
  destruct (status_code r2 =? 200); [|reflexivity].
  unfold response_json, lift, ret.
  destruct (body_json r2) as [data|e]; [|reflexivity].
  destruct (PyOps.get data "results" (JList [])) as [results|e]; [|reflexivity].
  destruct (Py.truthy results); [|reflexivity].
  destruct (PyOps.first results) as [first|e]; [|reflexivity].
  now destruct (PyOps.get first "accountId" JNull).
Qed.

Lemma _find_user_by_identifier_shape identifier w tr :
  exists found,
    _find_user_by_identifier identifier w tr
    = (Ok found, (tr ++ [user_request identifier])%list)
    \/ _find_user_by_identifier identifier w tr
       = (Ok found,
          (tr ++ [user_request identifier; user_search_request identifier])%list).
Proof.
  user_lookup_unfold.
  destruct (backend w tr (user_request identifier)) as [e|r];
    [eexists; left; reflexivity|].
  destruct (status_code r =? 200).
  - unfold response_json, lift.
    destruct (body_json r) as [data|e]; [|eexists; left; reflexivity].
    destruct (PyOps.get data "accountId" JNull); eexists; left; reflexivity.
  - replace (tr ++ [user_request identifier; user_search_request identifier])%list
      with ((tr ++ [user_request identifier]) ++ [user_search_request identifier])%list
      by now rewrite <- app_assoc.
    destruct (backend w (tr ++ [user_request identifier])%list
                (user_search_request identifier)) as [e|r2];
      [eexists; right; reflexivity|].
    destruct (status_code r2 =? 200); [|eexists; right; reflexivity].
    unfold response_json, lift, ret.
    destruct (body_json r2) as [data|e]; [|eexists; right; reflexivity].
    destruct (PyOps.get data "results" (JList [])) as [results|e];
      [|eexists; right; reflexivity].
    destruct (Py.truthy results); [|eexists; right; reflexivity].
    destruct (PyOps.first results) as [first|e]; [|eexists; right; reflexivity].
    destruct (PyOps.get first "accountId" JNull); eexists; right; reflexivity.
Qed.

(** X5.  [_find_user_by_identifier] never raises.  When the username lookup
    answers 200 it is the only request: the account id of the answer is
    returned, or None when the answer has none, and the search is not tried.
    When it answers another status, the search by the same identifier
    follows; when the request raises, the result is None at once. *)
Theorem find_user_tries_search_only_after_a_non_200
    (w : World) (tr : list Request) (identifier : string) :
  (exists found, fst (_find_user_by_identifier identifier w tr) = Ok found)
  /\ (forall r,
         backend w tr (user_request identifier) = Responded r ->
         status_code r = 200 ->
         snd (_find_user_by_identifier identifier w tr)
         = (tr ++ [user_request identifier])%list
         /\ forall d,
              body_json r = Ok (JDict d) ->
              fst (_find_user_by_identifier identifier w tr)
              = Ok (match Py.lookup "accountId" d with
                    | Some account_id => account_id
                    | None => JNull
                    end))
  /\ (forall r,
         backend w tr (user_request identifier) = Responded r ->
         status_code r <> 200 ->
         snd (_find_user_by_identifier identifier w tr)
         = (tr ++ [user_request identifier; user_search_request identifier])%list)
  /\ (forall e,
         backend w tr (user_request identifier) = Raised e ->
         _find_user_by_identifier identifier w tr
         = (Ok JNull, (tr ++ [user_request identifier])%list)).
Proof.
  split; [|split; [|split]].
  - destruct (_find_user_by_identifier_shape identifier w tr)
      as [found [H | H]]; exists found; now rewrite H.
  - intros r H Hs.
    rewrite (_find_user_by_identifier_200 identifier w tr r H Hs). simpl.
    split; [reflexivity|]. intros d Hd. now rewrite Hd.
  - intros r H Hs. now apply (_find_user_by_identifier_fallback identifier w tr r).
  - intros e H. unfold _find_user_by_identifier, try_except, bind, client_get, send.
    change (mkRequest GET "/rest/api/user" [("username", identifier)] NoBody [])
      with (user_request identifier).
    now rewrite H.
Qed.

Lemma find_user_tries_search_only_after_a_non_200_witness :
  snd (_find_user_by_identifier "alice" Scenario.docs [])
  = [user_request "alice"]
  /\ fst (_find_user_by_identifier "alice" Scenario.docs []) = Ok (JStr "u-alice").
Proof.
  destruct (proj1 (proj2 (find_user_tries_search_only_after_a_non_200
                            Scenario.docs [] "alice"))
              (Scenario.json_response 200 (JDict [("accountId", JStr "u-alice")]))
              eq_refl eq_refl) as [Htrace Hvalue].
  split; [exact Htrace|].
  exact (Hvalue [("accountId", JStr "u-alice")] eq_refl).
Defined.

Lemma resolve_user_identifiers_return identifiers acc w tr outcome tr' :
  resolve_user_identifiers identifiers acc w tr = (Ok (Return outcome), tr') ->
  exists identifier,
    In identifier identifiers
    /\ outcome = failure ("User '" ++ identifier ++ "' not found").
Proof.
  revert acc tr; induction identifiers as [|i rest IH]; intros acc tr; simpl.
  - discriminate.
  - unfold bind.
    destruct (_find_user_by_identifier i w tr) as [[account_id|e] tr1];
      [|discriminate].
    destruct (Py.truthy account_id).
    + intros H. destruct (IH _ _ H) as [identifier [Hin Hout]].
      exists identifier. auto.
    + unfold ret. intros H. injection H as <- _. exists i. auto.
Qed.

Lemma only_issues_run {A} P (m : IO A) w tr r tr' :
  only_issues P m -> m w tr = (r, tr') ->
  exists ext, tr' = (tr ++ ext)%list /\ Forall P ext.
Proof.
  intros Hm E. destruct (Hm w tr) as [ext [H1 H2]].
  rewrite E in H1. simpl in H1. eauto.
Qed.

(** X6.  When an identifier of [user_identifiers] cannot be resolved,
    [add_restrictions] stops there: it returns the failure "User
    '<identifier>' not found" for that identifier, grants nothing to the
    users already resolved, and has issued only GET requests. *)
Theorem unresolved_user_fails_the_whole_call
    (w : World) (p : AddRestrictionInput.t) (page_id page_title outcome : json)
    (tr1 tr2 : list Request) :
  configured w ->
  resolve_page (AddRestrictionInput.page_id p) (AddRestrictionInput.page_title p)
    (AddRestrictionInput.space_key p) w [] = (Ok (Continue (page_id, page_title)), tr1) ->
  resolve_user_identifiers (or_empty (AddRestrictionInput.user_identifiers p))
    (map JStr (or_empty (AddRestrictionInput.user_account_ids p))) w tr1
    = (Ok (Return outcome), tr2) ->
  add_restrictions w p = (outcome, tr2)
  /\ (exists identifier,
         In identifier (or_empty (AddRestrictionInput.user_identifiers p))
         /\ outcome = failure ("User '" ++ identifier ++ "' not found"))
  /\ Forall (fun r => method r = GET) tr2.
Proof.
  intros Hc Hp Hu. split; [|split].
  - unfold add_restrictions, add_restrictions_body. cbv zeta. apply tool_ok.
    rewrite (bind_ok _ _ _ _ _ _ Hc), (bind_ok _ _ _ _ _ _ Hp),
      (bind_ok _ _ _ _ _ _ Hu).
    reflexivity.
  - exact (resolve_user_identifiers_return _ _ _ _ _ _ Hu).
  - destruct (only_issues_run _ _ _ _ _ _ (resolve_page_gets _ _ _) Hp)
      as [e1 [-> F1]].
    destruct (only_issues_run _ _ _ _ _ _
                (resolve_user_identifiers_gets _ _) Hu) as [e2 [-> F2]].
    apply Forall_app. split; [exact F1 | exact F2].
Qed.

Lemma unresolved_user_fails_the_whole_call_witness :
  add_restrictions Scenario.docs Cases.restrict_unknown_user
  = (JDict [("success", JBool false); ("error", JStr "User 'bob' not found")],
     [mkRequest GET "/rest/api/content/12345" [] NoBody [];
      user_request "alice"; user_request "bob"; user_search_request "bob"]).
Proof.
  apply (unresolved_user_fails_the_whole_call Scenario.docs
           Cases.restrict_unknown_user (JStr "12345") (JStr "Architecture")
           (failure "User 'bob' not found")
           [mkRequest GET "/rest/api/content/12345" [] NoBody []]
           [mkRequest GET "/rest/api/content/12345" [] NoBody [];
            user_request "alice"; user_request "bob"; user_search_request "bob"]
           eq_refl eq_refl eq_refl).
Defined.

(** X7.  Group names are taken as group ids without asking the server:
    resolving them issues no request, every non-empty name is appended in
    order, and the first empty name ends the call with "Group '' not
    found". *)
Theorem group_names_are_not_verified
    (names : list string) (acc : list json) (w : World) (tr : list Request) :
  snd (resolve_group_names names acc w tr) = tr
  /\ (Forall (fun n => PyString.nonempty n = true) names ->
      fst (resolve_group_names names acc w tr)
      = Ok (Continue (acc ++ map JStr names)%list))
  /\ (forall before after,
         names = (before ++ "" :: after)%list ->
         Forall (fun n => PyString.nonempty n = true) before ->
         fst (resolve_group_names names acc w tr)
         = Ok (Return (failure "Group '' not found"))).
Proof.
  split; [|split].
  - revert acc. induction names as [|n rest IH]; intros acc; simpl.
    + reflexivity.
    + unfold bind, _find_group_by_name, ret.
      destruct (Py.truthy (JStr n)); [apply IH | reflexivity].
  - revert acc. induction names as [|n rest IH]; intros acc Hall; simpl.
    + now rewrite app_nil_r.
    + inversion Hall as [|x l Hn Hrest]; subst.
      unfold bind, _find_group_by_name, ret.
      change (Py.truthy (JStr n)) with (PyString.nonempty n). rewrite Hn.
      rewrite (IH _ Hrest), <- app_assoc. reflexivity.
  - intros before. revert names acc.
    induction before as [|b before IH]; intros names acc after -> Hall; simpl.
    + reflexivity.
    + inversion Hall as [|x l Hb Hrest]; subst.
      unfold bind, _find_group_by_name, ret.
      change (Py.truthy (JStr b)) with (PyString.nonempty b). rewrite Hb.
      now apply (IH _ _ after).
Qed.

Lemma group_names_are_not_verified_witness :
  fst (resolve_group_names ["engineering"; ""; "design"] [] Scenario.unreachable [])
  = Ok (Return (failure "Group '' not found")).
Proof.
  apply (proj2 (proj2 (group_names_are_not_verified
                         ["engineering"; ""; "design"] [] Scenario.unreachable []))
           ["engineering"] ["design"] eq_refl).
  repeat constructor.
Defined.

(** ** The answer of the legacy endpoint *)

(** X8.  Once [add_restrictions] posts the form, it reports success exactly
    when the endpoint answers 2xx with a body that has "true" in some letter
    case; the counts are then the numbers of merged users and groups.
    Otherwise both counts are 0, the message is "No restrictions were
    added", and [warnings] holds one entry. *)
Theorem add_restrictions_succeeds_iff_the_endpoint_confirms
    (w : World) (p : AddRestrictionInput.t) (page_id page_title : json)
    (users groups : list json) (tr1 tr2 tr3 : list Request) (sensitive : bool) :
  configured w ->
  resolve_page (AddRestrictionInput.page_id p) (AddRestrictionInput.page_title p)
    (AddRestrictionInput.space_key p) w [] = (Ok (Continue (page_id, page_title)), tr1) ->
  resolve_user_identifiers (or_empty (AddRestrictionInput.user_identifiers p))
    (map JStr (or_empty (AddRestrictionInput.user_account_ids p))) w tr1
    = (Ok (Continue users), tr2) ->
  resolve_group_names (or_empty (AddRestrictionInput.group_names p))
    (map JStr (or_empty (AddRestrictionInput.group_ids p))) w tr2
    = (Ok (Continue groups), tr3) ->
  list_truthy users || list_truthy groups = true ->
  is_private_or_shared page_title = Ok sensitive ->
  let form_body :=
    PyString.join "&"
      (build_form_data (AddRestrictionInput.operation p) sensitive users groups
         page_id) in
  let reply := backend w tr3 (permissions_request form_body) in
  let outcome := fst (add_restrictions w p) in
  (confirms reply ->
   field "success" outcome = Some (JBool true)
   /\ field "users_added" outcome = Some (JInt (len users))
   /\ field "groups_added" outcome = Some (JInt (len groups))
   /\ field "warnings" outcome = None)
  /\ (~ confirms reply ->
      field "success" outcome = Some (JBool false)
      /\ field "users_added" outcome = Some (JInt 0)
      /\ field "groups_added" outcome = Some (JInt 0)
      /\ field "message" outcome = Some (JStr "No restrictions were added")
      /\ exists warning, field "warnings" outcome = Some (JList [JStr warning])).
Proof.
  intros Hc Hp Hu Hg Hne Hs form_body reply outcome.
  destruct (add_restrictions_submits w p page_id page_title users groups tr1 tr2 tr3
              sensitive Hc Hp Hu Hg Hne Hs) as [added [Hsub Hrun]].
  fold form_body in Hsub, Hrun. unfold outcome. rewrite Hrun. simpl fst.
  clear Hrun outcome.
  assert (Hpos : (0 <? len users) || (0 <? len groups) = true).
  { unfold len. destruct users, groups; simpl in *; try discriminate;
      try reflexivity; apply orb_true_iff; auto. }
  revert Hsub. unfold submit_permissions, try_except, bind, send.
  fold reply. unfold confirms.
  destruct reply as [e|r].
  - unfold ret. intros H. injection H as <-. split.
    + intros [r' [H _]]. discriminate.
    + intros _. simpl. repeat split; eauto.
  - unfold raise_for_status.
    destruct ((200 <=? status_code r) && (status_code r <=? 299)) eqn:E2.
    + apply andb_true_iff in E2. destruct E2 as [E2a E2b].
      apply Z.leb_le in E2a, E2b. unfold ret.
      destruct (PyString.contains "true" (PyString.lower (text r))) eqn:Et;
        intros H; injection H as <-; split.
      * intros _. unfold add_result. cbn [fst snd]. rewrite Hpos. simpl.
        repeat split.
      * intros Hn. exfalso. apply Hn. exists r. repeat split; auto.
      * intros [r' [H [_ Ht]]]. injection H as <-. congruence.
      * intros _. simpl. repeat split; eauto.
    + unfold raise, ret. intros H. injection H as <-. split.
      * intros [r' [H [Hst _]]]. injection H as <-.
        apply andb_false_iff in E2. destruct E2 as [E2 | E2];
          apply Z.leb_gt in E2; lia.
      * intros _. simpl. repeat split; eauto.
Qed.

Lemma add_restrictions_succeeds_iff_the_endpoint_confirms_witness :
  field "success" (fst (add_restrictions Cases.refusing Scenario.restrict_engineering))
  = Some (JBool false)
  /\ field "warnings"
       (fst (add_restrictions Cases.refusing Scenario.restrict_engineering))
     = Some (JList [JStr "API returned unexpected response: <html>Not permitted</html>"]).
Proof.
  destruct (proj2 (add_restrictions_succeeds_iff_the_endpoint_confirms
                     Cases.refusing Scenario.restrict_engineering
                     (JStr "12345") (JStr "Architecture") [] [JStr "engineering"]
                     [mkRequest GET "/rest/api/content/12345" [] NoBody []]
                     [mkRequest GET "/rest/api/content/12345" [] NoBody []]
                     [mkRequest GET "/rest/api/content/12345" [] NoBody []]
                     false eq_refl eq_refl eq_refl eq_refl eq_refl eq_refl))
    as [Hsuccess _].
  - intros [r [H [_ Ht]]]. injection H as <-. discriminate.
  - split; [exact Hsuccess | reflexivity].
Defined.

(** ** The title of a page given by id *)

Lemma fetch_page_title_unavailable page_id w tr :
  title_unavailable (backend w tr (title_request page_id)) ->
  fetch_page_title (JStr page_id) w tr
  = (Ok (JStr ""), (tr ++ [title_request page_id])%list).
Proof.
  unfold fetch_page_title, try_except, bind, client_get, send.
  change (mkRequest GET ("/rest/api/content/" ++ Py.str (JStr page_id)) [] NoBody [])
    with (title_request page_id).
  intros [[[e ->] | [r [-> Hbad]]] | [r [d [-> [Hs [Hj Ht]]]]]].
  - reflexivity.
  - unfold raise_for_status.
    destruct ((200 <=? status_code r) && (status_code r <=? 299)) eqn:E;
      [|reflexivity].
    apply andb_true_iff in E. destruct E as [E1 E2]. apply Z.leb_le in E1, E2.
    destruct Hbad as [Hbad | [e He]]; [lia|].
    unfold ret, response_json, lift. now rewrite He.
  - unfold raise_for_status.
    replace ((200 <=? status_code r) && (status_code r <=? 299)) with true
      by (symmetry; apply andb_true_iff; split; apply Z.leb_le; lia).
    unfold ret, response_json, lift. rewrite Hj. unfold PyOps.get.
    now rewrite Ht.
Qed.

Lemma resolve_page_by_id page_id page_title space_key id w tr title tr' :
  page_id = Some id ->
  PyString.nonempty id = true ->
  opt_truthy page_title = false ->
  fetch_page_title (JStr id) w tr = (Ok title, tr') ->
  resolve_page page_id page_title space_key w tr
  = (Ok (Continue (JStr id, title)), tr').
Proof.
  intros -> Hid Ht Hfetch. unfold resolve_page.
  replace (opt_truthy (Some id)) with true by (symmetry; exact Hid).
  rewrite Ht. cbn [andb negb opt_str].
  now rewrite (bind_ok _ _ _ _ _ _ Hfetch).
Qed.

(** X9.  When [add_restrictions] is given a page id and the title cannot be
    fetched (the request raises, the status is not 2xx, the body is not
    JSON, or the answer has no title), the call goes on with the empty
    title: the page counts as not sensitive, so the form is the one of a
    page without "Private" or "Shared" in its title. *)
Theorem unavailable_title_counts_as_not_sensitive
    (w : World) (p : AddRestrictionInput.t) (id : string)
    (users groups : list json) (tr2 tr3 : list Request) :
  configured w ->
  AddRestrictionInput.page_id p = Some id ->
  PyString.nonempty id = true ->
  opt_truthy (AddRestrictionInput.page_title p) = false ->
  title_unavailable (backend w [] (title_request id)) ->
  resolve_user_identifiers (or_empty (AddRestrictionInput.user_identifiers p))
    (map JStr (or_empty (AddRestrictionInput.user_account_ids p))) w
    [title_request id] = (Ok (Continue users), tr2) ->
  resolve_group_names (or_empty (AddRestrictionInput.group_names p))
    (map JStr (or_empty (AddRestrictionInput.group_ids p))) w tr2
    = (Ok (Continue groups), tr3) ->
  list_truthy users || list_truthy groups = true ->
  snd (add_restrictions w p)
  = (tr3 ++ [permissions_request
               (PyString.join "&"
                  (build_form_data (AddRestrictionInput.operation p) false
                     users groups (JStr id)))])%list.
Proof.
  intros Hc Hid Hne Ht Hun Hu Hg Hsome.
  pose proof (fetch_page_title_unavailable id w [] Hun) as Hfetch.
  pose proof (resolve_page_by_id _ _ (AddRestrictionInput.space_key p)
                id w [] _ _ Hid Hne Ht Hfetch) as Hp.
  destruct (add_restrictions_submits w p (JStr id) (JStr "") users groups
              [title_request id] tr2 tr3 false Hc Hp Hu Hg Hsome eq_refl)
    as [added [_ Hrun]].
  now rewrite Hrun.
Qed.

Lemma unavailable_title_counts_as_not_sensitive_witness :
  snd (add_restrictions Cases.failing_reads Scenario.restrict_roadmap)
  = [title_request "777";
     permissions_request
       "editPermissionsUserList=alice&editPermissionsUserList=bob&contentId=777"].
Proof.
  apply (unavailable_title_counts_as_not_sensitive Cases.failing_reads
           Scenario.restrict_roadmap "777" [JStr "alice"; JStr "bob"] []
           [title_request "777"] [title_request "777"]
           eq_refl eq_refl eq_refl eq_refl).
  - left. right. exists (Scenario.text_response 500 "Internal Server Error").
    split; [reflexivity|]. left. simpl. lia.
  - reflexivity.
  - reflexivity.
  - reflexivity.
Defined.

(** X10.  A title that is present but is no text (the answer carries
    [null], a boolean or a number for it) is not tolerated: the sensitivity
    test raises a TypeError, and [add_restrictions] returns a failure that
    reports it without posting anything. *)
Theorem title_that_is_no_text_fails_the_call
    (w : World) (p : AddRestrictionInput.t) (page_id page_title : json)
    (users groups : list json) (tr1 tr2 tr3 : list Request) :
  configured w ->
  resolve_page (AddRestrictionInput.page_id p) (AddRestrictionInput.page_title p)
    (AddRestrictionInput.space_key p) w [] = (Ok (Continue (page_id, page_title)), tr1) ->
  resolve_user_identifiers (or_empty (AddRestrictionInput.user_identifiers p))
    (map JStr (or_empty (AddRestrictionInput.user_account_ids p))) w tr1
    = (Ok (Continue users), tr2) ->
  resolve_group_names (or_empty (AddRestrictionInput.group_names p))
    (map JStr (or_empty (AddRestrictionInput.group_ids p))) w tr2
    = (Ok (Continue groups), tr3) ->
  list_truthy users || list_truthy groups = true ->
  no_text page_title ->
  (exists detail,
      fst (add_restrictions w p)
      = failure ("Error: Unexpected error occurred: TypeError - " ++ detail))
  /\ snd (add_restrictions w p) = tr3
  /\ Forall (fun r => method r = GET) tr3.
Proof.
  intros Hc Hp Hu Hg Hsome Hno.
  assert (Hraise : exists detail,
             is_private_or_shared page_title = Raise (TypeError detail)).
  { destruct page_title; simpl in Hno; try contradiction;
      eexists; reflexivity. }
  destruct Hraise as [detail Hraise].
  assert (Hrun : add_restrictions w p
                 = (failure (_handle_api_error (TypeError detail)), tr3)).
  { unfold add_restrictions, add_restrictions_body. cbv zeta. apply tool_raise.
    rewrite (bind_ok _ _ _ _ _ _ Hc), (bind_ok _ _ _ _ _ _ Hp),
      (bind_ok _ _ _ _ _ _ Hu), (bind_ok _ _ _ _ _ _ Hg).
    replace (negb (list_truthy users) && negb (list_truthy groups)) with false
      by (destruct (list_truthy users), (list_truthy groups);
          simpl in *; congruence).
    unfold bind, lift. now rewrite Hraise. }
  rewrite Hrun. split; [exists detail; reflexivity|]. split; [reflexivity|].
  destruct (only_issues_run _ _ _ _ _ _ (resolve_page_gets _ _ _) Hp)
    as [e1 [-> F1]].
  destruct (only_issues_run _ _ _ _ _ _ (resolve_user_identifiers_gets _ _) Hu)
    as [e2 [-> F2]].
  destruct (resolve_group_names_spec _ _ _ _ _ _ Hg) as [_ ->].
  apply Forall_app. split; [exact F1 | exact F2].
Qed.

Lemma title_that_is_no_text_fails_the_call_witness :
  snd (add_restrictions Cases.untitled Scenario.restrict_engineering)
  = [title_request "12345"].
Proof.
  destruct (title_that_is_no_text_fails_the_call Cases.untitled
              Scenario.restrict_engineering (JStr "12345") JNull
              [] [JStr "engineering"]
              [title_request "12345"] [title_request "12345"]
              [title_request "12345"]
              eq_refl eq_refl eq_refl eq_refl eq_refl I) as [_ [Htrace _]].
  exact Htrace.
Defined.

(** ** Directory sync: credentials, the sync request and the token *)

(** X11.  Without a login or a password, or with both but without a
    directory id (each taken from the parameter, or from the configuration
    when the parameter is missing or empty), [sync_user_directory] fails
    with the message that names what is missing and issues no request. *)
Theorem sync_needs_credentials_and_directory
    (w : World) (p : SyncUserDirectoryInput.t) :
  (PyString.nonempty (sync_login w p) = false
   \/ PyString.nonempty (sync_password w p) = false ->
   sync_user_directory w p
   = (failure
        "Missing credentials. Set CONFLUENCE_LOGIN and CONFLUENCE_LOGIN_PASSWORD environment variables or provide them as parameters.",
      []))
  /\ (PyString.nonempty (sync_login w p) = true ->
      PyString.nonempty (sync_password w p) = true ->
      PyString.nonempty (sync_directory w p) = false ->
      sync_user_directory w p
      = (failure
           "Missing directory_id. Set CONFLUENCE_DIRECTORY_ID environment variable or provide it as parameter.",
         [])).
Proof.
  split.
  - intros H. unfold sync_user_directory, sync_user_directory_body, bind at 1, ask.
    fold (sync_login w p) (sync_password w p) (sync_directory w p).
    destruct H as [H | H]; rewrite H.
    + reflexivity.
    + now destruct (PyString.nonempty (sync_login w p)).
  - intros Hl Hp Hd.
    unfold sync_user_directory, sync_user_directory_body, bind at 1, ask.
    fold (sync_login w p) (sync_password w p) (sync_directory w p).
    now rewrite Hl, Hp, Hd.
Qed.

Lemma sync_needs_credentials_and_directory_witness :
  sync_user_directory Cases.no_password (SyncUserDirectoryInput.mk None None (Some ""))
  = (failure
       "Missing credentials. Set CONFLUENCE_LOGIN and CONFLUENCE_LOGIN_PASSWORD environment variables or provide them as parameters.",
     []).
Proof.
  apply (sync_needs_credentials_and_directory Cases.no_password
           (SyncUserDirectoryInput.mk None None (Some ""))).
  right. reflexivity.
Defined.

(** X12.  With a token extracted, [sync_user_directory] issues the sync
    request for the directory and the token as its third and last request.
    It reports success exactly for the statuses 200 and 302; any other
    status, other 2xx included, is a failure that quotes the status and at
    most the first 200 characters of the body, and a raised exception is the
    failure "Failed to trigger sync: ...". *)
Theorem sync_succeeds_on_200_and_302_only
    (w : World) (p : SyncUserDirectoryInput.t)
    (login_response auth_response : Response) (atl_token : string) :
  sync_ready w p ->
  let login_req := login_request (sync_login w p) (sync_password w p) in
  let auth_req := authenticate_request (sync_password w p) in
  let sync_req := sync_request (sync_directory w p) atl_token in
  backend w [] login_req = Responded login_response ->
  backend w [login_req] auth_req = Responded auth_response ->
  extract_atl_token (text auth_response) = Some atl_token ->
  snd (sync_user_directory w p) = [login_req; auth_req; sync_req]
  /\ (forall r,
         backend w [login_req; auth_req] sync_req = Responded r ->
         (status_code r = 200 \/ status_code r = 302 ->
          fst (sync_user_directory w p)
          = JDict [("success", JBool true);
                   ("message",
                    JStr ("User directory sync triggered successfully for directory ID: "
                            ++ sync_directory w p));
                   ("directory_id", JStr (sync_directory w p))])
         /\ (status_code r <> 200 -> status_code r <> 302 ->
             fst (sync_user_directory w p)
             = failure ("Sync request returned status "
                          ++ PyString.of_Z (status_code r) ++ ": "
                          ++ PyString.take 200 (text r))))
  /\ (forall e,
         backend w [login_req; auth_req] sync_req = Raised e ->
         fst (sync_user_directory w p)
         = failure ("Failed to trigger sync: " ++ exn_str e)).
Proof.
  intros Hready login_req auth_req sync_req H1 H2 Htoken.
  pose proof (sync_after_authentication w p _ _ Hready H1 H2) as Hrun.
  fold login_req auth_req in Hrun. rewrite Htoken in Hrun. fold sync_req in Hrun.
  unfold sync_user_directory. rewrite Hrun.
  unfold try_except, bind, send.
  destruct (backend w [login_req; auth_req] sync_req) as [e|r].
  - split; [reflexivity|]. split; [discriminate|].
    intros e' H. now injection H as <-.
  - split.
    { now destruct ((status_code r =? 200) || (status_code r =? 302)). }
    split; [|discriminate].
    intros r' H. injection H as <-. split.
    + intros Hs.
      replace ((status_code r =? 200) || (status_code r =? 302)) with true;
        [reflexivity|].
      symmetry. apply orb_true_iff.
      destruct Hs as [Hs | Hs]; [left | right]; now apply Z.eqb_eq.
    + intros Hn1 Hn2.
      replace ((status_code r =? 200) || (status_code r =? 302)) with false;
        [reflexivity|].
      symmetry. apply orb_false_iff. split; now apply Z.eqb_neq.
Qed.

Lemma sync_succeeds_on_200_and_302_only_witness :
  fst (sync_user_directory Cases.no_content Scenario.sync_configured)
  = failure "Sync request returned status 204: ".
Proof.
  destruct (sync_succeeds_on_200_and_302_only Cases.no_content
              Scenario.sync_configured
              (Scenario.text_response 200 "{}")
              (Scenario.text_response 200
                 ("<form><input type='hidden' " ++ token_attribute_name ++ " "
                    ++ token_attribute_value ++ "abc123"
                    ++ String PyString.dquote "></form>"))
              "abc123"
              (conj eq_refl (conj eq_refl (conj eq_refl eq_refl)))
              eq_refl eq_refl eq_refl) as [_ [Hstatus _]].
  apply (Hstatus (Scenario.text_response 204 "") eq_refl); discriminate.
Defined.

Lemma search_some m s group :
  search m s = Some group ->
  exists before after, s = before ++ after /\ m after = Some group.
Proof.
  induction s as [|c s IH]; simpl.
  - destruct (m "") eqn:E; [|discriminate].
    intros H. injection H as <-. now exists "", "".
  - destruct (m (String c s)) eqn:E.
    + intros H. injection H as <-. now exists "", (String c s).
    + intros H. destruct (IH H) as [before [after [-> Hm]]].
      now exists (String c before), after.
Qed.

Lemma all_chars_weaken (p q : ascii -> bool) s :
  (forall c, p c = true -> q c = true) ->
  all_chars p s = true -> all_chars q s = true.
Proof.
  intros Hpq. induction s as [|c s IH]; simpl; [reflexivity|].
  intros H. apply andb_true_iff in H. destruct H as [Hc Hs].
  now rewrite (Hpq c Hc), (IH Hs).
Qed.

Lemma token_char_not_dquote c : token_char c = true -> not_dquote c = true.
Proof.
  unfold token_char, not_dquote. intros H. apply negb_true_iff in H.
  apply orb_false_iff in H. destruct H as [H _].
  apply orb_false_iff in H. destruct H as [_ H]. now rewrite H.
Qed.

Lemma match_token_query_some s group :
  match_token_query s = Some group ->
  exists rest,
    s = "atl_token=" ++ group ++ rest
    /\ PyString.nonempty group = true
    /\ all_chars token_char group = true.
Proof.
  unfold match_token_query.
  destruct (PyString.strip_prefix "atl_token=" s) as [after_key|] eqn:E;
    [|discriminate].
  apply strip_prefix_some_iff in E.
  destruct (span_spec token_char after_key) as [S1 [S2 _]].
  destruct (PyString.span token_char after_key) as [run rest]. simpl in S1, S2.
  destruct (PyString.nonempty run) eqn:Hn; [|discriminate].
  intros H. injection H as <-. exists rest. now rewrite E, S1.
Qed.

Lemma match_token_attribute_some s group :
  match_token_attribute s = Some group ->
  exists spaces after,
    s = token_attribute_name ++ spaces ++ token_attribute_value
          ++ group ++ String PyString.dquote after
    /\ PyString.nonempty group = true
    /\ all_chars not_dquote group = true.
Proof.
  unfold match_token_attribute.
  destruct (PyString.strip_prefix token_attribute_name s) as [after_name|] eqn:E1;
    [|discriminate].
  apply strip_prefix_some_iff in E1.
  destruct (span_spec PyString.isspace after_name) as [S1 _].
  destruct (PyString.span PyString.isspace after_name) as [spaces after_spaces].
  simpl in S1.
  destruct (PyString.nonempty spaces); [|discriminate].
  destruct (PyString.strip_prefix token_attribute_value after_spaces)
    as [after_value|] eqn:E2; [|discriminate].
  apply strip_prefix_some_iff in E2.
  destruct (span_spec not_dquote after_value) as [G1 [G2 G3]].
  destruct (PyString.span not_dquote after_value) as [run after_group].
  simpl in G1, G2, G3.
  destruct (PyString.nonempty run) eqn:Hn; [|discriminate].
  destruct after_group as [|c after]; [discriminate|].
  intros H. injection H as <-.
  assert (c = PyString.dquote) as ->.
  { unfold not_dquote in G3. apply negb_false_iff in G3.
    now apply Ascii.eqb_eq in G3. }
  exists spaces, after. now rewrite E1, S1, E2, G1.
Qed.

Lemma substring_inside (a b c : string) : Substring b (a ++ b ++ c).
Proof. now exists a, c. Qed.

Lemma append_assoc (a b c : string) : (a ++ b) ++ c = a ++ b ++ c.
Proof. induction a as [|x a IH]; simpl; congruence. Qed.

(** X13.  A token that step 3 extracts is never empty, holds no double
    quote and occurs in the response text.  The token field wins over a
    token in a link, wherever the two stand: when the text has a filled
    token field, the token is the value of such a field; only otherwise it
    comes from a query string, and then it also holds no ampersand and no
    whitespace. *)
Theorem extracted_token_is_well_formed (response_text atl_token : string) :
  extract_atl_token response_text = Some atl_token ->
  PyString.nonempty atl_token = true
  /\ all_chars not_dquote atl_token = true
  /\ Substring atl_token response_text
  /\ (has_token_attribute response_text ->
      exists before spaces after,
        response_text
        = before ++ token_attribute_name ++ spaces ++ token_attribute_value
            ++ atl_token ++ String PyString.dquote after)
  /\ (~ has_token_attribute response_text ->
      all_chars token_char atl_token = true
      /\ exists before after,
           response_text = before ++ "atl_token=" ++ atl_token ++ after).
Proof.
  unfold extract_atl_token.
  destruct (search match_token_attribute response_text) as [group|] eqn:E.
  - intros H. injection H as <-.
    destruct (search_some _ _ _ E) as [before [rest [-> Hm]]].
    destruct (match_token_attribute_some _ _ Hm)
      as [spaces [after [-> [Hn Hall]]]].
    split; [exact Hn|]. split; [exact Hall|]. split.
    { exists (before ++ token_attribute_name ++ spaces ++ token_attribute_value),
        (String PyString.dquote after).
      now rewrite !append_assoc. }
    split; [intros _; now exists before, spaces, after|].
    intros Hno. exfalso.
    apply search_token_attribute_none_iff in Hno. congruence.
  - intros Hq.
    destruct (search_some _ _ _ Hq) as [before [rest [-> Hm]]].
    destruct (match_token_query_some _ _ Hm) as [after [-> [Hn Hall]]].
    split; [exact Hn|].
    split; [exact (all_chars_weaken _ _ _ token_char_not_dquote Hall)|].
    split.
    { exists (before ++ "atl_token="), after. now rewrite !append_assoc. }
    split.
    + intros Hhas. exfalso.
      apply search_token_attribute_none_iff in E. contradiction.
    + intros _. split; [exact Hall|]. now exists before, after.
Qed.

Lemma extracted_token_is_well_formed_witness :
  extract_atl_token Cases.page_with_two_tokens = Some "fromfield"
  /\ Substring "fromfield" Cases.page_with_two_tokens.
Proof.
  split; [reflexivity|].
  apply (extracted_token_is_well_formed Cases.page_with_two_tokens "fromfield").
  reflexivity.
Defined.

(** ** Which tool issues which requests *)

Lemma only_issues_for_each P (f : json -> IO json) items :
  (forall x, only_issues P (f x)) -> only_issues P (for_each f items).
Proof.
  intros Hf. induction items as [|x rest IH]; simpl.
  - apply only_issues_ret.
  - apply only_issues_bind; [apply Hf|]. intros y.
    apply only_issues_bind; [apply IH|]. intros ys. apply only_issues_ret.
Qed.

Ltac silent :=
  repeat first
    [ apply only_issues_bind; [|intros ?]
    | apply only_issues_if
    | apply only_issues_ret
    | apply only_issues_raise
    | apply only_issues_lift
    | apply only_issues_ask
    | apply only_issues_for_each; intros ? ].

Lemma parse_operation_silent P data operation restrictions :
  only_issues P (parse_operation data operation restrictions).
Proof.
  unfold parse_operation, restricted, restricted_user, restricted_group. silent.
Qed.

Lemma page_summary_silent P page : only_issues P (page_summary page).
Proof. unfold page_summary, has_webui. silent. Qed.

Lemma content_preview_silent P page : only_issues P (content_preview page).
Proof. unfold content_preview. silent. Qed.

Lemma pagination_silent P data start limit :
  only_issues P (pagination data start limit).
Proof. unfold pagination. silent. Qed.

Lemma get_restrictions_body_gets p : only_issues is_get (get_restrictions_body p).
Proof.
  unfold get_restrictions_body, client_get, response_json.
  apply only_issues_bind; [apply get_http_client_silent|]. intros _.
  apply only_issues_bind; [apply only_issues_send; reflexivity|]. intros response.
  apply only_issues_bind; [apply raise_for_status_silent|]. intros _.
  apply only_issues_bind; [apply only_issues_lift|]. intros data.
  apply only_issues_bind; [apply parse_operation_silent|]. intros r1.
  apply only_issues_bind; [apply parse_operation_silent|]. intros r2.
  apply only_issues_ret.
Qed.

Lemma listing_gets path query (info : json -> IO json) start limit
    (finish : json -> list json -> json -> list (string * json) -> json) :
  (forall page, only_issues is_get (info page)) ->
  only_issues is_get
    (response <- client_get path query ;;
     raise_for_status response ;;;
     data <- response_json response ;;
     results <- lift (PyOps.get data "results" (JList [])) ;;
     items <- lift (PyOps.iter results) ;;
     pages <- for_each info items ;;
     total_count <- lift (PyOps.get data "size" (JInt 0)) ;;
     more <- pagination data start limit ;;
     ret (finish data pages total_count more)).
Proof.
  intros Hinfo. unfold client_get, response_json.
  apply only_issues_bind; [apply only_issues_send; reflexivity|]. intros response.
  apply only_issues_bind; [apply raise_for_status_silent|]. intros _.
  apply only_issues_bind; [apply only_issues_lift|]. intros data.
  apply only_issues_bind; [apply only_issues_lift|]. intros results.
  apply only_issues_bind; [apply only_issues_lift|]. intros items.
  apply only_issues_bind; [apply only_issues_for_each, Hinfo|]. intros pages.
  apply only_issues_bind; [apply only_issues_lift|]. intros total.
  apply only_issues_bind; [apply pagination_silent|]. intros more.
  apply only_issues_ret.
Qed.

Lemma get_space_pages_body_gets p : only_issues is_get (get_space_pages_body p).
Proof.
  unfold get_space_pages_body. cbv zeta.
  apply only_issues_bind; [apply get_http_client_silent|]. intros _.
  apply (listing_gets _ _ space_page_info _ _
           (fun data pages total_count more =>
              JDict ([("success", JBool true);
                      ("space_key", JStr (GetSpacePagesInput.space_key p));
                      ("total_count", total_count);
                      ("returned_count", JInt (len pages));
                      ("start", JInt (GetSpacePagesInput.start p));
                      ("limit", JInt (GetSpacePagesInput.limit p));
                      ("pages", JList pages)] ++ more)%list)).
  intros page. unfold space_page_info.
  apply only_issues_bind; [apply page_summary_silent|]. intros summary.
  apply only_issues_bind; [apply content_preview_silent|]. intros preview.
  apply only_issues_ret.
Qed.

Lemma get_child_pages_body_gets p : only_issues is_get (get_child_pages_body p).
Proof.
  unfold get_child_pages_body.
  apply only_issues_bind; [apply get_http_client_silent|]. intros _.
  apply only_issues_bind; [apply resolve_page_gets|]. intros [outcome|[page_id title]].
  - apply only_issues_ret.
  - cbv zeta.
    apply (listing_gets _ _ child_page_info _ _
             (fun data child_pages total_count more =>
                JDict ([("success", JBool true);
                        ("parent_page_id", page_id);
                        ("parent_page_title", title);
                        ("total_count", total_count);
                        ("returned_count", JInt (len child_pages));
                        ("start", JInt (GetChildPagesInput.start p));
                        ("limit", JInt (GetChildPagesInput.limit p));
                        ("child_pages", JList child_pages)] ++ more)%list)).
    intros page. unfold child_page_info.
    apply only_issues_bind; [apply page_summary_silent|]. intros summary.
    apply only_issues_ret.
Qed.

Lemma tool_only_issues P body w :
  only_issues P body -> Forall P (snd (tool body w)).
Proof.
  intros H. destruct (H w []) as [ext [E F]]. unfold tool.
  destruct (body w []) as [[outcome|e] tr]; simpl in *; now subst.
Qed.

(** X14.  The three tools annotated as read-only, [get_restrictions],
    [get_space_pages] and [get_child_pages], issue nothing but GET
    requests, whatever the server answers. *)
Theorem read_only_tools_only_get (w : World) :
  (forall p, Forall (fun r => method r = GET) (snd (get_restrictions w p)))
  /\ (forall p, Forall (fun r => method r = GET) (snd (get_space_pages w p)))
  /\ (forall p, Forall (fun r => method r = GET) (snd (get_child_pages w p))).
Proof.
  repeat split; intros p; apply (tool_only_issues is_get).
  - apply get_restrictions_body_gets.
  - apply get_space_pages_body_gets.
  - apply get_child_pages_body_gets.
Qed.

Lemma get_http_client_trace w tr r tr' :
  get_http_client w tr = (r, tr') -> tr' = tr.
Proof.
  unfold get_http_client, bind, ask, ret, raise.
  destruct (PyString.nonempty (CONFLUENCE_URL w)
            && PyString.nonempty (CONFLUENCE_API_TOKEN w));
    intros H; now injection H.
Qed.

Lemma submit_permissions_trace form_body users groups w tr :
  exists added,
    submit_permissions form_body users groups w tr
    = (Ok added, (tr ++ [permissions_request form_body])%list).
Proof.
  unfold submit_permissions, try_except, bind, send.
  destruct (backend w tr (permissions_request form_body)) as [e|resp].
  - eexists; reflexivity.
  - unfold raise_for_status.
    destruct ((200 <=? status_code resp) && (status_code resp <=? 299)).
    + unfold ret.
      destruct (PyString.contains "true" (PyString.lower (text resp)));
        eexists; reflexivity.
    + unfold raise, ret. eexists; reflexivity.
Qed.

(** X15.  [add_restrictions] writes at most once: its requests are GET
    requests, followed by at most one request, the form post to the legacy
    permissions endpoint, after which nothing more is issued. *)
Theorem add_restrictions_posts_at_most_once
    (w : World) (p : AddRestrictionInput.t) :
  exists gets,
    Forall (fun r => method r = GET) gets
    /\ (snd (add_restrictions w p) = gets
        \/ exists form_body,
             snd (add_restrictions w p)
             = (gets ++ [permissions_request form_body])%list).
Proof.
  unfold add_restrictions, tool, add_restrictions_body. cbv zeta.
  destruct (get_http_client w []) as [r0 tr0] eqn:E0.
  pose proof (get_http_client_trace _ _ _ _ E0) as ->.
  destruct r0 as [u|e];
    [rewrite (bind_ok _ _ _ _ _ _ E0)
    |rewrite (bind_raise _ _ _ _ _ _ E0); exists []; simpl; auto].
  destruct (resolve_page (AddRestrictionInput.page_id p)
              (AddRestrictionInput.page_title p)
              (AddRestrictionInput.space_key p) w []) as [r1 tr1] eqn:E1.
  destruct (only_issues_run _ _ _ _ _ _ (resolve_page_gets _ _ _) E1)
    as [e1 [-> F1]]. simpl app in *.
  destruct r1 as [[outcome|[page_id page_title]]|e];
    [rewrite (bind_ok _ _ _ _ _ _ E1); exists e1; simpl; auto
    |rewrite (bind_ok _ _ _ _ _ _ E1)
    |rewrite (bind_raise _ _ _ _ _ _ E1); exists e1; simpl; auto].
  destruct (resolve_user_identifiers
              (or_empty (AddRestrictionInput.user_identifiers p))
              (map JStr (or_empty (AddRestrictionInput.user_account_ids p)))
              w e1) as [r2 tr2] eqn:E2.
  destruct (only_issues_run _ _ _ _ _ _ (resolve_user_identifiers_gets _ _) E2)
    as [e2 [-> F2]].
  assert (F12 : Forall is_get (e1 ++ e2)) by now apply Forall_app.
  destruct r2 as [[outcome|users]|e];
    [rewrite (bind_ok _ _ _ _ _ _ E2); exists (e1 ++ e2)%list; simpl; auto
    |rewrite (bind_ok _ _ _ _ _ _ E2)
    |rewrite (bind_raise _ _ _ _ _ _ E2); exists (e1 ++ e2)%list; simpl; auto].
  destruct (resolve_group_names
              (or_empty (AddRestrictionInput.group_names p))
              (map JStr (or_empty (AddRestrictionInput.group_ids p)))
              w (e1 ++ e2)%list) as [r3 tr3] eqn:E3.
  destruct (only_issues_run _ _ _ _ _ _
              (resolve_group_names_silent is_get _ _) E3) as [e3 [-> F3]].
  assert (F123 : Forall is_get ((e1 ++ e2) ++ e3)) by now apply Forall_app.
  destruct r3 as [[outcome|groups]|e];
    [rewrite (bind_ok _ _ _ _ _ _ E3); exists ((e1 ++ e2) ++ e3)%list; simpl; auto
    |rewrite (bind_ok _ _ _ _ _ _ E3)
    |rewrite (bind_raise _ _ _ _ _ _ E3);
     exists ((e1 ++ e2) ++ e3)%list; simpl; auto].
  destruct (negb (list_truthy users) && negb (list_truthy groups)).
  { exists ((e1 ++ e2) ++ e3)%list. simpl. auto. }
  destruct (is_private_or_shared page_title) as [sensitive|e].
  2: { rewrite (bind_raise (lift (Raise e)) _ w ((e1 ++ e2) ++ e3)%list e
                  ((e1 ++ e2) ++ e3)%list eq_refl).
       exists ((e1 ++ e2) ++ e3)%list. simpl. auto. }
  rewrite (bind_ok (lift (Ok sensitive)) _ w ((e1 ++ e2) ++ e3)%list sensitive
             ((e1 ++ e2) ++ e3)%list eq_refl).
  destruct (submit_permissions_trace
              (PyString.join "&"
                 (build_form_data (AddRestrictionInput.operation p) sensitive
                    users groups page_id))
              users groups w ((e1 ++ e2) ++ e3)%list) as [added Hsub].
  destruct added as [[ua ga] errs].
  rewrite (bind_ok _ _ _ _ _ _ Hsub).
  exists ((e1 ++ e2) ++ e3)%list. split; [exact F123|]. right.
  exists (PyString.join "&"
            (build_form_data (AddRestrictionInput.operation p) sensitive
               users groups page_id)).
  reflexivity.
Qed.

(** ** Creating a page *)

(** X16.  When [create_page] is given a parent title and the lookup of that
    title in the space finds nothing (or breaks), it returns "Parent page
    with title '<title>' not found in space '<space>'" after that single
    lookup: nothing is posted, so no page is created at the top level
    instead. *)
Theorem create_page_needs_its_parent
    (w : World) (p : CreatePageInput.t) (title : string) :
  configured w ->
  opt_truthy (CreatePageInput.parent_id p) = false ->
  CreatePageInput.parent_title p = Some title ->
  PyString.nonempty title = true ->
  no_match (backend w [] (lookup_request (CreatePageInput.space_key p) title))
  \/ lookup_broke (backend w [] (lookup_request (CreatePageInput.space_key p) title)) ->
  create_page w p
  = (failure ("Parent page with title '" ++ title ++ "' not found in space '"
                ++ CreatePageInput.space_key p ++ "'"),
     [lookup_request (CreatePageInput.space_key p) title]).
Proof.
  intros Hc Hid Ht Hne Hfail.
  pose proof (_find_page_by_title_none (CreatePageInput.space_key p) title w []
                Hfail) as Hnone.
  unfold create_page, create_page_body. apply tool_ok.
  rewrite (bind_ok _ _ _ _ _ _ Hc). rewrite Hid, Ht.
  replace (opt_truthy (Some title)) with true by (symmetry; exact Hne).
  cbn [andb]. change (Py.str (opt_str (Some title))) with title.
  unfold bind at 1. rewrite (bind_ok _ _ _ _ _ _ Hnone). reflexivity.
Qed.

Lemma create_page_needs_its_parent_witness :
  create_page Scenario.docs Cases.orphan_notes
  = (failure "Parent page with title 'Missing' not found in space 'DOCS'",
     [lookup_request "DOCS" "Missing"]).
Proof.
  apply (create_page_needs_its_parent Scenario.docs Cases.orphan_notes "Missing"
           eq_refl eq_refl eq_refl eq_refl).
  left. exists (Scenario.json_response 200 (JDict [("results", JList [])])),
    [("results", JList [])].
  repeat split; try reflexivity; vm_compute; discriminate.
Defined.

(** X17.  A page without a parent title is created by one POST of the
    payload whose storage value is the prepared content.  A 2xx answer that
    carries an id gives the success outcome, with the page URL built from
    the configured base URL and that id; a 2xx answer without an id gives
    the failure "Error: Unexpected error occurred: KeyError - 'id'" although
    the request was sent; any other status gives the failure
    [_handle_api_error] builds for it. *)
Theorem create_page_reads_the_id_of_the_answer
    (w : World) (p : CreatePageInput.t) (r : Response) :
  configured w ->
  opt_truthy (CreatePageInput.parent_title p) = false ->
  let request := create_request p (opt_str (CreatePageInput.parent_id p)) in
  backend w [] request = Responded r ->
  snd (create_page w p) = [request]
  /\ (forall d id,
         200 <= status_code r <= 299 ->
         body_json r = Ok (JDict d) ->
         Py.lookup "id" d = Some id ->
         fst (create_page w p)
         = JDict [("success", JBool true);
                  ("page_id", id);
                  ("page_url",
                   JStr (CONFLUENCE_URL w ++ "/pages/viewpage.action?pageId="
                           ++ Py.str id));
                  ("title", JStr (CreatePageInput.title p));
                  ("space_key", JStr (CreatePageInput.space_key p));
                  ("message",
                   JStr ("Page '" ++ CreatePageInput.title p
                           ++ "' created successfully"))])
  /\ (forall d,
         200 <= status_code r <= 299 ->
         body_json r = Ok (JDict d) ->
         Py.lookup "id" d = None ->
         fst (create_page w p)
         = failure "Error: Unexpected error occurred: KeyError - 'id'")
  /\ (~ 200 <= status_code r <= 299 ->
      fst (create_page w p)
      = failure (_handle_api_error
                   (HTTPStatusError (status_code r) (text r) (status_error r)))).
Proof.
  intros Hc Ht request Hr.
  assert (Hbody : create_page_body p w []
                  = bind (client_post "/rest/api/content"
                            (JsonBody (create_payload p
                               (_prepare_content_html (CreatePageInput.content p))
                               (opt_str (CreatePageInput.parent_id p)))) [])
                      (fun response =>
                         raise_for_status response ;;;
                         data <- response_json response ;;
                         page_id <- lift (PyOps.getitem data "id") ;;
                         w' <- ask ;;
                         ret (JDict
                           [("success", JBool true);
                            ("page_id", page_id);
                            ("page_url",
                             JStr (CONFLUENCE_URL w'
                                     ++ "/pages/viewpage.action?pageId="
                                     ++ Py.str page_id));
                            ("title", JStr (CreatePageInput.title p));
                            ("space_key", JStr (CreatePageInput.space_key p));
                            ("message",
                             JStr ("Page '" ++ CreatePageInput.title p
                                     ++ "' created successfully"))]))
                      w []).
  { unfold create_page_body. rewrite (bind_ok _ _ _ _ _ _ Hc). rewrite Ht.
    rewrite andb_false_r. reflexivity. }
  subst request.
  assert (Hsend : client_post "/rest/api/content"
                    (JsonBody (create_payload p
                       (_prepare_content_html (CreatePageInput.content p))
                       (opt_str (CreatePageInput.parent_id p)))) [] w []
                  = (Ok r, [create_request p (opt_str (CreatePageInput.parent_id p))])).
  { unfold client_post, send. unfold create_request in Hr. now rewrite Hr. }
  set (request := create_request p (opt_str (CreatePageInput.parent_id p))) in *.
  unfold create_page, tool. rewrite Hbody. rewrite (bind_ok _ _ _ _ _ _ Hsend).
  unfold raise_for_status, response_json.
  destruct ((200 <=? status_code r) && (status_code r <=? 299)) eqn:Es.
  - apply andb_true_iff in Es. destruct Es as [Es1 Es2].
    apply Z.leb_le in Es1, Es2.
    rewrite (bind_ok (ret tt) _ w [request] tt [request] eq_refl).
    destruct (body_json r) as [data|e] eqn:Ej.
    + rewrite (bind_ok (lift (Ok data)) _ w [request] data [request] eq_refl).
      destruct (PyOps.getitem data "id") as [page_id|e'] eqn:Eid.
      * rewrite (bind_ok (lift (Ok page_id)) _ w [request] page_id [request]
                   eq_refl).
        rewrite (bind_ok ask _ w [request] w [request] eq_refl).
        unfold ret. cbn [fst snd].
        split; [reflexivity|]. split; [|split].
        -- intros d id _ Hd Hid. injection Hd as ->.
           simpl in Eid. rewrite Hid in Eid. now injection Eid as <-.
        -- intros d _ Hd Hid. injection Hd as ->.
           simpl in Eid. rewrite Hid in Eid. discriminate.
        -- intros Hn. lia.
      * rewrite (bind_raise (lift (Raise e')) _ w [request] e' [request] eq_refl).
        cbn [fst snd].
        split; [reflexivity|]. split; [|split].
        -- intros d id _ Hd Hid. injection Hd as ->.
           simpl in Eid. rewrite Hid in Eid. discriminate.
        -- intros d _ Hd Hid. injection Hd as ->.
           simpl in Eid. rewrite Hid in Eid. now injection Eid as <-.
        -- intros Hn. lia.
    + rewrite (bind_raise (lift (Raise e)) _ w [request] e [request] eq_refl).
      cbn [fst snd].
      split; [reflexivity|]. split; [|split].
      * intros d id _ Hd. discriminate.
      * intros d _ Hd. discriminate.
      * intros Hn. lia.
  - rewrite (bind_raise (raise (HTTPStatusError (status_code r) (text r)
                                   (status_error r)))
               _ w [request] _ [request] eq_refl).
    cbn [fst snd].
    split; [reflexivity|]. split; [|split].
    + intros d id Hs. apply andb_false_iff in Es.
      destruct Es as [Es | Es]; apply Z.leb_gt in Es; lia.
    + intros d Hs. apply andb_false_iff in Es.
      destruct Es as [Es | Es]; apply Z.leb_gt in Es; lia.
    + intros _. reflexivity.
Qed.

Lemma create_page_reads_the_id_of_the_answer_witness :
  fst (create_page Cases.forgetful Cases.notes)
  = failure "Error: Unexpected error occurred: KeyError - 'id'"
  /\ snd (create_page Cases.forgetful Cases.notes)
     = [create_request Cases.notes JNull].
Proof.
  destruct (create_page_reads_the_id_of_the_answer Cases.forgetful Cases.notes
              (Scenario.json_response 200 (JDict [("title", JStr "Notes")]))
              eq_refl eq_refl eq_refl) as [Htrace [_ [Hmissing _]]].
  split; [|exact Htrace].
  apply (Hmissing [("title", JStr "Notes")]); [simpl; lia | reflexivity | reflexivity].
Defined.

(** ** Listing pages: the content preview *)

Lemma take_short n s : (String.length s <= n)%nat -> PyString.take n s = s.
Proof.
  unfold PyString.take. revert n.
  induction s as [|c s IH]; intros n H.
  - now destruct n.
  - destruct n as [|n]; simpl in *; [lia|]. rewrite IH; [reflexivity | lia].
Qed.

Lemma take_long n s :
  (n <= String.length s)%nat -> String.length (PyString.take n s) = n.
Proof.
  unfold PyString.take. revert n.
  induction s as [|c s IH]; intros n H.
  - destruct n; simpl in *; [reflexivity | lia].
  - destruct n as [|n]; simpl in *; [reflexivity|]. rewrite IH; [reflexivity | lia].
Qed.

Lemma length_append (a b : string) :
  String.length (a ++ b) = (String.length a + String.length b)%nat.
Proof. induction a as [|c a IH]; simpl; congruence. Qed.

(** The preview entries of a page whose storage body is a text. *)
Lemma content_preview_of_text
    (d b storage : list (string * json)) (content : string)
    (w : World) (tr : list Request) :
  Py.lookup "body" d = Some (JDict b) ->
  Py.lookup "storage" b = Some (JDict storage) ->
  Py.lookup "value" storage = Some (JStr content) ->
  exists preview,
    content_preview (JDict d) w tr
    = (Ok [("content_preview", JStr preview);
           ("content_length", JInt (Z.of_nat (String.length content)))],
       tr)
    /\ ((String.length content <= 200)%nat -> preview = content)
    /\ ((200 < String.length content)%nat ->
        preview = PyString.take 200 content ++ "...")
    /\ (String.length preview <= 203)%nat.
Proof.
  intros Hb Hs Hv.
  exists (PyString.take 200 content
            ++ (if 200 <? Z.of_nat (String.length content) then "..." else "")).
  split.
  - unfold content_preview, bind, lift, ret. simpl. rewrite Hb. simpl.
    rewrite Hs. simpl. rewrite Hv. reflexivity.
  - destruct (200 <? Z.of_nat (String.length content)) eqn:E.
    + apply Z.ltb_lt in E. split; [lia|]. split; [reflexivity|].
      rewrite length_append, take_long by lia. simpl. lia.
    + apply Z.ltb_ge in E.
      assert (Hlen : (String.length content <= 200)%nat) by lia.
      assert (Hnil : forall s : string, s ++ "" = s)
        by (induction s as [|c s IH]; simpl; congruence).
      rewrite Hnil, (take_short _ _ Hlen).
      split; [reflexivity|]. split; [lia | lia].
Qed.

(** ** Reading restrictions *)

(** X19.  When the answer to [get_restrictions] is a JSON object without a
    "read" and without an "update" entry, the call succeeds with an empty
    [restrictions] object: the absence of restrictions is no error.  The
    one request it issues asks for the users and the groups of both
    operations. *)
Theorem get_restrictions_of_an_unrestricted_page
    (w : World) (p : GetRestrictionsInput.t) (r : Response)
    (d : list (string * json)) :
  configured w ->
  backend w [] (restrictions_request (GetRestrictionsInput.page_id p))
  = Responded r ->
  200 <= status_code r <= 299 ->
  body_json r = Ok (JDict d) ->
  Py.lookup "read" d = None ->
  Py.lookup "update" d = None ->
  get_restrictions w p
  = (JDict [("success", JBool true);
            ("page_id", JStr (GetRestrictionsInput.page_id p));
            ("restrictions", JDict [])],
     [restrictions_request (GetRestrictionsInput.page_id p)]).
Proof.
  intros Hc Hr Hs Hj Hread Hupdate.
  assert (Hsend : client_get
                    ("/rest/api/content/" ++ GetRestrictionsInput.page_id p
                       ++ "/restriction/byOperation")
                    [("expand",
                      "read.restrictions.user,read.restrictions.group,update.restrictions.user,update.restrictions.group")]
                    w []
                  = (Ok r, [restrictions_request (GetRestrictionsInput.page_id p)])).
  { unfold client_get, send. unfold restrictions_request in Hr. now rewrite Hr. }
  set (request := restrictions_request (GetRestrictionsInput.page_id p)) in *.
  assert (Hstatus : raise_for_status r w [request] = (Ok tt, [request])).
  { unfold raise_for_status.
    replace ((200 <=? status_code r) && (status_code r <=? 299)) with true;
      [reflexivity|].
    symmetry. apply andb_true_iff. split; apply Z.leb_le; lia. }
  assert (Hjson : response_json r w [request] = (Ok (JDict d), [request])).
  { unfold response_json, lift. now rewrite Hj. }
  assert (Hparse : forall operation restrictions tr,
             Py.lookup operation d = None ->
             parse_operation (JDict d) operation restrictions w tr
             = (Ok restrictions, tr)).
  { intros operation restrictions tr Hnone.
    unfold parse_operation, bind, lift. simpl. now rewrite Hnone. }
  unfold get_restrictions, get_restrictions_body. apply tool_ok.
  rewrite (bind_ok _ _ _ _ _ _ Hc), (bind_ok _ _ _ _ _ _ Hsend),
    (bind_ok _ _ _ _ _ _ Hstatus), (bind_ok _ _ _ _ _ _ Hjson).
  rewrite (bind_ok _ _ _ _ _ _ (Hparse "read" [] [request] Hread)).
  rewrite (bind_ok _ _ _ _ _ _ (Hparse "update" [] [request] Hupdate)).
  reflexivity.
Qed.

Lemma get_restrictions_of_an_unrestricted_page_witness :
  get_restrictions Cases.unrestricted (GetRestrictionsInput.mk "12345")
  = (JDict [("success", JBool true); ("page_id", JStr "12345");
            ("restrictions", JDict [])],
     [restrictions_request "12345"]).
Proof.
  apply (get_restrictions_of_an_unrestricted_page Cases.unrestricted
           (GetRestrictionsInput.mk "12345")
           (Scenario.json_response 200 (JDict [("_links", JDict [])]))
           [("_links", JDict [])] eq_refl eq_refl);
    [simpl; lia | reflexivity | reflexivity | reflexivity].
Defined.

(** ** A page that is not found, in the other tools *)

(** X20.  [remove_restrictions] and [get_child_pages] treat a page given by
    title like [add_restrictions] does: when the lookup of the title finds
    nothing (or breaks), they return "Page with title '<title>' not found in
    space '<space>'" after that single request, so no restriction is
    deleted and no listing is requested. *)
Theorem page_not_found_stops_remove_and_listing
    (w : World) (space_key title : string) :
  configured w ->
  PyString.nonempty title = true ->
  PyString.nonempty space_key = true ->
  no_match (backend w [] (lookup_request space_key title))
  \/ lookup_broke (backend w [] (lookup_request space_key title)) ->
  (forall p,
      opt_truthy (RemoveRestrictionInput.page_id p) = false ->
      RemoveRestrictionInput.page_title p = Some title ->
      RemoveRestrictionInput.space_key p = Some space_key ->
      remove_restrictions w p
      = (failure (not_found_message title space_key),
         [lookup_request space_key title]))
  /\ (forall p,
         opt_truthy (GetChildPagesInput.page_id p) = false ->
         GetChildPagesInput.page_title p = Some title ->
         GetChildPagesInput.space_key p = Some space_key ->
         get_child_pages w p
         = (failure (not_found_message title space_key),
            [lookup_request space_key title])).
Proof.
  intros Hc Hnt Hns Hfail.
  pose proof (_find_page_by_title_none space_key title w [] Hfail) as Hnone.
  split; intros p Hid Ht Hs;
    [unfold remove_restrictions, remove_restrictions_body
    |unfold get_child_pages, get_child_pages_body];
    apply tool_ok; rewrite (bind_ok _ _ _ _ _ _ Hc); rewrite Ht, Hs;
    rewrite (bind_ok _ _ _ _ _ _
               (resolve_page_not_found _ title space_key w [] JNull _
                  Hid Hnt Hns Hnone eq_refl));
    reflexivity.
Qed.

Lemma page_not_found_stops_remove_and_listing_witness :
  remove_restrictions Scenario.docs Cases.unrestrict_missing
  = (failure "Page with title 'Missing' not found in space 'DOCS'",
     [lookup_request "DOCS" "Missing"])
  /\ get_child_pages Scenario.docs Cases.children_of_missing
     = (failure "Page with title 'Missing' not found in space 'DOCS'",
        [lookup_request "DOCS" "Missing"]).
Proof.
  assert (Hfail : no_match (backend Scenario.docs []
                              (lookup_request "DOCS" "Missing"))
                  \/ lookup_broke (backend Scenario.docs []
                                     (lookup_request "DOCS" "Missing"))).
  { left. exists (Scenario.json_response 200 (JDict [("results", JList [])])),
      [("results", JList [])].
    repeat split; try reflexivity; vm_compute; discriminate. }
  destruct (page_not_found_stops_remove_and_listing Scenario.docs "DOCS" "Missing"
              eq_refl eq_refl eq_refl Hfail) as [Hremove Hchildren].
  split.
  - apply Hremove; reflexivity.
  - apply Hchildren; reflexivity.
Defined.

(** ** Listing pages: one entry per result *)

Lemma silent_run {A} (m : IO A) w tr r tr' :
  only_issues (fun _ => False) m -> m w tr = (r, tr') -> tr' = tr.
Proof.
  intros Hm E. destruct (only_issues_run _ m w tr r tr' Hm E) as [ext [-> Hext]].
  destruct ext as [|x ext]; [apply app_nil_r|]. now inversion Hext.
Qed.

Lemma for_each_length (f : json -> IO json) items :
  forall w tr ys tr',
    for_each f items w tr = (Ok ys, tr') -> length ys = length items.
Proof.
  induction items as [|x rest IH]; intros w tr ys tr' E; simpl in E.
  - unfold ret in E. now inversion E.
  - unfold bind at 1 in E. destruct (f x w tr) as [[y|e] tr1]; [|discriminate].
    unfold bind at 1 in E.
    destruct (for_each f rest w tr1) as [[ys'|e] tr2] eqn:E'; [|discriminate].
    unfold ret in E. inversion E; subst. simpl. f_equal. eapply IH, E'.
Qed.

Lemma space_pages_query (p : GetSpacePagesInput.t) :
  ((if opt_truthy (GetSpacePagesInput.title p)
    then [("title", Py.str (opt_str (GetSpacePagesInput.title p)))] else [])
   ++ (if opt_truthy (GetSpacePagesInput.expand p)
       then [("expand", Py.str (opt_str (GetSpacePagesInput.expand p)))] else []))%list
  = (optional_param "title" (GetSpacePagesInput.title p)
     ++ optional_param "expand" (GetSpacePagesInput.expand p))%list.
Proof.
  unfold optional_param, opt_truthy, opt_str.
  destruct (GetSpacePagesInput.title p) as [t|],
           (GetSpacePagesInput.expand p) as [e|]; simpl;
    repeat match goal with
           | |- context [PyString.nonempty ?s] => destruct (PyString.nonempty s)
           end; reflexivity.
Qed.

Lemma get_space_pages_success (w : World) (p : GetSpacePagesInput.t)
    (r : Response) (d : list (string * json)) (results : list json) :
  configured w ->
  backend w [] (space_pages_request p) = Responded r ->
  body_json r = Ok (JDict d) ->
  Py.lookup "results" d = Some (JList results) ->
  field "success" (fst (get_space_pages w p)) = Some (JBool true) ->
  exists pages more,
    for_each space_page_info results w [space_pages_request p]
    = (Ok pages, [space_pages_request p])
    /\ get_space_pages w p
       = (JDict ([("success", JBool true);
                  ("space_key", JStr (GetSpacePagesInput.space_key p));
                  ("total_count",
                   match Py.lookup "size" d with
                   | Some size => size
                   | None => JInt 0
                   end);
                  ("returned_count", JInt (len pages));
                  ("start", JInt (GetSpacePagesInput.start p));
                  ("limit", JInt (GetSpacePagesInput.limit p));
                  ("pages", JList pages)] ++ more)%list,
          [space_pages_request p]).
Proof.
  intros Hc Hr Hj Hres.
  set (request := space_pages_request p) in *.
  assert (Hsend : forall query,
             query = (optional_param "title" (GetSpacePagesInput.title p)
                      ++ optional_param "expand" (GetSpacePagesInput.expand p))%list ->
             client_get "/rest/api/content"
               ([("spaceKey", GetSpacePagesInput.space_key p);
                 ("type", "page");
                 ("limit", PyString.of_Z (GetSpacePagesInput.limit p));
                 ("start", PyString.of_Z (GetSpacePagesInput.start p))] ++ query)%list
               w []
             = (Ok r, [request])).
  { intros query ->. unfold client_get, send.
    unfold request, space_pages_request in Hr. now rewrite Hr. }
  specialize (Hsend _ (space_pages_query p)).
  unfold get_space_pages, get_space_pages_body. cbv zeta. unfold tool.
  rewrite (bind_ok _ _ _ _ _ _ Hc), (bind_ok _ _ _ _ _ _ Hsend).
  destruct (raise_for_status r w [request]) as [[[]|e] tr0] eqn:Hstatus.
  2:{ rewrite (bind_raise _ _ _ _ _ _ Hstatus). discriminate. }
  assert (tr0 = [request]) as ->.
  { eapply silent_run, Hstatus. apply raise_for_status_silent. }
  rewrite (bind_ok _ _ _ _ _ _ Hstatus).
  assert (Hjson : response_json r w [request] = (Ok (JDict d), [request])).
  { unfold response_json, lift. now rewrite Hj. }
  rewrite (bind_ok _ _ _ _ _ _ Hjson).
  rewrite (bind_ok (lift (PyOps.get (JDict d) "results" (JList []))) _ w [request]
             (JList results) [request])
    by (unfold lift, PyOps.get; now rewrite Hres).
  rewrite (bind_ok (lift (PyOps.iter (JList results))) _ w [request]
             results [request] eq_refl).
  destruct (for_each space_page_info results w [request]) as [[pages|e] tr1] eqn:Heach.
  2:{ rewrite (bind_raise _ _ _ _ _ _ Heach). discriminate. }
  assert (tr1 = [request]) as ->.
  { eapply silent_run, Heach. apply only_issues_for_each. intros page.
    unfold space_page_info.
    apply only_issues_bind; [apply page_summary_silent|]. intros summary.
    apply only_issues_bind; [apply content_preview_silent|]. intros preview.
    apply only_issues_ret. }
  rewrite (bind_ok _ _ _ _ _ _ Heach).
  rewrite (bind_ok (lift (PyOps.get (JDict d) "size" (JInt 0))) _ w [request]
             _ [request] eq_refl).
  destruct (pagination (JDict d) (GetSpacePagesInput.start p)
              (GetSpacePagesInput.limit p) w [request]) as [[more|e] tr2] eqn:Hmore.
  2:{ rewrite (bind_raise _ _ _ _ _ _ Hmore). discriminate. }
  assert (tr2 = [request]) as ->.
  { eapply silent_run, Hmore. apply pagination_silent. }
  rewrite (bind_ok _ _ _ _ _ _ Hmore). unfold ret.
  intros _. exists pages, more. split; reflexivity.
Qed.

(** X21.  [get_space_pages] sends one GET, with the title and the expand
    parameter only when they are given and not empty.  Whenever it reports
    success, [pages] holds exactly one entry per result of the answer and
    [returned_count] is their number, while [total_count] is the "size" the
    server sent (0 when it sent none), not a count of its own. *)
Theorem space_listing_has_one_entry_per_result
    (w : World) (p : GetSpacePagesInput.t) (r : Response)
    (d : list (string * json)) (results : list json) :
  configured w ->
  backend w [] (space_pages_request p) = Responded r ->
  body_json r = Ok (JDict d) ->
  Py.lookup "results" d = Some (JList results) ->
  field "success" (fst (get_space_pages w p)) = Some (JBool true) ->
  snd (get_space_pages w p) = [space_pages_request p]
  /\ field "returned_count" (fst (get_space_pages w p))
     = Some (JInt (len results))
  /\ field "total_count" (fst (get_space_pages w p))
     = Some (match Py.lookup "size" d with Some size => size | None => JInt 0 end)
  /\ exists pages,
       field "pages" (fst (get_space_pages w p)) = Some (JList pages)
       /\ length pages = length results.
Proof.
  intros Hc Hr Hj Hres Hsuccess.
  destruct (get_space_pages_success w p r d results Hc Hr Hj Hres Hsuccess)
    as [pages [more [Heach Hrun]]].
  rewrite Hrun. simpl fst. simpl snd.
  split; [reflexivity|]. split.
  - unfold len. now rewrite (for_each_length _ _ _ _ _ _ Heach).
  - split; [reflexivity|]. exists pages. split; [reflexivity|].
    eapply for_each_length, Heach.
Qed.

Lemma space_listing_has_one_entry_per_result_witness :
  snd (get_space_pages Cases.listing Cases.first_two_of_docs)
  = [mkRequest GET "/rest/api/content"
       [("spaceKey", "DOCS"); ("type", "page"); ("limit", "2"); ("start", "0")]
       NoBody []]
  /\ field "returned_count" (fst (get_space_pages Cases.listing Cases.first_two_of_docs))
     = Some (JInt 2)
  /\ field "total_count" (fst (get_space_pages Cases.listing Cases.first_two_of_docs))
     = Some (JInt 7).
Proof.
  destruct (space_listing_has_one_entry_per_result Cases.listing
              Cases.first_two_of_docs
              (Scenario.json_response 200 Cases.two_pages)
              [("results",
                JList [JDict [("id", JStr "1"); ("title", JStr "Home")];
                       JDict [("id", JStr "2"); ("title", JStr "Notes");
                              ("_links",
                               JDict [("webui", JStr "/display/DOCS/Notes")])]]);
               ("size", JInt 7);
               ("_links", JDict [("next", JStr "/rest/api/content?start=2")])]
              [JDict [("id", JStr "1"); ("title", JStr "Home")];
               JDict [("id", JStr "2"); ("title", JStr "Notes");
                      ("_links", JDict [("webui", JStr "/display/DOCS/Notes")])]]
              eq_refl eq_refl eq_refl eq_refl eq_refl)
    as [Htrace [Hcount [Htotal _]]].
  split; [exact Htrace|]. split; [exact Hcount | exact Htotal].
Defined.

(** ** Listing pages: the content preview *)

Lemma for_each_nth (f : json -> IO json) items :
  forall w tr ys tr' i x,
    for_each f items w tr = (Ok ys, tr') ->
    nth_error items i = Some x ->
    exists y tr1 tr2, nth_error ys i = Some y /\ f x w tr1 = (Ok y, tr2).
Proof.
  induction items as [|x0 rest IH]; intros w tr ys tr' i x E Hnth.
  - destruct i; discriminate.
  - simpl in E. unfold bind at 1 in E.
    destruct (f x0 w tr) as [[y0|e] tr1] eqn:E0; [|discriminate].
    unfold bind at 1 in E.
    destruct (for_each f rest w tr1) as [[ys'|e] tr2] eqn:E'; [|discriminate].
    unfold ret in E. inversion E; subst. destruct i as [|i]; simpl in Hnth.
    + injection Hnth as <-. exists y0, tr, tr1. split; [reflexivity | exact E0].
    + destruct (IH _ _ _ _ _ _ E' Hnth) as [y [t1 [t2 [H1 H2]]]].
      exists y, t1, t2. split; [exact H1 | exact H2].
Qed.

Lemma lookup_app key (a b : list (string * json)) :
  Py.lookup key (a ++ b)
  = match Py.lookup key a with
    | Some x => Some x
    | None => Py.lookup key b
    end.
Proof.
  induction a as [|[k x] a IH]; simpl; [reflexivity|].
  destruct (String.eqb key k); [reflexivity | exact IH].
Qed.

Lemma returns_ret {A} (P : A -> Prop) (a : A) : P a -> returns P (ret a).
Proof. intros H w tr a' tr' E. unfold ret in E. now injection E as <- _. Qed.

Lemma returns_bind {A B} (P : B -> Prop) (m : IO A) (k : A -> IO B) :
  (forall a, returns P (k a)) -> returns P (bind m k).
Proof.
  intros Hk w tr b tr' E. unfold bind in E.
  destruct (m w tr) as [[a|e] tr1]; [|discriminate]. exact (Hk a _ _ _ _ E).
Qed.

Lemma returns_bind_with {A B} (Q : A -> Prop) (P : B -> Prop)
    (m : IO A) (k : A -> IO B) :
  returns Q m -> (forall a, Q a -> returns P (k a)) -> returns P (bind m k).
Proof.
  intros Hm Hk w tr b tr' E. unfold bind in E.
  destruct (m w tr) as [[a|e] tr1] eqn:Em; [|discriminate].
  exact (Hk a (Hm _ _ _ _ Em) _ _ _ _ E).
Qed.

Lemma returns_if {A} (P : A -> Prop) (c : bool) (m1 m2 : IO A) :
  returns P m1 -> returns P m2 -> returns P (if c then m1 else m2).
Proof. now destruct c. Qed.

Lemma page_summary_has_no_preview page :
  returns without_preview (page_summary page).
Proof.
  unfold page_summary.
  do 7 (apply returns_bind; intros ?).
  apply returns_bind; intros has_version.
  apply (returns_bind_with without_preview).
  { apply returns_if; [|now apply returns_ret].
    do 5 (apply returns_bind; intros ?). now apply returns_ret. }
  intros version [Hv1 Hv2].
  apply returns_bind; intros has_space.
  apply (returns_bind_with without_preview).
  { apply returns_if; [|now apply returns_ret].
    do 3 (apply returns_bind; intros ?). now apply returns_ret. }
  intros space [Hs1 Hs2].
  apply returns_bind; intros has_history.
  apply (returns_bind_with without_preview).
  { apply returns_if; [|now apply returns_ret].
    do 4 (apply returns_bind; intros ?). now apply returns_ret. }
  intros history [Hh1 Hh2].
  apply returns_ret. unfold without_preview. cbn [app Py.lookup].
  simpl String.eqb. cbv iota.
  rewrite !lookup_app, Hv1, Hv2, Hs1, Hs2, Hh1, Hh2. now split.
Qed.

(** X18.  For a listed page whose storage body is a text, the entry that
    [get_space_pages] returns for it (at the same position of [pages])
    carries [content_length], the exact length of the text, and
    [content_preview]: the text itself when it has at most 200 characters,
    otherwise its first 200 characters followed by "...", so never more than
    203 characters. *)
Theorem content_preview_is_bounded
    (w : World) (p : GetSpacePagesInput.t) (r : Response)
    (d : list (string * json)) (results : list json) (i : nat)
    (page b storage : list (string * json)) (content : string) :
  configured w ->
  backend w [] (space_pages_request p) = Responded r ->
  body_json r = Ok (JDict d) ->
  Py.lookup "results" d = Some (JList results) ->
  field "success" (fst (get_space_pages w p)) = Some (JBool true) ->
  nth_error results i = Some (JDict page) ->
  Py.lookup "body" page = Some (JDict b) ->
  Py.lookup "storage" b = Some (JDict storage) ->
  Py.lookup "value" storage = Some (JStr content) ->
  exists pages entry preview,
    field "pages" (fst (get_space_pages w p)) = Some (JList pages)
    /\ nth_error pages i = Some entry
    /\ field "content_preview" entry = Some (JStr preview)
    /\ field "content_length" entry
       = Some (JInt (Z.of_nat (String.length content)))
    /\ ((String.length content <= 200)%nat -> preview = content)
    /\ ((200 < String.length content)%nat ->
        preview = PyString.take 200 content ++ "...")
    /\ (String.length preview <= 203)%nat.
Proof.
  intros Hc Hr Hj Hres Hsuccess Hnth Hb Hs Hv.
  destruct (get_space_pages_success w p r d results Hc Hr Hj Hres Hsuccess)
    as [pages [more [Heach Hrun]]].
  destruct (for_each_nth _ _ _ _ _ _ _ _ Heach Hnth)
    as [entry [t1 [t2 [Hentry Hinfo]]]].
  unfold space_page_info in Hinfo. unfold bind at 1 in Hinfo.
  destruct (page_summary (JDict page) w t1) as [[summary|e] t3] eqn:Hsummary;
    [|discriminate].
  destruct (page_summary_has_no_preview _ _ _ _ _ Hsummary) as [Hn1 Hn2].
  destruct (content_preview_of_text page b storage content w t3 Hb Hs Hv)
    as [preview [Hpreview [Hshort [Hlong Hbound]]]].
  rewrite (bind_ok _ _ _ _ _ _ Hpreview) in Hinfo.
  unfold ret in Hinfo. injection Hinfo as <- _.
  exists pages, (JDict (summary ++ [("content_preview", JStr preview);
                                   ("content_length",
                                    JInt (Z.of_nat (String.length content)))])%list),
    preview.
  rewrite Hrun. simpl fst.
  split; [reflexivity|]. split; [exact Hentry|].
  unfold field. rewrite !lookup_app, Hn1, Hn2.
  split; [reflexivity|]. split; [reflexivity|].
  split; [exact Hshort|]. split; [exact Hlong | exact Hbound].
Qed.

Lemma content_preview_is_bounded_witness :
  exists pages entry,
    field "pages" (fst (get_space_pages Cases.notebook Cases.first_two_of_docs))
    = Some (JList pages)
    /\ nth_error pages 1 = Some entry
    /\ field "content_preview" entry = Some (JStr "Remember the milk")
    /\ field "content_length" entry = Some (JInt 17).
Proof.
  destruct (content_preview_is_bounded Cases.notebook Cases.first_two_of_docs
              (Scenario.json_response 200
                 (JDict [("results",
                          JList [JDict [("id", JStr "1")];
                                 Cases.page_with_content "Remember the milk"])]))
              [("results",
                JList [JDict [("id", JStr "1")];
                       Cases.page_with_content "Remember the milk"])]
              [JDict [("id", JStr "1")];
               Cases.page_with_content "Remember the milk"]
              1
              [("id", JStr "1");
               ("body", JDict [("storage",
                                JDict [("value", JStr "Remember the milk")])])]
              [("storage", JDict [("value", JStr "Remember the milk")])]
              [("value", JStr "Remember the milk")]
              "Remember the milk"
              eq_refl eq_refl eq_refl eq_refl eq_refl eq_refl eq_refl eq_refl
              eq_refl)
    as [pages [entry [preview [Hpages [Hentry [Hp [Hl [Hshort _]]]]]]]].
  exists pages, entry. split; [exact Hpages|]. split; [exact Hentry|].
  split; [|exact Hl].
  rewrite Hp. do 2 f_equal. apply Hshort. simpl. lia.
Defined.

(** * Failure containment *)

(** ** Failures among the requests of a computation *)

Section Guards.

Variable absorbed : Request -> Reply -> Prop.

Lemma unabsorbed_failure_nil w tr : ~ unabsorbed_failure absorbed w tr [].
Proof. intros [before [req [after [H _]]]]. destruct before; discriminate. Qed.












(** *** The lookups *)



Hypothesis tolerates_title :
  forall page_id reply, absorbed (title_request page_id) reply.



End Guards.






(** *** The steps of the sync session *)



(** ** The bodies of the tools *)












(** ** The tools *)








